(** * Cryptocompare historical price resolution

    A shallow embedding of [rotkehlchen/externalapis/cryptocompare.py]:
    the rate-limited remote query, the two-hop synthesizer for special
    assets, the hourly backfill with its file cache, the nearest-timestamp
    resolver and the USD consistency adjuster.

    Conventions of the embedding:
    - Python [int] is [Z]; [FVal] (a decimal) is a rational [Q]; a
      decimal and its string rendering are identified, so [str (FVal a)]
      read back by [FVal] is [a].  Products, the midpoint and the inverse
      are kept exact; the quotients and the difference of the consistency
      adjuster, whose ten-percent test depends on their last digit, are
      rounded to the precision of the decimal context ([decimal_round]).
    - JSON payloads are values of [json]; a JSON object is an association
      list, read with first-match lookup.
    - Exceptions are values of [error]; a computation returns [res A].
    - The instance's dictionaries, the data directory and the traffic with
      the remote server form the [world] that stateful methods thread. *)

From Stdlib Require Import ZArith QArith Qabs Qminmax String List Lia.
From stdpp Require Import base option list gmap strings.

Import ListNotations.
Local Open Scope Z_scope.

(** ** Identifiers *)

(** An [Asset] is represented by its identifier. *)
Definition Asset : Type := string.
Definition Timestamp : Type := Z.
Definition Price : Type := Q.
Definition PairCacheKey : Type := string.

Definition A_BTC : Asset := "BTC"%string.
Definition A_COMP : Asset := "COMP"%string.
Definition A_DAI : Asset := "DAI"%string.
Definition A_USD : Asset := "USD"%string.
Definition A_USDT : Asset := "USDT"%string.
Definition A_WETH : Asset := "WETH"%string.

Definition asset_eqb (a b : Asset) : bool := bool_decide (a = b).

(** ** JSON values *)

#[warnings="-register-all"]
Inductive json : Type :=
| JNull
| JBool (b : bool)
| JInt (z : Z)
| JDec (q : Q)
| JStr (s : string)
| JList (l : list json)
| JDict (d : list (string * json)).

(** ** Remote queries, errors, results *)

(** The relative query paths built by the three endpoints (and the coin
    list), kept structured instead of rendered as a URL string. *)
Inductive query : Type :=
| Histohour (fsym tsym : string) (limit : Z) (toTs : Timestamp)
| PriceNow (fsym tsyms : string)
| PriceHistorical (fsym tsyms : string) (ts : Timestamp) (no_conversion : bool)
| CoinList.

(** The distinct [RemoteError] messages of the module. *)
Inductive remote_failure : Type :=
| ConnectionFailed
| InvalidJSON
| QueryFailed (q : query) (message : option json)
| HourlyGap (index index' : Z) (from_asset to_asset : Asset) (diff : Z)
| PreviousTimestampMissing
| EndDatesDontMatch.

Inductive error : Type :=
| RemoteError (why : remote_failure)
| KeyError (key : string)
| IndexError
| TypeError
| ValueError
| DivisionByZero
| UnsupportedAsset (asset_name : string)
| PriceQueryUnsupportedAsset (asset_name : string)
| NoPriceForGivenTimestamp (from_asset to_asset : Asset) (timestamp : Timestamp)
| RuntimeError
| AssertionError
| OutOfFuel.

Inductive res (A : Type) : Type :=
| Ok (a : A)
| Raise (e : error).
Arguments Ok {A} a.
Arguments Raise {A} e.

Definition res_bind {A B : Type} (m : res A) (k : A -> res B) : res B :=
  match m with
  | Ok a => k a
  | Raise e => Raise e
  end.

Notation "'let?' x := m 'in' k" := (res_bind m (fun x => k))
  (at level 10, x name, m at level 100, k at level 200).

Definition is_ok {A : Type} (r : res A) : bool :=
  match r with Ok _ => true | Raise _ => false end.

(** ** The Python operations used on JSON values *)

Fixpoint dict_get (d : list (string * json)) (key : string) : option json :=
  match d with
  | [] => None
  | (k, v) :: d' => if bool_decide (k = key) then Some v else dict_get d' key
  end.

(** [obj[key]] *)
Definition getitem (obj : json) (key : string) : res json :=
  match obj with
  | JDict d =>
      match dict_get d key with
      | Some v => Ok v
      | None => Raise (KeyError key)
      end
  | _ => Raise TypeError
  end.

(** [obj.get(key, default)] *)
Definition get_default (obj : json) (key : string) (default : json) : res json :=
  match obj with
  | JDict d => Ok (from_option id default (dict_get d key))
  | _ => Raise TypeError
  end.

(** [key in obj] *)
Definition contains (obj : json) (key : string) : bool :=
  match obj with
  | JDict d => bool_decide (is_Some (dict_get d key))
  | _ => false
  end.

(** [seq[i]] on a Python list: a negative index counts from the end. *)
Definition list_index {A : Type} (l : list A) (i : Z) : res A :=
  let n := Z.of_nat (length l) in
  let j := if i <? 0 then i + n else i in
  if (j <? 0) || (n <=? j) then Raise IndexError
  else match l !! Z.to_nat j with
       | Some x => Ok x
       | None => Raise IndexError
       end.

Definition as_list (j : json) : res (list json) :=
  match j with
  | JList l => Ok l
  | _ => Raise TypeError
  end.

Definition as_int (j : json) : res Z :=
  match j with
  | JInt z => Ok z
  | _ => Raise TypeError
  end.

(** [FVal(x)]: integers and decimals convert, other strings do not. *)
Definition FVal (j : json) : res Q :=
  match j with
  | JInt z => Ok (inject_Z z)
  | JDec q => Ok q
  | JStr _ => Raise ValueError
  | _ => Raise TypeError
  end.

(** [entry['time']] read as an integer. *)
Definition time_of (entry : json) : res Z :=
  let? t := getitem entry "time" in as_int t.

(** ** Module-level tables and records *)

Definition RATE_LIMIT_MSG : string :=
  "You are over your rate limit please upgrade your account!"%string.
Definition CRYPTOCOMPARE_QUERY_RETRY_TIMES : nat := 10.

Record PriceHistoryEntry : Type := mkEntry {
  time : Timestamp;
  low : Price;
  high : Price
}.

Arguments mkEntry time%_Z low%_Q high%_Q.

Record PriceHistoryData : Type := mkData {
  data : list PriceHistoryEntry;
  start_time : Timestamp;
  end_time : Timestamp
}.

Record HistoHourAssetData : Type := mkHistoHour {
  timestamp : Timestamp;
  usd_price : Price
}.

Definition CRYPTOCOMPARE_SPECIAL_HISTOHOUR_CASES : gmap Asset HistoHourAssetData :=
  {[ A_COMP := mkHistoHour 1592632800 (20293 # 100) ]}.

Definition special_cases_table : list (Asset * Asset) :=
  [
    ("TLN"%string, A_WETH);
    ("BLY"%string, A_USDT);
    ("cDAI"%string, A_DAI);
    ("cCOMP"%string, A_COMP);
    ("cBAT"%string, "BAT"%string);
    ("cREP"%string, "REP"%string);
    ("cSAI"%string, "SAI"%string);
    ("cUSDC"%string, "USDC"%string);
    ("cUSDT"%string, A_USDT);
    ("cWBTC"%string, "WBTC"%string);
    ("cUNI"%string, "UNI"%string);
    ("cZRX"%string, "ZRX"%string);
    ("ADADOWN"%string, A_USDT);
    ("ADAUP"%string, A_USDT);
    ("BNBDOWN"%string, A_USDT);
    ("BNBUP"%string, A_USDT);
    ("BTCDOWN"%string, A_USDT);
    ("BTCUP"%string, A_USDT);
    ("ETHDOWN"%string, A_USDT);
    ("ETHUP"%string, A_USDT);
    ("EOSDOWN"%string, A_USDT);
    ("EOSUP"%string, A_USDT);
    ("DOTDOWN"%string, A_USDT);
    ("DOTUP"%string, A_USDT);
    ("LTCDOWN"%string, A_USDT);
    ("LTCUP"%string, A_USDT);
    ("TRXDOWN"%string, A_USDT);
    ("TRXUP"%string, A_USDT);
    ("XRPDOWN"%string, A_USDT);
    ("XRPUP"%string, A_USDT);
    ("DEXT"%string, A_USDT);
    ("DOS"%string, A_USDT);
    ("GEEQ"%string, A_USDT);
    ("LINKDOWN"%string, A_USDT);
    ("LINKUP"%string, A_USDT);
    ("XTZDOWN"%string, A_USDT);
    ("XTZUP"%string, A_USDT);
    ("STAKE"%string, A_USDT);
    ("MCB"%string, A_USDT);
    ("TRB"%string, A_USDT);
    ("YFI"%string, A_USDT);
    ("YAM"%string, A_USDT);
    ("DEC-2"%string, A_USDT);
    ("ORN"%string, A_USDT);
    ("PERX"%string, A_USDT);
    ("PRQ"%string, A_USDT);
    ("RING"%string, A_USDT);
    ("SBREE"%string, A_USDT);
    ("YFII"%string, A_USDT);
    ("BZRX"%string, A_USDT);
    ("CREAM"%string, A_USDT);
    ("ADEL"%string, A_USDT);
    ("ANK"%string, A_USDT);
    ("CORN"%string, A_USDT);
    ("SAL"%string, A_USDT);
    ("CRT"%string, A_USDT);
    ("FSW"%string, A_USDT);
    ("JFI"%string, A_USDT);
    ("PEARL"%string, A_USDT);
    ("TAI"%string, A_USDT);
    ("YFL"%string, A_USDT);
    ("TRUMPWIN"%string, A_USDT);
    ("TRUMPLOSE"%string, A_USDT);
    ("KLV"%string, A_USDT);
    ("KRT"%string, "KRW"%string);
    ("RVC"%string, A_USDT);
    ("SDT"%string, A_USDT);
    ("CHI"%string, A_USDT);
    ("BAKE"%string, "BNB"%string);
    ("BURGER"%string, "BNB"%string);
    ("CAKE"%string, "BNB"%string);
    ("BREE"%string, A_USDT);
    ("GHST"%string, A_USDT);
    ("MEXP"%string, A_USDT);
    ("POLS"%string, A_USDT);
    ("RARI"%string, A_USDT);
    ("VALUE"%string, A_USDT);
    ("$BASED"%string, A_WETH);
    ("DPI"%string, A_WETH);
    ("JRT"%string, A_USDT);
    ("PICKLE"%string, A_USDT);
    ("FILDOWN"%string, A_USDT);
    ("FILUP"%string, A_USDT);
    ("YFIDOWN"%string, A_USDT);
    ("YFIUP"%string, A_USDT);
    ("BOT"%string, A_USDT)
  ].

Definition CRYPTOCOMPARE_SPECIAL_CASES_MAPPING : gmap Asset Asset :=
  list_to_map special_cases_table.

(** [asset in CRYPTOCOMPARE_SPECIAL_CASES] (the keys of the mapping) *)
Definition in_special_cases (asset : Asset) : bool :=
  bool_decide (is_Some (CRYPTOCOMPARE_SPECIAL_CASES_MAPPING !! asset)).

(** [_dict_history_to_entries] *)
Fixpoint _dict_history_to_entries (l : list json) : res (list PriceHistoryEntry) :=
  match l with
  | [] => Ok []
  | entry :: l' =>
      let? t := time_of entry in
      let? lo := (let? v := getitem entry "low" in FVal v) in
      let? hi := (let? v := getitem entry "high" in FVal v) in
      let? rest := _dict_history_to_entries l' in
      Ok (mkEntry t lo hi :: rest)
  end.

(** [_dict_history_to_data] *)
Definition _dict_history_to_data (d : json) : res PriceHistoryData :=
  let? raw := getitem d "data" in
  let? l := as_list raw in
  let? entries := _dict_history_to_entries l in
  let? st := (let? v := getitem d "start_time" in as_int v) in
  let? en := (let? v := getitem d "end_time" in as_int v) in
  Ok (mkData entries st en).

(** [_multiply_str_nums] *)
Definition _multiply_str_nums (a b : json) : res json :=
  let? x := FVal a in
  let? y := FVal b in
  Ok (JDec (x * y)%Q).

(** ** The hourly sanity check *)

(** [pairwise] zips one iterator with itself: it yields the disjoint pairs
    (s0, s1), (s2, s3), ... and drops a last unpaired element.  The loop of
    [_check_hourly_data_sanity] runs over those pairs with [index] advancing
    by two. *)
Fixpoint pairwise {A : Type} (l : list A) : list (A * A) :=
  match l with
  | a :: b :: rest => (a, b) :: pairwise rest
  | _ => []
  end.

Fixpoint check_pairs (index : Z) (pairs : list (json * json))
    (from_asset to_asset : Asset) : res unit :=
  match pairs with
  | [] => Ok tt
  | (n1, n2) :: rest =>
      let? t2 := time_of n2 in
      let? t1 := time_of n1 in
      let diff := t2 - t1 in
      if negb (diff =? 3600)
      then Raise (RemoteError (HourlyGap index (index + 1) from_asset to_asset diff))
      else check_pairs (index + 2) rest from_asset to_asset
  end.

Definition _check_hourly_data_sanity (data : list json)
    (from_asset to_asset : Asset) : res unit :=
  check_pairs 0 (pairwise data) from_asset to_asset.

(** ** The world: instance state, data directory, remote traffic *)

Inductive http_response : Type :=
| ConnectionError
| BadBody
| Body (json_ret : json).

(** What a cache file holds: a JSON document, or text that is not JSON. *)
Inductive file : Type :=
| FileJson (doc : json)
| FileGarbage.

Record world : Type := mkWorld {
  requests : list query;
  sleeps : list Q;
  price_history : gmap PairCacheKey PriceHistoryData;
  price_history_file : gmap PairCacheKey string;
  files : gmap string file
}.

Definition M (A : Type) : Type := world -> res A * world.

Definition ret {A : Type} (a : A) : M A := fun w => (Ok a, w).
Definition raise {A : Type} (e : error) : M A := fun w => (Raise e, w).
Definition lift {A : Type} (r : res A) : M A := fun w => (r, w).
Definition bind {A B : Type} (m : M A) (k : A -> M B) : M B :=
  fun w =>
    match m w with
    | (Ok a, w') => k a w'
    | (Raise e, w') => (Raise e, w')
    end.

Notation "'let*' x := m 'in' k" := (bind m (fun x => k))
  (at level 10, x name, m at level 100, k at level 200).
Notation "m ;; k" := (bind m (fun _ => k))
  (at level 100, k at level 200, right associativity).

(** What surrounds the instance: the remote server (its answer may depend on
    how many requests were already made), the asset-to-symbol translation,
    the fiat test of [Asset], the [PriceHistorian] singleton, the clock and
    the data directory. *)
Record Env : Type := mkEnv {
  server : nat -> query -> http_response;
  to_cryptocompare : Asset -> res string;
  is_fiat : Asset -> bool;
  historian : Asset -> Asset -> Timestamp -> M Price;
  ts_now : Timestamp;
  data_directory : string
}.

(** ** The instance in its environment *)

Section Cryptocompare.

Variable E : Env.

(** [self.session.get(querystr)] *)
Definition session_get (path : query) : M http_response :=
  fun w =>
    (Ok (server E (length (requests w)) path),
     mkWorld (requests w ++ [path]) (sleeps w)
             (price_history w) (price_history_file w) (files w)).

(** [gevent.sleep(seconds)] *)
Definition sleep (seconds : Q) : M unit :=
  fun w =>
    (Ok tt,
     mkWorld (requests w) (sleeps w ++ [seconds])
             (price_history w) (price_history_file w) (files w)).

(** ** [_api_query] *)

(** [json_ret.get('Message', None) == RATE_LIMIT_MSG] *)
Definition rate_limited (json_ret : json) : res bool :=
  match json_ret with
  | JDict d =>
      match dict_get d "Message" with
      | Some (JStr s) => Ok (bool_decide (s = RATE_LIMIT_MSG))
      | _ => Ok false
      end
  | _ => Raise TypeError
  end.

(** [json_ret.get('Response', 'Success') != 'Success'] *)
Definition not_success (json_ret : json) : res bool :=
  match json_ret with
  | JDict d =>
      match dict_get d "Response" with
      | None => Ok false
      | Some (JStr s) => Ok (negb (bool_decide (s = "Success"%string)))
      | Some _ => Ok true
      end
  | _ => Raise TypeError
  end.

(** The part of the loop body after the rate-limit test: report a
    non-success status, otherwise hand out [Data] or the whole payload. *)
Definition payload_result (path : query) (json_ret : json) : res json :=
  let? failed := not_success json_ret in
  if failed
  then Raise (RemoteError (QueryFailed path
                (match json_ret with JDict d => dict_get d "Message" | _ => None end)))
  else if contains json_ret "Data" then getitem json_ret "Data" else Ok json_ret.

(** The [while tries >= 0] loop.  [tries] starts at 10 and is decremented
    only under [tries >= 1], so it never becomes negative: the loop is
    entered with a natural number and leaves through a return or a raise. *)
Fixpoint api_query_loop (tries : nat) (path : query) : M json :=
  let* response := session_get path in
  match response with
  | ConnectionError => raise (RemoteError ConnectionFailed)
  | BadBody => raise (RemoteError InvalidJSON)
  | Body json_ret =>
      let* limited := lift (rate_limited json_ret) in
      match limited, tries with
      | true, S tries' =>
          let backoff_seconds := (20 / inject_Z (Z.of_nat tries))%Q in
          sleep backoff_seconds ;;
          api_query_loop tries' path
      | _, _ => lift (payload_result path json_ret)
      end
  end.

Definition _api_query (path : query) : M json :=
  api_query_loop CRYPTOCOMPARE_QUERY_RETRY_TIMES path.

(** ** The three endpoints and [_special_case_handling] *)

(** [method_name] together with the keyword arguments passed on. *)
Inductive method : Type :=
| histohour_method (limit : Z) (to_timestamp : Timestamp)
| price_method
| pricehistorical_method (timestamp : Timestamp).

(** The two [to_cryptocompare] calls under [except UnsupportedAsset]. *)
Definition cc_symbols (from_asset to_asset : Asset) : res (string * string) :=
  match to_cryptocompare E from_asset with
  | Ok cc_from_asset_symbol =>
      match to_cryptocompare E to_asset with
      | Ok cc_to_asset_symbol => Ok (cc_from_asset_symbol, cc_to_asset_symbol)
      | Raise (UnsupportedAsset name) => Raise (PriceQueryUnsupportedAsset name)
      | Raise e => Raise e
      end
  | Raise (UnsupportedAsset name) => Raise (PriceQueryUnsupportedAsset name)
  | Raise e => Raise e
  end.

(** Each endpoint below its special-case guard: what the method does when
    called with [handling_special_case=True], or for ordinary assets. *)
Definition histohour_remote (from_asset to_asset : Asset)
    (limit : Z) (to_timestamp : Timestamp) : M json :=
  let* syms := lift (cc_symbols from_asset to_asset) in
  _api_query (Histohour (fst syms) (snd syms) limit to_timestamp).

Definition price_remote (from_asset to_asset : Asset) : M json :=
  let* syms := lift (cc_symbols from_asset to_asset) in
  _api_query (PriceNow (fst syms) (snd syms)).

Definition pricehistorical_remote (from_asset to_asset : Asset)
    (timestamp : Timestamp) : M json :=
  let* syms := lift (cc_symbols from_asset to_asset) in
  let* result :=
    _api_query (PriceHistorical (fst syms) (snd syms) timestamp
                    (asset_eqb to_asset "BTC")) in
  lift (let? by_from := getitem result (fst syms) in
        let? quote := getitem by_from (snd syms) in
        let? p := FVal quote in
        Ok (JDec p)).

(** [method(..., handling_special_case=True, **kwargs)] *)
Definition call_handling (m : method) (from_asset to_asset : Asset) : M json :=
  match m with
  | histohour_method limit to_timestamp =>
      histohour_remote from_asset to_asset limit to_timestamp
  | price_method => price_remote from_asset to_asset
  | pricehistorical_method timestamp =>
      pricehistorical_remote from_asset to_asset timestamp
  end.

(** One entry of the synthesized hourly series. *)
Definition combine_entry (entry entry2 : json) : res json :=
  let? t := getitem entry "time" in
  let? hi := (let? a := getitem entry "high" in
              let? b := getitem entry2 "high" in _multiply_str_nums a b) in
  let? lo := (let? a := getitem entry "low" in
              let? b := getitem entry2 "low" in _multiply_str_nums a b) in
  let? op := (let? a := getitem entry "open" in
              let? b := getitem entry2 "open" in _multiply_str_nums a b) in
  let? vf := getitem entry "volumefrom" in
  let? vt := getitem entry "volumeto" in
  let? cl := (let? a := getitem entry "close" in
              let? b := getitem entry2 "close" in _multiply_str_nums a b) in
  let? ct := getitem entry "conversionType" in
  let? cs := getitem entry "conversionSymbol" in
  Ok (JDict [("time"%string, t); ("high"%string, hi); ("low"%string, lo);
             ("open"%string, op); ("volumefrom"%string, vf);
             ("volumeto"%string, vt); ("close"%string, cl);
             ("conversionType"%string, ct); ("conversionSymbol"%string, cs)]).

(** [for idx, entry in enumerate(result1)] *)
Fixpoint combine_entries (idx : Z) (result1 result2 : list json) : res (list json) :=
  match result1 with
  | [] => Ok []
  | entry :: rest =>
      let? entry2 := list_index result2 idx in
      let? combined := combine_entry entry entry2 in
      let? tail := combine_entries (idx + 1) rest result2 in
      Ok (combined :: tail)
  end.

Definition combine_histohour (result1 result2 : json) : res json :=
  let? aggregated := getitem result1 "Aggregated" in
  let? time_from := getitem result1 "TimeFrom" in
  let? time_to := getitem result1 "TimeTo" in
  let? data1 := (let? d := getitem result1 "Data" in as_list d) in
  let? data2 := (let? d := getitem result2 "Data" in as_list d) in
  let? data := combine_entries 0 data1 data2 in
  Ok (JDict [("Aggregated"%string, aggregated); ("TimeFrom"%string, time_from);
             ("TimeTo"%string, time_to); ("Data"%string, JList data)]).

Definition combine_price (intermediate_asset to_asset : Asset)
    (result1 result2 : json) : res json :=
  let? a := get_default result1 intermediate_asset (JDec 0) in
  let? b := get_default result2 to_asset (JDec 0) in
  let? product := _multiply_str_nums a b in
  Ok (JDict [(to_asset, product)]).

(** [result1 * result2] on the two [Price] values. *)
Definition combine_pricehistorical (result1 result2 : json) : res json :=
  match result1, result2 with
  | JDec p1, JDec p2 => Ok (JDec (p1 * p2)%Q)
  | _, _ => Raise TypeError
  end.

Definition _special_case_handling (m : method)
    (from_asset to_asset : Asset) : M json :=
  match CRYPTOCOMPARE_SPECIAL_CASES_MAPPING !! from_asset with
  | None => raise (KeyError from_asset)
  | Some intermediate_asset =>
      let* result1 := call_handling m from_asset intermediate_asset in
      let* result2 := call_handling m intermediate_asset to_asset in
      match m with
      | histohour_method _ _ => lift (combine_histohour result1 result2)
      | price_method =>
          lift (combine_price intermediate_asset to_asset result1 result2)
      | pricehistorical_method _ => lift (combine_pricehistorical result1 result2)
      end
  end.

Definition special_asset (from_asset to_asset : Asset) : bool :=
  in_special_cases from_asset || in_special_cases to_asset.

Definition query_endpoint_histohour (from_asset to_asset : Asset)
    (limit : Z) (to_timestamp : Timestamp) (handling_special_case : bool) : M json :=
  if special_asset from_asset to_asset && negb handling_special_case
  then _special_case_handling (histohour_method limit to_timestamp)
         from_asset to_asset
  else histohour_remote from_asset to_asset limit to_timestamp.

Definition query_endpoint_price (from_asset to_asset : Asset)
    (handling_special_case : bool) : M json :=
  if special_asset from_asset to_asset && negb handling_special_case
  then _special_case_handling price_method from_asset to_asset
  else price_remote from_asset to_asset.

(** The [Price] result travels as [JDec]. *)
Definition query_endpoint_pricehistorical (from_asset to_asset : Asset)
    (timestamp : Timestamp) (handling_special_case : bool) : M json :=
  if special_asset from_asset to_asset && negb handling_special_case
  then _special_case_handling (pricehistorical_method timestamp)
         from_asset to_asset
  else pricehistorical_remote from_asset to_asset timestamp.

(** [getattr(self, method_name)] *)
Definition method_of (m : method) (from_asset to_asset : Asset)
    (handling_special_case : bool) : M json :=
  match m with
  | histohour_method limit to_timestamp =>
      query_endpoint_histohour from_asset to_asset limit to_timestamp
        handling_special_case
  | price_method => query_endpoint_price from_asset to_asset handling_special_case
  | pricehistorical_method timestamp =>
      query_endpoint_pricehistorical from_asset to_asset timestamp
        handling_special_case
  end.

(** ** The time-range file cache and the hourly backfill *)

Definition get_world : M world := fun w => (Ok w, w).

Definition set_price_history (cache_key : PairCacheKey) (d : PriceHistoryData) : M unit :=
  fun w =>
    (Ok tt,
     mkWorld (requests w) (sleeps w)
             (<[cache_key := d]> (price_history w)) (price_history_file w) (files w)).

Definition set_price_history_file (cache_key : PairCacheKey) (path : string) : M unit :=
  fun w =>
    (Ok tt,
     mkWorld (requests w) (sleeps w)
             (price_history w) (<[cache_key := path]> (price_history_file w)) (files w)).

(** Modelled from the spec: [write_history_data_in_file] of
    [rotkehlchen.utils.misc] is not part of the sources.  The cache file is
    a document holding the series, [start_time] and [end_time], in the shape
    [_dict_history_to_data] reads back. *)
Definition history_document (data : list json) (start_ts end_ts : Timestamp) : json :=
  JDict [("data"%string, JList data);
         ("start_time"%string, JInt start_ts);
         ("end_time"%string, JInt end_ts)].

Definition write_history_data_in_file (data : list json) (filepath : string)
    (start_ts end_ts : Timestamp) : M unit :=
  fun w =>
    (Ok tt,
     mkWorld (requests w) (sleeps w) (price_history w) (price_history_file w)
             (<[filepath := FileJson (history_document data start_ts end_ts)]> (files w))).

(** [_got_cached_price] *)
Definition _got_cached_price (cache_key : PairCacheKey) (timestamp : Timestamp) : M bool :=
  let* w := get_world in
  match price_history_file w !! cache_key with
  | Some path =>
      let in_range : M bool :=
        let* w' := get_world in
        match price_history w' !! cache_key with
        | Some h => ret ((start_time h <=? timestamp) && (end_time h >? timestamp))
        | None => raise (KeyError cache_key)
        end in
      match price_history w !! cache_key with
      | Some _ => in_range
      | None =>
          match files w !! path with
          | Some (FileJson doc) =>
              let* h := lift (_dict_history_to_data doc) in
              set_price_history cache_key h ;;
              in_range
          | Some FileGarbage => ret false   (* JSONDecodeError *)
          | None => ret false               (* OSError *)
          end
      end
  | None => ret false
  end.

Definition cryptocompare_hourquerylimit : Z := 2000.

(** [resp['Data'] = value] *)
Fixpoint dict_set (d : list (string * json)) (key : string) (value : json)
    : list (string * json) :=
  match d with
  | [] => [(key, value)]
  | (k, v) :: d' =>
      if bool_decide (k = key) then (k, value) :: d' else (k, v) :: dict_set d' key value
  end.

Definition setitem (obj : json) (key : string) (value : json) : res json :=
  match obj with
  | JDict d => Ok (JDict (dict_set d key value))
  | _ => Raise TypeError
  end.

Definition data_of (resp : json) : res (list json) :=
  let? d := getitem resp "Data" in as_list d.

(** The part of one round of the [while True] loop that follows the remote
    query: slicing of leading entries, the end-date test, the duplicate
    first slot.  Returns the extended history and the next [end_date]. *)
Definition backfill_step (now_ts pr_end_date end_date : Timestamp)
    (calculated_history : list json) (resp : json)
    : res (list json * Timestamp) :=
  let? time_from := (let? v := getitem resp "TimeFrom" in as_int v) in
  let? resp :=
    (if negb (pr_end_date =? time_from) then
       let diff := pr_end_date - time_from in
       if diff >=? 3600 then
         let? d := data_of resp in
         let? slot := list_index d (diff / 3600) in
         let? t := time_of slot in
         if negb (t =? pr_end_date)
         then Raise (RemoteError PreviousTimestampMissing)
         else setitem resp "Data" (JList (drop (Z.to_nat (diff / 3600)) d))
       else Ok resp
     else Ok resp) in
  let? end_date :=
    (if end_date <? now_ts then
       let? time_to := (let? v := getitem resp "TimeTo" in as_int v) in
       if negb (time_to =? end_date) then
         if time_to - end_date >=? 3600
         then Raise (RemoteError EndDatesDontMatch)
         else Ok time_to
       else Ok end_date
     else Ok end_date) in
  let? resp :=
    (if negb (Z.of_nat (length calculated_history) =? 0) then
       let? last_entry := list_index calculated_history (-1) in
       let? t_last := time_of last_entry in
       let? d := data_of resp in
       let? first_entry := list_index d 0 in
       let? t_first := time_of first_entry in
       if t_last =? t_first
       then setitem resp "Data" (JList (drop 1 d))
       else Ok resp
     else Ok resp) in
  let? d := data_of resp in
  Ok (calculated_history ++ d, end_date).

(** The [while True] loop; [fuel] bounds the number of rounds. *)
Fixpoint backfill_loop (fuel : nat) (from_asset to_asset : Asset)
    (now_ts end_date : Timestamp) (calculated_history : list json)
    : M (list json * Timestamp) :=
  match fuel with
  | O => raise OutOfFuel
  | S fuel' =>
      let pr_end_date := end_date in
      let end_date := end_date + cryptocompare_hourquerylimit * 3600 in
      let* resp := query_endpoint_histohour from_asset to_asset 2000 end_date false in
      let* next := lift (backfill_step now_ts pr_end_date end_date
                           calculated_history resp) in
      let calculated_history := fst next in
      let end_date := snd next in
      if end_date >=? now_ts
      then ret (calculated_history, end_date)
      else backfill_loop fuel' from_asset to_asset now_ts end_date calculated_history
  end.

Definition cache_key_of (from_asset to_asset : Asset) : PairCacheKey :=
  from_asset +:+ "_" +:+ to_asset.

Definition cache_filename (cache_key : PairCacheKey) : string :=
  data_directory E +:+ "/" +:+ "price_history_" +:+ cache_key +:+ ".json".

Definition cached_data (cache_key : PairCacheKey) : M (list PriceHistoryEntry) :=
  let* w := get_world in
  match price_history w !! cache_key with
  | Some h => ret (data h)
  | None => raise (KeyError cache_key)
  end.

Definition get_historical_data (fuel : nat) (from_asset to_asset : Asset)
    (timestamp historical_data_start : Timestamp) : M (list PriceHistoryEntry) :=
  let cache_key := cache_key_of from_asset to_asset in
  let* got_cached_value := _got_cached_price cache_key timestamp in
  if got_cached_value : bool then cached_data cache_key
  else
    let now_ts := ts_now E in
    let end_date :=
      if historical_data_start <=? timestamp then historical_data_start else timestamp in
    let* assembled := backfill_loop fuel from_asset to_asset now_ts end_date [] in
    let calculated_history := fst assembled in
    let end_date := snd assembled in
    lift (_check_hourly_data_sanity calculated_history from_asset to_asset) ;;
    let filename := cache_filename cache_key in
    write_history_data_in_file calculated_history filename historical_data_start now_ts ;;
    let data_including_time :=
      JDict [("data"%string, JList calculated_history);
             ("start_time"%string, JInt historical_data_start);
             ("end_time"%string, JInt end_date)] in
    set_price_history_file cache_key filename ;;
    let* h := lift (_dict_history_to_data data_including_time) in
    set_price_history cache_key h ;;
    cached_data cache_key.

(** ** The resolver *)

(** The inverse of a table price: a zero divisor raises. *)
Definition fdiv (a b : Q) : res Q :=
  if Qeq_bool b 0 then Raise DivisionByZero else Ok (a / b)%Q.

Definition in_histohour_cases (asset : Asset) : bool :=
  bool_decide (is_Some (CRYPTOCOMPARE_SPECIAL_HISTOHOUR_CASES !! asset)).

Definition histohour_case (asset : Asset) : res HistoHourAssetData :=
  match CRYPTOCOMPARE_SPECIAL_HISTOHOUR_CASES !! asset with
  | Some asset_data => Ok asset_data
  | None => Raise (KeyError asset)
  end.

Definition _check_and_get_special_histohour_price (from_asset to_asset : Asset)
    (ts : Timestamp) : res Price :=
  let price := 0%Q in
  if (in_histohour_cases from_asset && asset_eqb to_asset A_USD)
     || (asset_eqb from_asset A_USD && in_histohour_cases to_asset)
  then
    let? asset_data :=
      (if asset_eqb to_asset A_USD
       then histohour_case from_asset
       else histohour_case to_asset) in
    if ts <=? timestamp asset_data then
      if asset_eqb to_asset A_USD
      then Ok (usd_price asset_data)
      else fdiv 1 (usd_price asset_data)
    else Ok price
  else Ok price.

(** Modelled from the spec: [convert_to_int] of [rotkehlchen.utils.misc] is
    not part of the sources.  With [accept_only_exact=False] the candidate
    index is the floor of [(timestamp - series[0].time) / 3600]. *)
Definition candidate_index (ts first_time : Timestamp) : Z :=
  (ts - first_time) / 3600.

(** The index the lookup settles on; [None] when the lookup gives up or the
    timestamp is before the first entry. *)
Definition nearest_index (data : list PriceHistoryEntry) (ts : Timestamp)
    : res (option Z) :=
  let? first_entry := list_index data 0 in
  if ts >=? time first_entry then
    let len := Z.of_nat (length data) in
    let index := candidate_index ts (time first_entry) in
    let '(index, index_in_bounds) :=
      if index >? len - 1 then
        if index >? len then (index - 1, true) else (index, false)
      else (index, true) in
    if index_in_bounds : bool then
      let? entry := list_index data index in
      let diff := Z.abs (time entry - ts) in
      if index + 1 <=? len - 1 then
        let? entry_p1 := list_index data (index + 1) in
        let diff_p1 := Z.abs (time entry_p1 - ts) in
        if diff_p1 <? diff then Ok (Some (index + 1)) else Ok (Some index)
      else Ok (Some index)
    else Ok None
  else Ok None.

(** The price read off the hourly series: the midpoint of the selected
    entry, or zero.  An entry built by [_dict_history_to_entries] always
    has both [high] and [low]. *)
Definition hourly_price (data : list PriceHistoryEntry) (ts : Timestamp) : res Price :=
  let? selected := nearest_index data ts in
  match selected with
  | Some index =>
      let? entry := list_index data index in
      Ok ((high entry + low entry) / 2)%Q
  | None => Ok 0%Q
  end.

(** *** Decimal arithmetic of the adjuster *)

(** Modelled from the spec: [FVal] of [rotkehlchen.fval] is not part of the
    sources.  It wraps Python's [decimal.Decimal], whose quotient and
    difference are the exact result rounded half-even to the significant
    digits of the context, 28 by default. *)
Definition DECIMAL_PRECISION : Z := 28.

Fixpoint count_digits (fuel : nat) (z : Z) : Z :=
  match fuel with
  | O => 1
  | S fuel' => if z <? 10 then 1 else 1 + count_digits fuel' (z / 10)
  end.

(** The number of decimal digits of a positive integer. *)
Definition decimal_digits (z : Z) : Z := count_digits (Z.to_nat (Z.log2 z)) z.

(** The exponent of the leading digit of [n / d], for positive [n], [d]. *)
Definition decimal_exponent (n d : Z) : Z :=
  let k := decimal_digits n - decimal_digits d in
  if (if 0 <=? k then d * 10 ^ k <=? n else d <=? n * 10 ^ (- k))
  then k else k - 1.

(** [a / b] rounded to the nearest integer, a tie to the even one. *)
Definition round_half_even (a b : Z) : Z :=
  let q := a / b in
  let r := a mod b in
  if 2 * r <? b then q
  else if b <? 2 * r then q + 1
  else if Z.even q then q else q + 1.

(** A rational rounded to [DECIMAL_PRECISION] significant digits. *)
Definition decimal_round (q : Q) : Q :=
  let n := Z.abs (Qnum q) in
  let d := Z.pos (Qden q) in
  if n =? 0 then 0%Q
  else
    let e := decimal_exponent n d - (DECIMAL_PRECISION - 1) in
    let coefficient :=
      if 0 <=? e then round_half_even n (d * 10 ^ e)
      else round_half_even (n * 10 ^ (- e)) d in
    let signed := Z.sgn (Qnum q) * coefficient in
    Qred (if 0 <=? e then inject_Z (signed * 10 ^ e)
          else Qmake signed (Z.to_pos (10 ^ (- e)))).

(** [FVal.__truediv__]: a zero divisor raises, the quotient is rounded. *)
Definition decimal_div (a b : Q) : res Q :=
  if Qeq_bool b 0 then Raise DivisionByZero else Ok (decimal_round (a / b)).

(** [FVal.__sub__] *)
Definition decimal_sub (a b : Q) : Q := decimal_round (a - b).

(** [_adjust_to_cryptocompare_price_incosistencies] *)
Definition _adjust_to_cryptocompare_price_incosistencies (price : Price)
    (from_asset to_asset : Asset) (ts : Timestamp) : M Price :=
  let* from_asset_usd := historian E from_asset A_USD ts in
  let* to_asset_usd := historian E to_asset A_USD ts in
  let* usd_invert_conversion :=
    lift (decimal_div from_asset_usd to_asset_usd) in
  let abs_diff := Qabs (decimal_sub usd_invert_conversion price) in
  let* relative_difference :=
    lift (decimal_div abs_diff (Qmax price usd_invert_conversion)) in
  if Qle_bool (1 # 10) relative_difference
  then ret usd_invert_conversion
  else ret price.

Definition as_price (j : json) : res Price :=
  match j with
  | JDec p => Ok p
  | _ => Raise TypeError
  end.

(** [get_historical_data] under [except UnsupportedAsset]. *)
Definition historical_data_or_unsupported (fuel : nat)
    (from_asset to_asset : Asset) (ts historical_data_start : Timestamp)
    : M (list PriceHistoryEntry) :=
  fun w =>
    match get_historical_data fuel from_asset to_asset ts historical_data_start w with
    | (Raise (UnsupportedAsset name), w') => (Raise (PriceQueryUnsupportedAsset name), w')
    | other => other
    end.

(** The price read from the hourly series, with the BTC bridge or the daily
    endpoint when that price is zero. *)
Definition price_before_adjustment (fuel : nat) (from_asset to_asset : Asset)
    (ts historical_data_start : Timestamp) : M Price :=
  let* data :=
    historical_data_or_unsupported fuel from_asset to_asset ts historical_data_start in
  let* price := lift (hourly_price data ts) in
  if Qeq_bool price 0 then
    if negb (asset_eqb from_asset "BTC") && negb (asset_eqb to_asset "BTC") then
      let* asset_btc_price := historian E from_asset A_BTC ts in
      let* btc_to_asset_price := historian E A_BTC to_asset ts in
      ret (asset_btc_price * btc_to_asset_price)%Q
    else
      let* daily := query_endpoint_pricehistorical from_asset to_asset ts false in
      lift (as_price daily)
  else ret price.

Definition comparison_to_nonusd_fiat (from_asset to_asset : Asset) : bool :=
  (is_fiat E to_asset && negb (asset_eqb to_asset A_USD))
  || (is_fiat E from_asset && negb (asset_eqb from_asset A_USD)).

(** The end of [query_historical_price]: a zero price is no price. *)
Definition price_or_no_price (from_asset to_asset : Asset) (ts : Timestamp)
    (price : Price) : M Price :=
  if Qeq_bool price 0
  then raise (NoPriceForGivenTimestamp from_asset to_asset ts)
  else ret price.

(** Everything in [query_historical_price] after the override table. *)
Definition resolve_from_series (fuel : nat) (from_asset to_asset : Asset)
    (ts historical_data_start : Timestamp) : M Price :=
  let* price :=
    price_before_adjustment fuel from_asset to_asset ts historical_data_start in
  let* price :=
    (if comparison_to_nonusd_fiat from_asset to_asset
     then _adjust_to_cryptocompare_price_incosistencies price from_asset to_asset ts
     else ret price) in
  price_or_no_price from_asset to_asset ts price.

Definition query_historical_price (fuel : nat) (from_asset to_asset : Asset)
    (ts historical_data_start : Timestamp) : M Price :=
  let* price := lift (_check_and_get_special_histohour_price from_asset to_asset ts) in
  if negb (Qeq_bool price 0)
  then ret price
  else resolve_from_series fuel from_asset to_asset ts historical_data_start.

End Cryptocompare.

(** ** [all_coins] *)

(** A value of the coin dictionary that [all_coins] returns: what the coin
    list holds for a symbol, or what the method puts there by hand, which is
    [object()] and, for LUNA, the class [object] itself. *)
Inductive coin : Type :=
| Listed (info : json)
| Placeholder
| PlaceholderClass.

Fixpoint coins_get (d : list (string * coin)) (key : string) : option coin :=
  match d with
  | [] => None
  | (k, v) :: d' => if bool_decide (k = key) then Some v else coins_get d' key
  end.

(** [data[key] = value] *)
Fixpoint coins_set (d : list (string * coin)) (key : string) (value : coin)
    : list (string * coin) :=
  match d with
  | [] => [(key, value)]
  | (k, v) :: d' =>
      if bool_decide (k = key) then (k, value) :: d' else (k, v) :: coins_set d' key value
  end.

(** The assignments at the end of [all_coins], in the order of the source. *)
Definition manual_symbols : list (string * coin) :=
  [
    ("DAO"%string, Placeholder);
    ("USDT"%string, Placeholder);
    ("VEN"%string, Placeholder);
    ("AIR*"%string, Placeholder);
    ("SPND"%string, Placeholder);
    ("EBCH"%string, Placeholder);
    ("EKT"%string, Placeholder);
    ("FKX"%string, Placeholder);
    ("FNKOS"%string, Placeholder);
    ("FTI"%string, Placeholder);
    ("GENE*"%string, Placeholder);
    ("GZE"%string, Placeholder);
    ("HMC*"%string, Placeholder);
    ("ITC"%string, Placeholder);
    ("LUNA"%string, PlaceholderClass);
    ("MFTU"%string, Placeholder);
    ("NXX"%string, Placeholder);
    ("OWN"%string, Placeholder);
    ("PIPL"%string, Placeholder);
    ("PKG"%string, Placeholder);
    ("QBIT"%string, Placeholder);
    ("RATING"%string, Placeholder);
    ("RLT"%string, Placeholder);
    ("RPL"%string, Placeholder);
    ("SMS"%string, Placeholder);
    ("SSP"%string, Placeholder);
    ("THR"%string, Placeholder);
    ("TNS"%string, Placeholder)
  ].

Definition add_manual_symbols (data : json) : res (list (string * coin)) :=
  match data with
  | JDict d =>
      Ok (fold_left (fun acc kv => coins_set acc (fst kv) (snd kv)) manual_symbols
            (map (fun kv => (fst kv, Listed (snd kv))) d))
  | _ => Raise TypeError
  end.

(** The age, in seconds, beyond which the coin list cache is refreshed. *)
Definition coinlist_max_age : Z := 2629800.

Section CoinList.

Variable E : Env.

Definition coinlist_cache_path : string :=
  data_directory E +:+ "/" +:+ "cryptocompare_coinlist.json".

(** The first part of [all_coins]: the cached document when the cache is to
    be used, [None] when the coin list has to be queried. *)
Definition read_coinlist_cache (fs : gmap string file) : res (option json) :=
  match fs !! coinlist_cache_path with
  | Some (FileJson data) =>
      let now := ts_now E in
      let? t := (let? v := getitem data "time" in as_int v) in
      if (t <? now) && (now - t >? coinlist_max_age)
      then let? _ := getitem data "data" in Ok None
      else Ok (Some data)
  | Some FileGarbage => Ok None   (* JSONDecodeError *)
  | None => Ok None               (* not a file *)
  end.

(** Modelled from the spec: [rlk_jsondumps] is not part of the sources; the
    file holds the document with [time] and [data]. *)
Definition write_coinlist (now : Timestamp) (data : json) : M unit :=
  fun w =>
    (Ok tt,
     mkWorld (requests w) (sleeps w) (price_history w) (price_history_file w)
             (<[coinlist_cache_path :=
                  FileJson (JDict [("time"%string, JInt now); ("data"%string, data)])]>
                (files w))).

Definition all_coins : M (list (string * coin)) :=
  let* w := get_world in
  let* cached := lift (read_coinlist_cache (files w)) in
  let* data :=
    match cached with
    | None =>
        let* data := _api_query E CoinList in
        write_coinlist (ts_now E) data ;;
        ret data
    | Some doc => lift (getitem doc "data")
    end in
  lift (add_manual_symbols data).

End CoinList.

(** * Specification vocabulary *)

(** ** Small environments used to run the model *)

Definition empty_world : world := mkWorld [] [] ∅ ∅ ∅.

Definition no_historian : Asset -> Asset -> Timestamp -> M Price :=
  fun from_asset to_asset ts => raise (NoPriceForGivenTimestamp from_asset to_asset ts).

(** An environment around a given server: every asset is its own symbol,
    nothing is fiat, the historian finds nothing. *)
Definition env_of (srv : nat -> query -> http_response) (now : Timestamp) : Env :=
  mkEnv srv Ok (fun _ => false) no_historian now "data".

(** A well-formed hourly entry at time [t], and a histohour payload. *)
Definition hour_entry (t : Timestamp) (lo hi : Q) : json :=
  JDict [("time"%string, JInt t); ("high"%string, JDec hi); ("low"%string, JDec lo);
         ("open"%string, JDec lo); ("volumefrom"%string, JDec 10);
         ("volumeto"%string, JDec 20); ("close"%string, JDec hi);
         ("conversionType"%string, JStr "direct");
         ("conversionSymbol"%string, JStr "")].

Definition histohour_payload (time_from time_to : Timestamp) (entries : list json) : json :=
  JDict [("Response"%string, JStr "Success");
         ("Data"%string,
          JDict [("Aggregated"%string, JBool false);
                 ("TimeFrom"%string, JInt time_from);
                 ("TimeTo"%string, JInt time_to);
                 ("Data"%string, JList entries)])].

(** A series whose second and third entries are 6399 seconds apart. *)
Definition gapped_series : list json :=
  [hour_entry 0 1 2; hour_entry 3600 1 2; hour_entry 9999 1 2; hour_entry 13599 1 2].

Definition gapped_env : Env :=
  env_of (fun _ _ => Body (histohour_payload 0 7200000 gapped_series)) 100.

(** ** Rate-limit policy *)

(** The waits of a call that is rate limited on every response, starting
    with [tries] retries left. *)
Fixpoint backoffs (tries : nat) : list Q :=
  match tries with
  | O => []
  | S tries' => (20 / inject_Z (Z.of_nat tries))%Q :: backoffs tries'
  end.

Fixpoint strictly_increasing (l : list Q) : Prop :=
  match l with
  | a :: (b :: _) as tl => (a < b)%Q /\ strictly_increasing tl
  | _ => True
  end.

Fixpoint strictly_decreasing (l : list Q) : Prop :=
  match l with
  | a :: (b :: _) as tl => (b < a)%Q /\ strictly_decreasing tl
  | _ => True
  end.

(** Every response to [path] carries the rate-limit message. *)
Definition always_rate_limited (E : Env) (path : query) : Prop :=
  forall n, exists d,
    server E n path = Body (JDict d) /\
    dict_get d "Message" = Some (JStr RATE_LIMIT_MSG).

Definition rate_limit_payload : json :=
  JDict [("Response"%string, JStr "Error"); ("Message"%string, JStr RATE_LIMIT_MSG)].

(** A server that answers every request with the rate-limit payload. *)
Definition limited_env : Env := env_of (fun _ _ => Body rate_limit_payload) 0.

(** ** Two-hop synthesis *)

(** Field [f] of [out] is the product of the two legs' field [f]. *)
Definition product_field (f : string) (entry entry2 out : json) : Prop :=
  exists ja jb a b,
    getitem entry f = Ok ja /\ getitem entry2 f = Ok jb /\
    FVal ja = Ok a /\ FVal jb = Ok b /\
    getitem out f = Ok (JDec (a * b)%Q).

(** Field [f] of [out] is field [f] of the first leg, unchanged. *)
Definition passed_field (f : string) (entry out : json) : Prop :=
  exists v, getitem entry f = Ok v /\ getitem out f = Ok v.

Definition synthesized_entry (entry entry2 out : json) : Prop :=
  product_field "high" entry entry2 out /\
  product_field "low" entry entry2 out /\
  product_field "open" entry entry2 out /\
  product_field "close" entry entry2 out /\
  passed_field "time" entry out /\
  passed_field "volumefrom" entry out /\
  passed_field "volumeto" entry out /\
  passed_field "conversionType" entry out /\
  passed_field "conversionSymbol" entry out.

Definition quote_fields : list string :=
  ["high"; "low"; "open"; "close"]%string.

(** Field [f] of [entry] is there; is there and holds a number. *)
Definition present_field (f : string) (entry : json) : Prop :=
  exists v, getitem entry f = Ok v.

Definition numeric_field (f : string) (entry : json) : Prop :=
  exists v q, getitem entry f = Ok v /\ FVal v = Ok q.

(** An entry with the four quote values, and one that carries in addition
    what the synthesis copies from the first leg. *)
Definition quoted_entry (entry : json) : Prop :=
  numeric_field "high" entry /\ numeric_field "low" entry /\
  numeric_field "open" entry /\ numeric_field "close" entry.

Definition complete_entry (entry : json) : Prop :=
  quoted_entry entry /\
  present_field "time" entry /\ present_field "volumefrom" entry /\
  present_field "volumeto" entry /\ present_field "conversionType" entry /\
  present_field "conversionSymbol" entry.

(** The answer of the first leg has the three values the synthesis copies
    next to the series. *)
Definition complete_answer (resp : json) : Prop :=
  present_field "Aggregated" resp /\ present_field "TimeFrom" resp /\
  present_field "TimeTo" resp.

(** [entry] is an object without one of the four quote values. *)
Definition lacks_quote (entry : json) : Prop :=
  exists d f, entry = JDict d /\ In f quote_fields /\ dict_get d f = None.

(** A server used to run the synthesizer.  The hourly history of cDAI is
    [first_leg], that of every other asset has low 5 and high 7; the current
    price of cDAI comes back as an empty object, that of other assets is 3;
    the daily price of cDAI is 2, that of other assets 3. *)
Definition two_leg_server (first_leg : list json) : nat -> query -> http_response :=
  fun _ q =>
    match q with
    | Histohour fsym _ _ to_ts =>
        if bool_decide (fsym = "cDAI"%string)
        then Body (histohour_payload (to_ts - 7200000) to_ts first_leg)
        else Body (histohour_payload (to_ts - 7200000) to_ts
                     [hour_entry 0 5 7; hour_entry 3600 5 7])
    | PriceNow fsym tsym =>
        if bool_decide (fsym = "cDAI"%string)
        then Body (JDict [])
        else Body (JDict [(tsym, JDec 3)])
    | PriceHistorical fsym tsym _ _ =>
        if bool_decide (fsym = "cDAI"%string)
        then Body (JDict [(fsym, JDict [(tsym, JDec 2)])])
        else Body (JDict [(fsym, JDict [(tsym, JDec 3)])])
    | CoinList => Body (JDict [])
    end.

Definition two_leg_env : Env :=
  env_of (two_leg_server [hour_entry 0 2 3; hour_entry 3600 2 3]) 100.

(** The same server, except that the first leg's entry has no [high]. *)
Definition entry_without_high : json :=
  JDict [("time"%string, JInt 0); ("low"%string, JDec 2);
         ("open"%string, JDec 2); ("volumefrom"%string, JDec 10);
         ("volumeto"%string, JDec 20); ("close"%string, JDec 3);
         ("conversionType"%string, JStr "direct");
         ("conversionSymbol"%string, JStr "")].

Definition missing_high_env : Env :=
  env_of (two_leg_server [entry_without_high]) 100.

(** ** Resolver scenarios *)

(** A server whose hourly history is the single entry at time 0. *)
Definition single_entry_env : Env :=
  env_of (fun _ _ => Body (histohour_payload 0 7200000 [hour_entry 0 1 3])) 100.

(** A server whose hourly history is empty. *)
Definition empty_history_env : Env :=
  env_of (fun _ _ => Body (histohour_payload 0 7200000 [])) 100.






(** A server met later, by which time the history has five entries. *)
Definition five_hour_env : Env :=
  env_of (fun _ _ =>
            Body (histohour_payload 0 7200000
                    [hour_entry 0 1 3; hour_entry 3600 2 4; hour_entry 7200 5 7;
                     hour_entry 10800 6 8; hour_entry 14400 7 9])) 20000.

(** The files of [w] in a process that has just started: the cache files
    are registered, nothing is loaded. *)
Definition restarted (w : world) : world :=
  mkWorld [] [] ∅ (price_history_file w) (files w).


(** When [asset_data] is the override of the non-USD side of the pair. *)
Definition override_of (from_asset to_asset : Asset)
    (asset_data : HistoHourAssetData) : Prop :=
  (to_asset = A_USD /\
   CRYPTOCOMPARE_SPECIAL_HISTOHOUR_CASES !! from_asset = Some asset_data) \/
  (from_asset = A_USD /\
   CRYPTOCOMPARE_SPECIAL_HISTOHOUR_CASES !! to_asset = Some asset_data).


(** ** Traffic and stores *)

(** The [n]-th response to [path] carries the rate-limit message. *)
Definition rate_limited_at (E : Env) (path : query) (n : nat) : Prop :=
  exists d,
    server E n path = Body (JDict d) /\
    dict_get d "Message" = Some (JStr RATE_LIMIT_MSG).

(** The two cache dictionaries and the data directory are the same. *)
Definition same_stores (w w' : world) : Prop :=
  price_history w' = price_history w /\
  price_history_file w' = price_history_file w /\
  files w' = files w.

(** [w] after one more request for [path]; after one more sleep. *)
Definition requested (w : world) (path : query) : world :=
  mkWorld (requests w ++ [path]) (sleeps w)
          (price_history w) (price_history_file w) (files w).

Definition slept (w : world) (seconds : Q) : world :=
  mkWorld (requests w) (sleeps w ++ [seconds])
          (price_history w) (price_history_file w) (files w).

(** [w] after [k] rate-limited rounds for [path] (a request and a sleep
    each), counted down from [tries] remaining retries. *)
Definition after_retries (w : world) (path : query) (k tries : nat) : world :=
  mkWorld (requests w ++ replicate k path)
          (sleeps w ++ take k (backoffs tries))
          (price_history w) (price_history_file w) (files w).

(** A server that is rate limited for its first [k] answers and then
    answers with [resp]. *)
Definition limited_then (k : nat) (resp : http_response) : Env :=
  env_of (fun n _ => if (n <? k)%nat then Body rate_limit_payload else resp) 0.

(** A series whose gap starts at an even index. *)
Definition even_gap_series : list json :=
  [hour_entry 0 1 2; hour_entry 3600 1 2; hour_entry 7200 1 2; hour_entry 9999 1 2].

(** ** Cache scenarios *)

(** A world whose data directory holds [content] under the BTC/USD cache
    file, as [__init__] would have registered it, with nothing loaded. *)
Definition world_with_file (content : file) : world :=
  mkWorld [] [] ∅
          {[ cache_key_of "BTC" "USD" := "data/price_history_BTC_USD.json"%string ]}
          {[ "data/price_history_BTC_USD.json"%string := content ]}.

(** A world with the BTC/USD series already in memory. *)
Definition world_with_series (h : PriceHistoryData) : world :=
  mkWorld [] [] {[ cache_key_of "BTC" "USD" := h ]}
          {[ cache_key_of "BTC" "USD" := "data/price_history_BTC_USD.json"%string ]}
          ∅.

(** A computation that leaves the caches and the data directory alone, and
    one that in addition makes no request and does not sleep. *)
Definition keeps_stores {A : Type} (m : M A) : Prop :=
  forall w, same_stores w (snd (m w)).

(** The errors of dictionary access and conversion. *)
Definition lookup_error (e : error) : Prop :=
  match e with
  | KeyError _ | IndexError | TypeError | ValueError => True
  | _ => False
  end.

(** [w] after the cache file of [cache_key] was written and registered, and
    after the series was stored in memory as well. *)
Definition persisted (w : world) (cache_key : PairCacheKey) (path : string)
    (doc : json) : world :=
  mkWorld (requests w) (sleeps w) (price_history w)
          (<[cache_key := path]> (price_history_file w))
          (<[path := FileJson doc]> (files w)).

Definition stored (w : world) (cache_key : PairCacheKey) (h : PriceHistoryData) : world :=
  mkWorld (requests w) (sleeps w) (<[cache_key := h]> (price_history w))
          (price_history_file w) (files w).

(** The cursor the backfill starts from. *)
Definition first_cursor (ts historical_data_start : Timestamp) : Timestamp :=
  if historical_data_start <=? ts then historical_data_start else ts.

(** ** Termination of the backfill *)

(** A result, or a computation, that is not the exhaustion of the fuel. *)
Definition no_fuel_error {A : Type} (r : res A) : Prop := r <> Raise OutOfFuel.

Definition never_out_of_fuel {A : Type} (m : M A) : Prop :=
  forall w, no_fuel_error (fst (m w)).

(** Every hourly answer for the pair reports an end less than an hour before
    the end that was asked for. *)
Definition bounded_drift (E : Env) (from_asset to_asset : Asset) : Prop :=
  forall end_date w resp w' time_to,
    query_endpoint_histohour E from_asset to_asset 2000 end_date false w
      = (Ok resp, w') ->
    (let? v := getitem resp "TimeTo" in as_int v) = Ok time_to ->
    end_date - 3600 < time_to.

(** The least progress of the cursor in one round under [bounded_drift]. *)
Definition round_progress : Z := cryptocompare_hourquerylimit * 3600 - 3600.

(** A server that answers every window with the window asked for. *)
Definition echo_env (now : Timestamp) : Env :=
  env_of (two_leg_server []) now.

(** A server that reports, for every window, an end equal to the start of
    the window and the single entry at time 0. *)
Definition stuck_env : Env :=
  env_of (fun _ q =>
            match q with
            | Histohour _ _ _ to_ts =>
                Body (histohour_payload (to_ts - 7200000) (to_ts - 7200000)
                        [hour_entry 0 1 3])
            | _ => ConnectionError
            end) 10000000.

(** ** More scenarios *)

(** An environment in which no asset has a cryptocompare symbol. *)
Definition unsupported_env : Env :=
  mkEnv (fun _ _ => ConnectionError) (fun a => Raise (UnsupportedAsset a))
        (fun _ => false) no_historian 100 "data".

(** A historian for which one unit of anything is worth nothing in USD. *)
Definition worthless_env : Env :=
  mkEnv (fun _ _ => ConnectionError) Ok (fun _ => true)
        (fun _ _ _ => ret 0%Q) 100 "data".

(** The server of [two_leg_server] with a second leg of one entry only. *)
Definition short_second_leg_env : Env :=
  env_of (fun _ q =>
            match q with
            | Histohour fsym _ _ to_ts =>
                if bool_decide (fsym = "cDAI"%string)
                then Body (histohour_payload (to_ts - 7200000) to_ts
                             [hour_entry 0 2 3; hour_entry 3600 2 3])
                else Body (histohour_payload (to_ts - 7200000) to_ts
                             [hour_entry 0 5 7])
            | _ => ConnectionError
            end) 100.

(** ** Coin list scenarios *)

(** A server whose coin list has BTC and USDT. *)
Definition coinlist_env (now : Timestamp) : Env :=
  env_of (fun _ _ =>
            Body (JDict [("Response"%string, JStr "Success");
                         ("Data"%string,
                          JDict [("BTC"%string, JInt 1); ("USDT"%string, JInt 2)])]))
         now.

(** A world whose coin list cache was written at [written] and holds BTC. *)
Definition world_with_coinlist (written : Timestamp) : world :=
  mkWorld [] [] ∅ ∅
          {[ "data/cryptocompare_coinlist.json"%string :=
               FileJson (JDict [("time"%string, JInt written);
                                ("data"%string, JDict [("BTC"%string, JInt 1)])]) ]}.

(** * Properties *)

(** ** Monad bookkeeping *)

Lemma bind_ok {A B : Type} (m : M A) (k : A -> M B) w a w' :
  m w = (Ok a, w') -> bind m k w = k a w'.
Proof. intros H. unfold bind. now rewrite H. Qed.

Lemma bind_raise {A B : Type} (m : M A) (k : A -> M B) w e w' :
  m w = (Raise e, w') -> bind m k w = (Raise e, w').
Proof. intros H. unfold bind. now rewrite H. Qed.

Lemma bind_inv {A B : Type} (m : M A) (k : A -> M B) w b w2 :
  bind m k w = (Ok b, w2) ->
  exists a w1, m w = (Ok a, w1) /\ k a w1 = (Ok b, w2).
Proof.
  unfold bind. destruct (m w) as [[a | e] w1]; intros H.
  - now exists a, w1.
  - discriminate.
Qed.

Lemma lift_inv {A : Type} (r : res A) w a w' :
  lift r w = (Ok a, w') -> r = Ok a /\ w' = w.
Proof. unfold lift. intros H. inversion H. auto. Qed.

Lemma res_bind_inv {A B : Type} (m : res A) (k : A -> res B) b :
  res_bind m k = Ok b -> exists a, m = Ok a /\ k a = Ok b.
Proof. destruct m as [a | e]; simpl; intros H; [now exists a | discriminate]. Qed.

(** ** The rate-limit policy of [_api_query] *)

Lemma backoff_grows (k : nat) :
  (20 / inject_Z (Z.of_nat (S (S k))) < 20 / inject_Z (Z.of_nat (S k)))%Q.
Proof.
  unfold Qlt, Qdiv, Qmult, Qinv, inject_Z. simpl Qnum. simpl Qden. lia.
Qed.

Lemma backoffs_strictly_increasing (tries : nat) : strictly_increasing (backoffs tries).
Proof.
  induction tries as [| [| k] IH]; simpl; auto.
  split; [apply backoff_grows | exact IH].
Qed.

Lemma api_query_loop_rate_limited (E : Env) (path : query) :
  always_rate_limited E path ->
  forall tries w,
    exists json_ret,
      server E (length (requests w) + tries)%nat path = Body json_ret /\
      api_query_loop E tries path w =
        (payload_result path json_ret,
         mkWorld (requests w ++ replicate (S tries) path)
                 (sleeps w ++ backoffs tries)
                 (price_history w) (price_history_file w) (files w)).
Proof.
  intros Hlim tries. induction tries as [| tries IH]; intros w.
  - destruct (Hlim (length (requests w))) as [d [Hsrv Hmsg]].
    exists (JDict d). rewrite Nat.add_0_r. split; [exact Hsrv |].
    simpl. unfold bind, session_get, lift. rewrite Hsrv. simpl.
    rewrite Hmsg. rewrite bool_decide_eq_true_2 by reflexivity.
    now rewrite app_nil_r.
  - destruct (Hlim (length (requests w))) as [d [Hsrv Hmsg]].
    set (w1 := mkWorld (requests w ++ [path])
                 (sleeps w ++ [(20 / inject_Z (Z.of_nat (S tries)))%Q])
                 (price_history w) (price_history_file w) (files w)).
    destruct (IH w1) as [json_ret [Hlast Hrun]].
    exists json_ret. split.
    + rewrite <- Hlast. unfold w1. simpl. rewrite length_app. simpl. f_equal. lia.
    + cbn [api_query_loop]. unfold bind at 1. unfold session_get at 1.
      rewrite Hsrv. unfold bind at 1. unfold lift at 1. cbn [rate_limited].
      rewrite Hmsg. rewrite bool_decide_eq_true_2 by reflexivity.
      unfold bind at 1. unfold sleep at 1.
      cbn [requests sleeps price_history price_history_file files].
      fold w1. rewrite Hrun.
      unfold w1. simpl. now rewrite <- !app_assoc.
Qed.

(** C2 (amended): a call to [_api_query] that gets the rate-limit message on
    every response issues eleven requests (the first one and exactly ten
    retries); retry number k is preceded by a sleep of 20/remaining_tries
    seconds, so the waits are 20/10, 20/9, ..., 20/1 and strictly
    increasing; after the tenth retry the loop stops and the last payload is
    judged like any other: a [Response] other than Success raises
    [RemoteError], otherwise the payload (or its [Data]) is returned. *)
Theorem api_query_rate_limit_backoff (E : Env) (path : query) (w : world) :
  always_rate_limited E path ->
  exists json_ret,
    server E (length (requests w) + 10)%nat path = Body json_ret /\
    fst (_api_query E path w) = payload_result path json_ret /\
    requests (snd (_api_query E path w)) = requests w ++ replicate 11 path /\
    sleeps (snd (_api_query E path w)) =
      sleeps w ++ [20 # 10; 20 # 9; 20 # 8; 20 # 7; 20 # 6;
                   20 # 5; 20 # 4; 20 # 3; 20 # 2; 20 # 1]%Q /\
    strictly_increasing (drop (length (sleeps w)) (sleeps (snd (_api_query E path w)))) /\
    (forall s, getitem json_ret "Response" = Ok (JStr s) -> s <> "Success"%string ->
       exists why, fst (_api_query E path w) = Raise (RemoteError why)).
Proof.
  intros Hlim.
  destruct (api_query_loop_rate_limited E path Hlim 10 w) as [json_ret [Hlast Hrun]].
  exists json_ret. unfold _api_query, CRYPTOCOMPARE_QUERY_RETRY_TIMES.
  rewrite Hrun. cbn [fst snd requests sleeps].
  repeat split; try reflexivity; try exact Hlast.
  - rewrite drop_app_length. apply (backoffs_strictly_increasing 10).
  - intros s Hresp Hs. unfold payload_result.
    destruct json_ret as [| | | | | | d]; try discriminate Hresp.
    simpl in Hresp. simpl.
    destruct (dict_get d "Response") as [v |]; [| discriminate Hresp].
    inversion Hresp; subst v.
    rewrite bool_decide_eq_false_2 by exact Hs. simpl. eauto.
Qed.

Lemma limited_env_always_rate_limited (path : query) :
  always_rate_limited limited_env path.
Proof. intros n. eexists. split; reflexivity. Qed.

Lemma api_query_rate_limit_backoff_witness :
  always_rate_limited limited_env CoinList /\
  exists json_ret,
    fst (_api_query limited_env CoinList empty_world) = payload_result CoinList json_ret /\
    length (sleeps (snd (_api_query limited_env CoinList empty_world))) = 10%nat.
Proof.
  split; [apply limited_env_always_rate_limited |].
  destruct (api_query_rate_limit_backoff limited_env CoinList empty_world
              (limited_env_always_rate_limited CoinList))
    as [json_ret [_ [Hres [_ [Hsl _]]]]].
  exists json_ret. split; [exact Hres |]. rewrite Hsl. reflexivity.
Defined.

(** C2 as stated fails: with every response rate limited, the waits of the
    ten retries are not strictly decreasing (the first is 2 seconds, the
    second 20/9). *)
Lemma rate_limit_waits_not_decreasing :
  always_rate_limited limited_env CoinList /\
  length (requests (snd (_api_query limited_env CoinList empty_world))) = 11%nat /\
  ~ strictly_decreasing (sleeps (snd (_api_query limited_env CoinList empty_world))).
Proof.
  split; [apply limited_env_always_rate_limited |].
  split; [reflexivity |].
  vm_compute. intros [H _]. discriminate H.
Qed.

(** ** The hourly sanity check *)

Lemma list_pair_ind {A : Type} (P : list A -> Prop) :
  P [] -> (forall a, P [a]) -> (forall a b l, P l -> P (a :: b :: l)) ->
  forall l, P l.
Proof.
  intros Hnil Hone Hstep l.
  assert (H : P l /\ forall a, P (a :: l)).
  { induction l as [| b l [IH1 IH2]]; [split; auto |].
    split; [apply IH2 |]. intros a. apply Hstep. exact IH1. }
  exact (proj1 H).
Qed.

(** What the check checks: exactly the pairs that start at an even index. *)
Lemma sanity_check_passes_iff (data : list json) (from_asset to_asset : Asset) :
  (forall entry, In entry data -> exists t, time_of entry = Ok t) ->
  _check_hourly_data_sanity data from_asset to_asset = Ok tt <->
  (forall k n1 n2 t1 t2,
     data !! (2 * k)%nat = Some n1 -> data !! (2 * k + 1)%nat = Some n2 ->
     time_of n1 = Ok t1 -> time_of n2 = Ok t2 -> t2 - t1 = 3600).
Proof.
  unfold _check_hourly_data_sanity. generalize 0 as index.
  induction data as [| a | a b rest IH] using list_pair_ind; intros index Htimes.
  - simpl. split; [intros _ k n1 n2 t1 t2 H; discriminate H | reflexivity].
  - simpl. split; [| reflexivity].
    intros _ k n1 n2 t1 t2 _ H. destruct k; simpl in H; discriminate H.
  - destruct (Htimes a (or_introl eq_refl)) as [ta Ha].
    destruct (Htimes b (or_intror (or_introl eq_refl))) as [tb Hb].
    assert (Hrest : forall entry, In entry rest -> exists t, time_of entry = Ok t).
    { intros entry Hin. apply Htimes. right. right. exact Hin. }
    cbn [pairwise check_pairs]. rewrite Ha, Hb. cbn [res_bind].
    destruct (Z.eqb_spec (tb - ta) 3600) as [Heq | Hne]; cbn [negb].
    + rewrite (IH (index + 2) Hrest). split.
      * intros Hall [| k] n1 n2 t1 t2 H1 H2 Ht1 Ht2.
        -- simpl in H1, H2. inversion H1; inversion H2; subst. congruence.
        -- replace (2 * S k)%nat with (S (S (2 * k))) in H1 by lia.
           replace (2 * S k + 1)%nat with (S (S (2 * k + 1))) in H2 by lia.
           simpl in H1, H2. exact (Hall k n1 n2 t1 t2 H1 H2 Ht1 Ht2).
      * intros Hall k n1 n2 t1 t2 H1 H2 Ht1 Ht2.
        apply (Hall (S k) n1 n2 t1 t2); try assumption.
        -- replace (2 * S k)%nat with (S (S (2 * k))) by lia. exact H1.
        -- replace (2 * S k + 1)%nat with (S (S (2 * k + 1))) by lia. exact H2.
    + split; [discriminate |].
      intros Hall. exfalso. apply Hne.
      exact (Hall 0%nat a b ta tb eq_refl eq_refl Ha Hb).
Qed.

(** A gap that starts at an even index is reported with its two indices. *)
Lemma sanity_check_reports_even_pair :
  _check_hourly_data_sanity
    [hour_entry 0 1 2; hour_entry 3600 1 2; hour_entry 7200 1 2; hour_entry 9999 1 2]
    "BTC" "USD"
  = Raise (RemoteError (HourlyGap 2 3 "BTC" "USD" 2799)).
Proof. vm_compute. reflexivity. Qed.

(** C1: the check walks the disjoint pairs (0,1), (2,3), ...; the series at
    times 0, 3600, 9999, 13599 has a gap of 6399 seconds between indices 1
    and 2, passes the check, and a backfill that assembles it stores and
    returns it. *)
Theorem sanity_check_skips_odd_pairs :
  (let? n1 := list_index gapped_series 1 in
   let? n2 := list_index gapped_series 2 in
   let? t1 := time_of n1 in
   let? t2 := time_of n2 in Ok (t2 - t1)) = Ok 6399 /\
  _check_hourly_data_sanity gapped_series "BTC" "USD" = Ok tt /\
  fst (get_historical_data gapped_env 1 "BTC" "USD" 0 0 empty_world) =
    Ok [mkEntry 0 1 2; mkEntry 3600 1 2; mkEntry 9999 1 2; mkEntry 13599 1 2].
Proof. repeat split; vm_compute; reflexivity. Qed.

(** ** The special-case synthesizer *)

(** A pair whose only special asset is the [to] side: the guard passes and
    the lookup of [from_asset] in the mapping fails. *)
Lemma special_case_only_to_side (E : Env) (m : method)
    (from_asset to_asset : Asset) (w : world) :
  CRYPTOCOMPARE_SPECIAL_CASES_MAPPING !! from_asset = None ->
  in_special_cases to_asset = true ->
  method_of E m from_asset to_asset false w = (Raise (KeyError from_asset), w).
Proof.
  intros Hm Hto.
  assert (Hs : special_asset from_asset to_asset = true).
  { unfold special_asset. rewrite Hto. apply orb_true_r. }
  destruct m; unfold method_of, query_endpoint_histohour, query_endpoint_price,
    query_endpoint_pricehistorical; rewrite Hs; simpl andb; cbv iota;
    unfold _special_case_handling; rewrite Hm; reflexivity.
Qed.

(** C3: a pair whose only special asset is the [to] side passes the guard of
    each endpoint, and [_special_case_handling] then looks [from_asset] up
    in the mapping: for ETH to cDAI every endpoint raises [KeyError] before
    any request is made. *)
Theorem special_case_to_side_raises (E : Env) (m : method) (w : world) :
  CRYPTOCOMPARE_SPECIAL_CASES_MAPPING !! ("cDAI"%string : Asset) = Some A_DAI /\
  CRYPTOCOMPARE_SPECIAL_CASES_MAPPING !! ("ETH"%string : Asset) = None /\
  method_of E m "ETH" "cDAI" false w = (Raise (KeyError "ETH"), w).
Proof.
  split; [vm_compute; reflexivity |]. split; [vm_compute; reflexivity |].
  apply special_case_only_to_side; vm_compute; reflexivity.
Qed.

Ltac res_inv :=
  repeat match goal with
         | H : res_bind _ _ = Ok _ |- _ =>
             apply res_bind_inv in H; destruct H as [? [? H]]
         | H : Ok _ = Ok _ |- _ => inversion H; subst; clear H
         end.

Lemma multiply_str_nums_inv (a b out : json) :
  _multiply_str_nums a b = Ok out ->
  exists x y, FVal a = Ok x /\ FVal b = Ok y /\ out = JDec (x * y)%Q.
Proof. unfold _multiply_str_nums. intros H. res_inv. eauto. Qed.

Lemma list_index_lookup {A : Type} (l : list A) (i : nat) (x : A) :
  list_index l (Z.of_nat i) = Ok x -> l !! i = Some x.
Proof.
  unfold list_index. destruct (Z.ltb_spec (Z.of_nat i) 0) as [Hneg | _]; [lia |].
  destruct (_ || _); [discriminate |].
  rewrite Nat2Z.id. destruct (l !! i); [| discriminate].
  intros H. now inversion H.
Qed.

Lemma lookup_list_index {A : Type} (l : list A) (i : nat) (x : A) :
  l !! i = Some x -> list_index l (Z.of_nat i) = Ok x.
Proof.
  intros H. pose proof (lookup_lt_Some _ _ _ H) as Hlt.
  unfold list_index. destruct (Z.ltb_spec (Z.of_nat i) 0) as [Hneg | _]; [lia |].
  destruct (Z.ltb_spec (Z.of_nat i) 0); [lia |].
  destruct (Z.leb_spec (Z.of_nat (length l)) (Z.of_nat i)); [lia |].
  simpl. rewrite Nat2Z.id. now rewrite H.
Qed.

Lemma combine_entry_spec (entry entry2 out : json) :
  combine_entry entry entry2 = Ok out -> synthesized_entry entry entry2 out.
Proof.
  unfold combine_entry. intros H. res_inv.
  repeat match goal with
         | H : _multiply_str_nums _ _ = Ok _ |- _ =>
             apply multiply_str_nums_inv in H; destruct H as [? [? [? [? ?]]]]; subst
         end.
  unfold synthesized_entry, product_field, passed_field.
  repeat split; eauto 10.
Qed.

Lemma combine_entry_needs_quotes (entry entry2 : json) :
  lacks_quote entry \/ lacks_quote entry2 ->
  is_ok (combine_entry entry entry2) = false.
Proof.
  intros Hlack. destruct (combine_entry entry entry2) as [out |] eqn:Hc; [| reflexivity].
  exfalso. apply combine_entry_spec in Hc.
  destruct Hc as [Hh [Hl [Ho [Hcl _]]]].
  assert (Hall : forall f, In f quote_fields -> product_field f entry entry2 out).
  { intros f [<- | [<- | [<- | [<- | []]]]]; assumption. }
  destruct Hlack as [[d [f [-> [Hf Hnone]]]] | [d [f [-> [Hf Hnone]]]]];
    destruct (Hall f Hf) as [ja [jb [a [b [H1 [H2 _]]]]]];
    simpl in H1, H2; rewrite Hnone in *; discriminate.
Qed.

Lemma combine_entries_spec (result1 result2 : list json) :
  forall (idx : nat) (out : list json),
    combine_entries (Z.of_nat idx) result1 result2 = Ok out ->
    length out = length result1 /\
    forall i entry, result1 !! i = Some entry ->
      exists entry2 o,
        result2 !! (idx + i)%nat = Some entry2 /\ out !! i = Some o /\
        combine_entry entry entry2 = Ok o.
Proof.
  induction result1 as [| entry0 rest IH]; intros idx out H.
  - simpl in H. inversion H. split; [reflexivity |]. intros i entry Hi. discriminate.
  - simpl in H. res_inv.
    replace (Z.of_nat idx + 1) with (Z.of_nat (S idx)) in * by lia.
    match goal with
    | Ht : combine_entries _ rest _ = Ok ?tl |- _ =>
        destruct (IH (S idx) tl Ht) as [Hlen Hall]
    end.
    split; [simpl; now rewrite Hlen |].
    intros [| i] entry Hi; simpl in Hi.
    + inversion Hi; subst entry.
      match goal with
      | Hx : list_index result2 _ = Ok ?e2, Hc : combine_entry _ ?e2 = Ok ?o |- _ =>
          exists e2, o; rewrite Nat.add_0_r;
          repeat split; [now apply list_index_lookup | exact Hc]
      end.
    + destruct (Hall i entry Hi) as [entry2 [o [Hsnd [Hout Hcomb]]]].
      exists entry2, o. replace (idx + S i)%nat with (S idx + i)%nat by lia.
      repeat split; assumption.
Qed.

Lemma combine_entries_needs_quotes (result1 result2 : list json) (i : nat)
    (entry entry2 : json) :
  result1 !! i = Some entry -> result2 !! i = Some entry2 ->
  lacks_quote entry \/ lacks_quote entry2 ->
  is_ok (combine_entries 0 result1 result2) = false.
Proof.
  intros H1 H2 Hlack.
  destruct (combine_entries 0 result1 result2) as [out |] eqn:Hc; [| reflexivity].
  exfalso. destruct (combine_entries_spec result1 result2 0 out Hc) as [_ Hall].
  destruct (Hall i entry H1) as [entry2' [o [Hsnd [_ Hcomb]]]].
  simpl in Hsnd. rewrite H2 in Hsnd. inversion Hsnd; subst entry2'.
  pose proof (combine_entry_needs_quotes entry entry2 Hlack) as Hno.
  rewrite Hcomb in Hno. discriminate.
Qed.

Lemma special_case_handling_legs (E : Env) (m : method)
    (from_asset intermediate_asset to_asset : Asset) (w w1 w2 : world) (r1 r2 : json) :
  CRYPTOCOMPARE_SPECIAL_CASES_MAPPING !! from_asset = Some intermediate_asset ->
  call_handling E m from_asset intermediate_asset w = (Ok r1, w1) ->
  call_handling E m intermediate_asset to_asset w1 = (Ok r2, w2) ->
  _special_case_handling E m from_asset to_asset w =
    (match m with
     | histohour_method _ _ => combine_histohour r1 r2
     | price_method => combine_price intermediate_asset to_asset r1 r2
     | pricehistorical_method _ => combine_pricehistorical r1 r2
     end, w2).
Proof.
  intros Hmap H1 H2. unfold _special_case_handling. rewrite Hmap.
  rewrite (bind_ok _ _ _ _ _ H1). rewrite (bind_ok _ _ _ _ _ H2).
  destruct m; reflexivity.
Qed.

(** An endpoint that is called for a leg goes to the remote server. *)
Lemma marked_endpoint_is_remote (E : Env) (m : method) (from_asset to_asset : Asset) :
  method_of E m from_asset to_asset true = call_handling E m from_asset to_asset.
Proof.
  destruct m; unfold method_of, query_endpoint_histohour, query_endpoint_price,
    query_endpoint_pricehistorical, call_handling; cbn [negb];
    rewrite andb_false_r; reflexivity.
Qed.

(** The endpoint of a mapped asset combines the answers of its two legs. *)
Lemma special_endpoint_legs (E : Env) (m : method)
    (from_asset intermediate_asset to_asset : Asset) (w w1 w2 : world) (r1 r2 : json) :
  CRYPTOCOMPARE_SPECIAL_CASES_MAPPING !! from_asset = Some intermediate_asset ->
  method_of E m from_asset intermediate_asset true w = (Ok r1, w1) ->
  method_of E m intermediate_asset to_asset true w1 = (Ok r2, w2) ->
  method_of E m from_asset to_asset false w =
    (match m with
     | histohour_method _ _ => combine_histohour r1 r2
     | price_method => combine_price intermediate_asset to_asset r1 r2
     | pricehistorical_method _ => combine_pricehistorical r1 r2
     end, w2).
Proof.
  intros Hmap H1 H2. rewrite marked_endpoint_is_remote in H1, H2.
  rewrite <- (special_case_handling_legs E m _ _ _ _ _ _ _ _ Hmap H1 H2).
  assert (Hs : special_asset from_asset to_asset = true).
  { unfold special_asset, in_special_cases. rewrite Hmap.
    rewrite bool_decide_eq_true_2 by eauto. reflexivity. }
  destruct m; unfold method_of, query_endpoint_histohour, query_endpoint_price,
    query_endpoint_pricehistorical; rewrite Hs; reflexivity.
Qed.

Lemma combine_entry_complete (entry entry2 : json) :
  complete_entry entry -> quoted_entry entry2 ->
  exists out, combine_entry entry entry2 = Ok out.
Proof.
  intros [[[h [qh [Hh Hqh]]] [[l [ql [Hl Hql]]] [[o [qo [Ho Hqo]]] [c [qc [Hc Hqc]]]]]]
           [[t Ht] [[vf Hvf] [[vt Hvt] [[ct Hct] [cs Hcs]]]]]]
         [[h2 [qh2 [Hh2 Hqh2]]] [[l2 [ql2 [Hl2 Hql2]]]
           [[o2 [qo2 [Ho2 Hqo2]]] [c2 [qc2 [Hc2 Hqc2]]]]]].
  unfold combine_entry, _multiply_str_nums.
  rewrite Ht, Hh, Hh2, Hl, Hl2, Ho, Ho2, Hvf, Hvt, Hc, Hc2, Hct, Hcs.
  cbn [res_bind]. rewrite Hqh, Hqh2, Hql, Hql2, Hqo, Hqo2, Hqc, Hqc2.
  cbn [res_bind]. eexists. reflexivity.
Qed.

Lemma combine_entries_complete (result1 result2 : list json) :
  forall idx : nat,
    (forall i entry, result1 !! i = Some entry ->
       complete_entry entry /\
       exists entry2, result2 !! (idx + i)%nat = Some entry2 /\ quoted_entry entry2) ->
    exists out, combine_entries (Z.of_nat idx) result1 result2 = Ok out.
Proof.
  induction result1 as [| entry0 rest IH]; intros idx Hall.
  - exists []. reflexivity.
  - destruct (Hall 0%nat entry0 eq_refl) as [Hc [entry2 [H2 Hq]]].
    rewrite Nat.add_0_r in H2.
    destruct (combine_entry_complete entry0 entry2 Hc Hq) as [o Ho].
    destruct (IH (S idx)) as [tl Htl].
    { intros i entry Hi. destruct (Hall (S i) entry Hi) as [Hc' [e2 [He2 Hq']]].
      split; [exact Hc' |]. exists e2.
      replace (S idx + i)%nat with (idx + S i)%nat by lia. auto. }
    exists (o :: tl). cbn [combine_entries].
    rewrite (lookup_list_index _ _ _ H2). cbn [res_bind]. rewrite Ho. cbn [res_bind].
    replace (Z.of_nat idx + 1) with (Z.of_nat (S idx)) by lia.
    rewrite Htl. reflexivity.
Qed.

(** The hourly synthesis on two well-formed answers. *)
Lemma combine_histohour_complete (r1 r2 : json) (d1 d2 : list json) :
  complete_answer r1 ->
  data_of r1 = Ok d1 -> data_of r2 = Ok d2 ->
  (forall i entry, d1 !! i = Some entry ->
     complete_entry entry /\
     exists entry2, d2 !! i = Some entry2 /\ quoted_entry entry2) ->
  exists result out,
    combine_histohour r1 r2 = Ok result /\
    passed_field "Aggregated" r1 result /\
    passed_field "TimeFrom" r1 result /\
    passed_field "TimeTo" r1 result /\
    data_of result = Ok out /\ length out = length d1 /\
    forall i entry entry2,
      d1 !! i = Some entry -> d2 !! i = Some entry2 ->
      exists o, out !! i = Some o /\ synthesized_entry entry entry2 o.
Proof.
  intros [[a Ha] [[tf Htf] [tt Htt]]] Hd1 Hd2 Hall.
  destruct (combine_entries_complete d1 d2 0 Hall) as [out Hout].
  exists (JDict [("Aggregated"%string, a); ("TimeFrom"%string, tf);
                 ("TimeTo"%string, tt); ("Data"%string, JList out)]), out.
  destruct (combine_entries_spec d1 d2 0 out Hout) as [Hlen Hspec].
  split.
  { unfold combine_histohour. rewrite Ha, Htf, Htt. cbn [res_bind].
    unfold data_of in Hd1, Hd2. rewrite Hd1, Hd2. cbn [res_bind].
    change 0 with (Z.of_nat 0). rewrite Hout. reflexivity. }
  unfold passed_field.
  split; [exists a; split; [exact Ha | reflexivity] |].
  split; [exists tf; split; [exact Htf | reflexivity] |].
  split; [exists tt; split; [exact Htt | reflexivity] |].
  split; [reflexivity |]. split; [exact Hlen |].
  intros i entry entry2 Hi Hi2.
  destruct (Hspec i entry Hi) as [entry2' [o [Hsnd [Ho Hcomb]]]].
  simpl in Hsnd. rewrite Hi2 in Hsnd. inversion Hsnd; subst entry2'.
  exists o. split; [exact Ho |]. now apply combine_entry_spec.
Qed.

Lemma combine_histohour_needs_quotes (r1 r2 : json) (d1 d2 : list json) (i : nat)
    (entry entry2 : json) :
  data_of r1 = Ok d1 -> data_of r2 = Ok d2 ->
  d1 !! i = Some entry -> d2 !! i = Some entry2 ->
  lacks_quote entry \/ lacks_quote entry2 ->
  is_ok (combine_histohour r1 r2) = false.
Proof.
  intros Hd1 Hd2 Hi1 Hi2 Hlack. unfold combine_histohour.
  destruct (getitem r1 "Aggregated"); [| reflexivity].
  destruct (getitem r1 "TimeFrom"); [| reflexivity].
  destruct (getitem r1 "TimeTo"); [| reflexivity]. simpl.
  unfold data_of in Hd1, Hd2. rewrite Hd1, Hd2. simpl.
  pose proof (combine_entries_needs_quotes d1 d2 i entry entry2 Hi1 Hi2 Hlack) as Hno.
  destruct (combine_entries 0 d1 d2); [discriminate | reflexivity].
Qed.

(** Whatever the hourly synthesis returns is the series of products. *)
Lemma combine_histohour_spec (r1 r2 result : json) (d1 d2 : list json) :
  data_of r1 = Ok d1 -> data_of r2 = Ok d2 ->
  combine_histohour r1 r2 = Ok result ->
  passed_field "Aggregated" r1 result /\
  passed_field "TimeFrom" r1 result /\
  passed_field "TimeTo" r1 result /\
  exists out,
    data_of result = Ok out /\ length out = length d1 /\
    forall i entry, d1 !! i = Some entry ->
      exists entry2 o,
        d2 !! i = Some entry2 /\ out !! i = Some o /\
        synthesized_entry entry entry2 o.
Proof.
  intros Hd1 Hd2 Hres. unfold combine_histohour in Hres.
  unfold data_of in Hd1, Hd2. res_inv.
  repeat match goal with
         | Ha : getitem ?r ?k = Ok ?x, Hb : getitem ?r ?k = Ok ?y |- _ =>
             rewrite Ha in Hb; inversion Hb; subst; clear Hb
         | Ha : as_list ?r = Ok ?x, Hb : as_list ?r = Ok ?y |- _ =>
             rewrite Ha in Hb; inversion Hb; subst; clear Hb
         end.
  match goal with
  | Hc : combine_entries 0 ?a ?b = Ok ?out |- _ =>
      destruct (combine_entries_spec a b 0 out Hc) as [Hlen Hall]
  end.
  unfold passed_field. repeat split; eauto.
  eexists. split; [reflexivity |]. split; [exact Hlen |].
  intros i entry Hi.
  destruct (Hall i entry Hi) as [entry2 [o [Hsnd [Hout Hcomb]]]].
  exists entry2, o. repeat split; try assumption.
  all: apply combine_entry_spec in Hcomb; apply Hcomb.
Qed.

(** C4 (amended): for [from_asset] mapped to an intermediate asset, every
    endpoint called for the pair queries the two legs and combines their
    answers.
    - Hourly series: when the first leg's answer has [Aggregated],
      [TimeFrom] and [TimeTo], its entries carry the nine fields and each
      has an entry of the second leg at its index with the four quote
      values, the endpoint returns a series that keeps [Aggregated],
      [TimeFrom] and [TimeTo] of the first leg and has one entry per entry
      of the first leg, whose high, low, open and close are the products of
      the two legs' fields at that index and whose time, volumefrom,
      volumeto and conversion metadata are the first leg's; whatever the
      endpoint returns is such a series.  An entry of either leg that lacks
      a quote value makes the endpoint fail: the missing value does not
      count as 0.
    - Current price: the two quotes are multiplied, a quote absent from a
      leg's answer counting as 0.
    - Daily-historical price: the two leg prices are multiplied. *)
Theorem special_case_synthesis (E : Env)
    (from_asset intermediate_asset to_asset : Asset) (w : world) :
  CRYPTOCOMPARE_SPECIAL_CASES_MAPPING !! from_asset = Some intermediate_asset ->
  (forall limit to_ts r1 w1 r2 w2 d1 d2,
     query_endpoint_histohour E from_asset intermediate_asset limit to_ts true w
       = (Ok r1, w1) ->
     query_endpoint_histohour E intermediate_asset to_asset limit to_ts true w1
       = (Ok r2, w2) ->
     data_of r1 = Ok d1 -> data_of r2 = Ok d2 ->
     let run := query_endpoint_histohour E from_asset to_asset limit to_ts false w in
     (complete_answer r1 ->
      (forall i entry, d1 !! i = Some entry ->
         complete_entry entry /\
         exists entry2, d2 !! i = Some entry2 /\ quoted_entry entry2) ->
      exists result out,
        run = (Ok result, w2) /\
        passed_field "Aggregated" r1 result /\
        passed_field "TimeFrom" r1 result /\
        passed_field "TimeTo" r1 result /\
        data_of result = Ok out /\ length out = length d1 /\
        forall i entry entry2,
          d1 !! i = Some entry -> d2 !! i = Some entry2 ->
          exists o, out !! i = Some o /\ synthesized_entry entry entry2 o) /\
     (forall result, fst run = Ok result ->
        passed_field "Aggregated" r1 result /\
        passed_field "TimeFrom" r1 result /\
        passed_field "TimeTo" r1 result /\
        exists out,
          data_of result = Ok out /\ length out = length d1 /\
          forall i entry, d1 !! i = Some entry ->
            exists entry2 o,
              d2 !! i = Some entry2 /\ out !! i = Some o /\
              synthesized_entry entry entry2 o) /\
     (forall i entry entry2,
        d1 !! i = Some entry -> d2 !! i = Some entry2 ->
        lacks_quote entry \/ lacks_quote entry2 ->
        is_ok (fst run) = false /\ snd run = w2)) /\
  (forall p1 w1 p2 w2 a b,
     query_endpoint_price E from_asset intermediate_asset true w
       = (Ok (JDict p1), w1) ->
     query_endpoint_price E intermediate_asset to_asset true w1
       = (Ok (JDict p2), w2) ->
     FVal (from_option id (JDec 0) (dict_get p1 intermediate_asset)) = Ok a ->
     FVal (from_option id (JDec 0) (dict_get p2 to_asset)) = Ok b ->
     query_endpoint_price E from_asset to_asset false w =
       (Ok (JDict [(to_asset, JDec (a * b)%Q)]), w2)) /\
  (forall ts p1 w1 p2 w2,
     query_endpoint_pricehistorical E from_asset intermediate_asset ts true w
       = (Ok (JDec p1), w1) ->
     query_endpoint_pricehistorical E intermediate_asset to_asset ts true w1
       = (Ok (JDec p2), w2) ->
     query_endpoint_pricehistorical E from_asset to_asset ts false w =
       (Ok (JDec (p1 * p2)%Q), w2)).
Proof.
  intros Hmap. split; [| split].
  - intros limit to_ts r1 w1 r2 w2 d1 d2 Hleg1 Hleg2 Hd1 Hd2 run.
    assert (Hrun : run = (combine_histohour r1 r2, w2)).
    { exact (special_endpoint_legs E (histohour_method limit to_ts)
               _ _ _ _ _ _ _ _ Hmap Hleg1 Hleg2). }
    rewrite Hrun. cbn [fst snd]. split; [| split].
    + intros Hanswer Hall.
      destruct (combine_histohour_complete r1 r2 d1 d2 Hanswer Hd1 Hd2 Hall)
        as [result [out [Hres Hrest]]].
      exists result, out. rewrite Hres. split; [reflexivity | exact Hrest].
    + intros result Hres.
      exact (combine_histohour_spec r1 r2 result d1 d2 Hd1 Hd2 Hres).
    + intros i entry entry2 Hi1 Hi2 Hlack. split; [| reflexivity].
      exact (combine_histohour_needs_quotes r1 r2 d1 d2 i entry entry2
               Hd1 Hd2 Hi1 Hi2 Hlack).
  - intros p1 w1 p2 w2 a b Hleg1 Hleg2 Ha Hb.
    change (query_endpoint_price E from_asset to_asset false w)
      with (method_of E price_method from_asset to_asset false w).
    rewrite (special_endpoint_legs E price_method
               _ _ _ _ _ _ _ _ Hmap Hleg1 Hleg2).
    unfold combine_price, get_default, _multiply_str_nums. simpl.
    rewrite Ha, Hb. reflexivity.
  - intros ts p1 w1 p2 w2 Hleg1 Hleg2.
    change (query_endpoint_pricehistorical E from_asset to_asset ts false w)
      with (method_of E (pricehistorical_method ts) from_asset to_asset false w).
    rewrite (special_endpoint_legs E (pricehistorical_method ts)
               _ _ _ _ _ _ _ _ Hmap Hleg1 Hleg2). reflexivity.
Qed.

Lemma hour_entry_complete (t : Timestamp) (lo hi : Q) :
  complete_entry (hour_entry t lo hi).
Proof.
  unfold complete_entry, quoted_entry, numeric_field, present_field.
  repeat split; repeat eexists; reflexivity.
Defined.

Lemma special_case_synthesis_witness :
  CRYPTOCOMPARE_SPECIAL_CASES_MAPPING !! ("cDAI"%string : Asset) = Some A_DAI /\
  fst (query_endpoint_pricehistorical two_leg_env "cDAI" "USD" 0 false empty_world)
    = Ok (JDec (2 * 3)%Q) /\
  fst (query_endpoint_price two_leg_env "cDAI" "USD" false empty_world)
    = Ok (JDict [("USD"%string, JDec (0 * 3)%Q)]) /\
  exists result out,
    fst (query_endpoint_histohour two_leg_env "cDAI" "USD" 2000 7200000 false
           empty_world) = Ok result /\
    data_of result = Ok out /\ length out = 2%nat /\
    exists o,
      out !! 0%nat = Some o /\
      synthesized_entry (hour_entry 0 2 3) (hour_entry 0 5 7) o /\
      getitem o "high" = Ok (JDec (3 * 7)%Q).
Proof.
  assert (Hmap : CRYPTOCOMPARE_SPECIAL_CASES_MAPPING !! ("cDAI"%string : Asset)
                 = Some A_DAI) by (vm_compute; reflexivity).
  destruct (special_case_synthesis two_leg_env "cDAI" A_DAI "USD" empty_world Hmap)
    as [Hhour [Hprice Hdaily]].
  split; [exact Hmap |]. split; [| split].
  - rewrite (Hdaily 0 2%Q _ 3%Q _ eq_refl eq_refl). reflexivity.
  - rewrite (Hprice [] _ [("USD"%string, JDec 3)] _ 0%Q 3%Q
               eq_refl eq_refl eq_refl eq_refl). reflexivity.
  - destruct (Hhour 2000 7200000 _ _ _ _
                [hour_entry 0 2 3; hour_entry 3600 2 3]
                [hour_entry 0 5 7; hour_entry 3600 5 7]
                eq_refl eq_refl eq_refl eq_refl) as [Hok _].
    destruct Hok as [result [out [Hrun [_ [_ [_ [Hout [Hlen Hall]]]]]]]].
    + repeat split; eexists; reflexivity.
    + intros [| [| i]] entry Hi; [| | discriminate Hi].
      * inversion Hi. split; [apply hour_entry_complete |].
        exists (hour_entry 0 5 7). split; [reflexivity |].
        apply (hour_entry_complete 0 5 7).
      * inversion Hi. split; [apply hour_entry_complete |].
        exists (hour_entry 3600 5 7). split; [reflexivity |].
        apply (hour_entry_complete 3600 5 7).
    + exists result, out. rewrite Hrun. split; [reflexivity |].
      split; [exact Hout |]. split; [exact Hlen |].
      destruct (Hall 0%nat (hour_entry 0 2 3) (hour_entry 0 5 7) eq_refl eq_refl)
        as [o [Ho Hsyn]].
      exists o. split; [exact Ho |]. split; [exact Hsyn |].
      destruct Hsyn as [[ja [jb [a [b [H1 [H2 [H3 [H4 H5]]]]]]]] _].
      vm_compute in H1, H2. inversion H1; subst ja. inversion H2; subst jb.
      vm_compute in H3, H4. inversion H3; subst a. inversion H4; subst b.
      exact H5.
Defined.

(** C4 as stated fails for the hourly series: when an entry of the first
    leg has no [high], the synthesis raises [KeyError] instead of counting
    the missing value as 0. *)
Lemma hourly_synthesis_missing_quote_raises :
  lacks_quote entry_without_high /\
  fst (query_endpoint_histohour missing_high_env "cDAI" "USD" 2000 7200000 false
         empty_world) = Raise (KeyError "high").
Proof.
  split.
  - exists [("time"%string, JInt 0); ("low"%string, JDec 2);
            ("open"%string, JDec 2); ("volumefrom"%string, JDec 10);
            ("volumeto"%string, JDec 20); ("close"%string, JDec 3);
            ("conversionType"%string, JStr "direct");
            ("conversionSymbol"%string, JStr "")], "high"%string.
    split; [reflexivity |]. split; [left; reflexivity | reflexivity].
  - vm_compute. reflexivity.
Qed.

(** ** The nearest-timestamp resolver *)

Lemma candidate_index_nonneg (ts first_time : Timestamp) :
  first_time <= ts -> 0 <= candidate_index ts first_time.
Proof. intros H. unfold candidate_index. apply Z.div_pos; lia. Qed.

Lemma list_index_beyond {A : Type} (l : list A) (i : Z) :
  Z.of_nat (length l) <= i -> list_index l i = Raise IndexError.
Proof.
  intros H. unfold list_index.
  destruct (Z.ltb_spec i 0); [lia |].
  destruct (Z.ltb_spec i 0); [lia |].
  destruct (Z.leb_spec (Z.of_nat (length l)) i); [reflexivity | lia].
Qed.

Lemma list_index_Z {A : Type} (l : list A) (i : Z) (x : A) :
  0 <= i -> l !! Z.to_nat i = Some x -> list_index l i = Ok x.
Proof.
  intros Hi H. rewrite <- (Z2Nat.id i Hi). now apply lookup_list_index.
Qed.

Lemma list_index_first {A : Type} (l : list A) (x : A) :
  l !! 0%nat = Some x -> list_index l 0 = Ok x.
Proof. intros H. apply (lookup_list_index l 0 x H). Qed.

(** What the code does past the end of the series: an index beyond the
    length is decremented and then read, an index equal to the length makes
    the lookup give up. *)
Lemma nearest_index_overshoot (data : list PriceHistoryEntry) (ts : Timestamp)
    (first : PriceHistoryEntry) :
  data !! 0%nat = Some first -> time first <= ts ->
  Z.of_nat (length data) < candidate_index ts (time first) ->
  nearest_index data ts = Raise IndexError.
Proof.
  intros H0 Hts Hidx. unfold nearest_index.
  rewrite (list_index_first data first H0). simpl res_bind.
  destruct (Z.geb_spec ts (time first)); [| lia].
  set (index := candidate_index ts (time first)) in *.
  destruct (Z.gtb_spec index (Z.of_nat (length data) - 1)); [| lia].
  destruct (Z.gtb_spec index (Z.of_nat (length data))); [| lia].
  rewrite list_index_beyond by lia. reflexivity.
Qed.

Lemma nearest_index_at_length (data : list PriceHistoryEntry) (ts : Timestamp)
    (first : PriceHistoryEntry) :
  data !! 0%nat = Some first -> time first <= ts ->
  candidate_index ts (time first) = Z.of_nat (length data) ->
  nearest_index data ts = Ok None.
Proof.
  intros H0 Hts Hidx. unfold nearest_index.
  rewrite (list_index_first data first H0). simpl res_bind.
  destruct (Z.geb_spec ts (time first)); [| lia].
  rewrite Hidx.
  destruct (Z.gtb_spec (Z.of_nat (length data)) (Z.of_nat (length data) - 1)); [| lia].
  destruct (Z.gtb_spec (Z.of_nat (length data)) (Z.of_nat (length data))); [lia |].
  reflexivity.
Qed.

(** C5: on the one-entry series at time 0, a timestamp whose candidate
    index equals the length (3600) makes the lookup give up with price zero
    instead of stepping back to the last entry, and a timestamp whose
    candidate index exceeds the length (7200: by one, 10800: by two) raises
    [IndexError], also through [query_historical_price] after a backfill. *)
Theorem overshoot_raises_index_error :
  nearest_index [mkEntry 0 1 3] 3600 = Ok None /\
  hourly_price [mkEntry 0 1 3] 3600 = Ok 0%Q /\
  hourly_price [mkEntry 0 1 3] 7200 = Raise IndexError /\
  hourly_price [mkEntry 0 1 3] 10800 = Raise IndexError /\
  fst (get_historical_data single_entry_env 1 "BTC" "USD" 10800 0 empty_world) =
    Ok [mkEntry 0 1 3] /\
  fst (query_historical_price single_entry_env 1 "BTC" "USD" 10800 0 empty_world) =
    Raise IndexError.
Proof. repeat split; vm_compute; reflexivity. Qed.







(** ** The consistency adjuster *)






(** ** The override table *)

Lemma histohour_cases_only_comp (asset : Asset) (asset_data : HistoHourAssetData) :
  CRYPTOCOMPARE_SPECIAL_HISTOHOUR_CASES !! asset = Some asset_data ->
  asset = A_COMP /\ asset_data = mkHistoHour 1592632800 (20293 # 100).
Proof.
  unfold CRYPTOCOMPARE_SPECIAL_HISTOHOUR_CASES. intros H.
  apply lookup_singleton_Some in H. destruct H as [H1 H2]. auto.
Qed.

Lemma in_histohour_cases_true (asset : Asset) :
  in_histohour_cases asset = true ->
  exists asset_data, CRYPTOCOMPARE_SPECIAL_HISTOHOUR_CASES !! asset = Some asset_data.
Proof.
  unfold in_histohour_cases. intros H. apply bool_decide_eq_true in H.
  destruct H as [asset_data H]. now exists asset_data.
Qed.

Lemma asset_eqb_true (a b : Asset) : asset_eqb a b = true -> a = b.
Proof. unfold asset_eqb. apply bool_decide_eq_true. Qed.

Lemma override_comp_to_usd (ts : Timestamp) :
  ts <= 1592632800 ->
  _check_and_get_special_histohour_price A_COMP A_USD ts = Ok (20293 # 100).
Proof.
  intros Hts. unfold _check_and_get_special_histohour_price.
  replace (in_histohour_cases A_COMP) with true by (vm_compute; reflexivity).
  replace (asset_eqb A_USD A_USD) with true by (vm_compute; reflexivity).
  replace (histohour_case A_COMP) with (Ok (mkHistoHour 1592632800 (20293 # 100)))
    by (vm_compute; reflexivity).
  cbn [andb orb res_bind timestamp usd_price].
  destruct (Z.leb_spec ts 1592632800); [reflexivity | lia].
Qed.

Lemma override_usd_to_comp (ts : Timestamp) :
  ts <= 1592632800 ->
  _check_and_get_special_histohour_price A_USD A_COMP ts = Ok (1 / (20293 # 100))%Q.
Proof.
  intros Hts. unfold _check_and_get_special_histohour_price.
  replace (in_histohour_cases A_COMP) with true by (vm_compute; reflexivity).
  replace (in_histohour_cases A_USD) with false by (vm_compute; reflexivity).
  replace (asset_eqb A_USD A_USD) with true by (vm_compute; reflexivity).
  replace (asset_eqb A_COMP A_USD) with false by (vm_compute; reflexivity).
  replace (histohour_case A_COMP) with (Ok (mkHistoHour 1592632800 (20293 # 100)))
    by (vm_compute; reflexivity).
  cbn [andb orb res_bind timestamp usd_price].
  destruct (Z.leb_spec ts 1592632800); [reflexivity | lia].
Qed.

Lemma no_override_is_zero (from_asset to_asset : Asset) (ts : Timestamp) :
  (forall asset_data,
     ~ (override_of from_asset to_asset asset_data /\ ts <= timestamp asset_data)) ->
  _check_and_get_special_histohour_price from_asset to_asset ts = Ok 0%Q.
Proof.
  intros Hno. unfold _check_and_get_special_histohour_price.
  destruct (in_histohour_cases from_asset && asset_eqb to_asset A_USD) eqn:Ha.
  - apply andb_prop in Ha. destruct Ha as [Hin Hto].
    apply in_histohour_cases_true in Hin. destruct Hin as [asset_data Hin].
    rewrite Hto. cbn [orb]. unfold histohour_case. rewrite Hin. cbn [res_bind].
    destruct (Z.leb_spec ts (timestamp asset_data)); [| reflexivity].
    exfalso. apply (Hno asset_data). split; [| assumption].
    left. split; [now apply asset_eqb_true | exact Hin].
  - cbn [orb].
    destruct (asset_eqb from_asset A_USD && in_histohour_cases to_asset) eqn:Hb;
      [| reflexivity].
    apply andb_prop in Hb. destruct Hb as [Hfrom Hin].
    apply in_histohour_cases_true in Hin. destruct Hin as [asset_data Hin].
    destruct (histohour_cases_only_comp _ _ Hin) as [-> ->].
    replace (asset_eqb A_COMP A_USD) with false by (vm_compute; reflexivity).
    replace (histohour_case A_COMP) with (Ok (mkHistoHour 1592632800 (20293 # 100)))
      by (vm_compute; reflexivity).
    cbn [res_bind timestamp].
    destruct (Z.leb_spec ts 1592632800); [| reflexivity].
    exfalso. apply (Hno (mkHistoHour 1592632800 (20293 # 100))). split; [| assumption].
    right. split; [now apply asset_eqb_true | exact Hin].
Qed.

(** C8: when one side of the pair is USD, the other asset has an entry in
    the histohour override table and the timestamp is at or before that
    entry's timestamp, [query_historical_price] returns the entry's USD
    price (1/usd_price when the override asset is the [to] side) and leaves
    the world as it was: no request, no sleep, no cache or file change.  In
    every other case the table yields price zero and the result is that of
    the series-based resolution. *)
Theorem override_short_circuit (E : Env) (fuel : nat) (from_asset to_asset : Asset)
    (ts historical_data_start : Timestamp) (w : world) :
  (forall asset_data,
     override_of from_asset to_asset asset_data ->
     ts <= timestamp asset_data ->
     query_historical_price E fuel from_asset to_asset ts historical_data_start w =
       (Ok (if asset_eqb to_asset A_USD
            then usd_price asset_data
            else 1 / usd_price asset_data)%Q, w)) /\
  ((forall asset_data,
      ~ (override_of from_asset to_asset asset_data /\ ts <= timestamp asset_data)) ->
   _check_and_get_special_histohour_price from_asset to_asset ts = Ok 0%Q /\
   query_historical_price E fuel from_asset to_asset ts historical_data_start w =
     resolve_from_series E fuel from_asset to_asset ts historical_data_start w).
Proof.
  split.
  - intros asset_data [[-> Hin] | [-> Hin]] Hts;
      destruct (histohour_cases_only_comp _ _ Hin) as [-> ->];
      cbn [timestamp] in Hts; unfold query_historical_price, bind, lift.
    + rewrite (override_comp_to_usd ts Hts). reflexivity.
    + rewrite (override_usd_to_comp ts Hts). reflexivity.
  - intros Hno. pose proof (no_override_is_zero from_asset to_asset ts Hno) as Hz.
    split; [exact Hz |].
    unfold query_historical_price, bind, lift. rewrite Hz. reflexivity.
Qed.

Lemma override_short_circuit_witness :
  query_historical_price single_entry_env 1 A_COMP A_USD 1592632800 0 empty_world =
    (Ok (20293 # 100), empty_world) /\
  query_historical_price single_entry_env 1 A_USD A_COMP 1592632800 0 empty_world =
    (Ok (1 / (20293 # 100))%Q, empty_world) /\
  query_historical_price single_entry_env 1 A_COMP A_USD 1592632801 0 empty_world =
    resolve_from_series single_entry_env 1 A_COMP A_USD 1592632801 0 empty_world.
Proof.
  split; [| split].
  - apply (proj1 (override_short_circuit single_entry_env 1 A_COMP A_USD
                    1592632800 0 empty_world)
             (mkHistoHour 1592632800 (20293 # 100))).
    + left. split; reflexivity.
    + simpl. lia.
  - apply (proj1 (override_short_circuit single_entry_env 1 A_USD A_COMP
                    1592632800 0 empty_world)
             (mkHistoHour 1592632800 (20293 # 100))).
    + right. split; reflexivity.
    + simpl. lia.
  - apply (proj2 (override_short_circuit single_entry_env 1 A_COMP A_USD
                    1592632801 0 empty_world)).
    intros asset_data [[[_ Hin] | [Hfrom _]] Hts].
    + destruct (histohour_cases_only_comp _ _ Hin) as [_ ->]. simpl in Hts. lia.
    + discriminate Hfrom.
Defined.

(** ** The cache file *)

(** C9 fails on the code: [get_historical_data] writes the cache file
    with [end_ts=now_ts] and stores the series in memory with
    ['end_time': end_date].  A backfill made at time 100 keeps the
    one-entry series in memory with [end_time] 7200000 and writes it with
    [end_time] 100, so a process that starts from the files loads a
    different series.  The difference shows later, when the server has five
    entries: the process that made the backfill answers a query at 10800
    from its stale series, without a request, and raises [IndexError]; a
    process restarted from the same files fetches again and finds the
    price. *)
Theorem reloaded_series_differs :
  let key := cache_key_of "BTC" "USD" in
  let run := get_historical_data single_entry_env 1 "BTC" "USD" 0 0 empty_world in
  let reload := _got_cached_price key 50 (restarted (snd run)) in
  let same_process :=
    query_historical_price five_hour_env 1 "BTC" "USD" 10800 0 (snd run) in
  let new_process :=
    query_historical_price five_hour_env 1 "BTC" "USD" 10800 0 (restarted (snd run)) in
  fst run = Ok [mkEntry 0 1 3] /\
  price_history (snd run) !! key = Some (mkData [mkEntry 0 1 3] 0 7200000) /\
  files (snd run) !! cache_filename single_entry_env key
    = Some (FileJson (history_document [hour_entry 0 1 3] 0 100)) /\
  price_history (snd reload) !! key = Some (mkData [mkEntry 0 1 3] 0 100) /\
  price_history (snd reload) !! key <> price_history (snd run) !! key /\
  same_process = (Raise IndexError, snd run) /\
  fst new_process = Ok ((8 + 6) / 2)%Q /\
  requests (snd new_process) = [Histohour "BTC" "USD" 2000 7200000].
Proof.
  vm_compute. repeat split; try reflexivity. intros H. discriminate H.
Qed.

(** ** The empty series *)

(** C10: when the override table yields zero and [get_historical_data]
    returns an empty list, [query_historical_price] reads [data[0]] and
    raises [IndexError]: no fallback is tried and no
    [NoPriceForGivenTimestamp] is raised. *)
Theorem empty_series_raises_index_error (E : Env) (fuel : nat)
    (from_asset to_asset : Asset) (ts historical_data_start : Timestamp)
    (w w' : world) :
  _check_and_get_special_histohour_price from_asset to_asset ts = Ok 0%Q ->
  get_historical_data E fuel from_asset to_asset ts historical_data_start w
    = (Ok [], w') ->
  query_historical_price E fuel from_asset to_asset ts historical_data_start w
    = (Raise IndexError, w').
Proof.
  intros Hzero Hdata.
  unfold query_historical_price, bind, lift. rewrite Hzero.
  change (negb (Qeq_bool 0 0)) with false. cbv iota.
  unfold resolve_from_series, price_before_adjustment, bind,
    historical_data_or_unsupported.
  cbv beta. rewrite Hdata. reflexivity.
Qed.

Lemma empty_series_raises_index_error_witness :
  let run := get_historical_data empty_history_env 1 "BTC" "USD" 0 0 empty_world in
  fst run = Ok [] /\
  query_historical_price empty_history_env 1 "BTC" "USD" 0 0 empty_world
    = (Raise IndexError, snd run).
Proof.
  intros run.
  assert (Hrun : run = (Ok [], snd run)) by (vm_compute; reflexivity).
  split; [now rewrite Hrun |].
  exact (empty_series_raises_index_error empty_history_env 1 "BTC" "USD" 0 0
           empty_world (snd run) eq_refl Hrun).
Defined.

(** * Further properties *)

(** ** [_api_query]: bounded traffic, retries, transport failures *)

Lemma same_stores_refl (w : world) : same_stores w w.
Proof. repeat split. Qed.

Lemma same_stores_trans (w1 w2 w3 : world) :
  same_stores w1 w2 -> same_stores w2 w3 -> same_stores w1 w3.
Proof.
  intros [H1 [H2 H3]] [H4 [H5 H6]]. repeat split; congruence.
Qed.

(** One round of the loop. *)
Lemma api_query_loop_step (E : Env) (tries : nat) (path : query) (w : world) :
  api_query_loop E tries path w =
    match server E (length (requests w)) path with
    | ConnectionError => (Raise (RemoteError ConnectionFailed), requested w path)
    | BadBody => (Raise (RemoteError InvalidJSON), requested w path)
    | Body json_ret =>
        match rate_limited json_ret with
        | Raise e => (Raise e, requested w path)
        | Ok limited =>
            match limited, tries with
            | true, S tries' =>
                api_query_loop E tries' path
                  (slept (requested w path) (20 / inject_Z (Z.of_nat tries))%Q)
            | _, _ => (payload_result path json_ret, requested w path)
            end
        end
    end.
Proof.
  destruct tries; cbn [api_query_loop]; unfold bind at 1; unfold session_get at 1;
    fold (requested w path);
    destruct (server E (length (requests w)) path) as [| | json_ret]; try reflexivity;
    unfold bind at 1; unfold lift at 1;
    destruct (rate_limited json_ret) as [[|] | e]; reflexivity.
Qed.

Lemma api_query_loop_traffic (E : Env) (path : query) :
  forall tries w,
    exists k, (k <= tries)%nat /\
      requests (snd (api_query_loop E tries path w))
        = requests w ++ replicate (S k) path /\
      sleeps (snd (api_query_loop E tries path w))
        = sleeps w ++ take k (backoffs tries) /\
      same_stores w (snd (api_query_loop E tries path w)).
Proof.
  induction tries as [| tries IH]; intros w; rewrite api_query_loop_step.
  - exists 0%nat. split; [lia |].
    destruct (server E (length (requests w)) path) as [| | json_ret];
      [| | destruct (rate_limited json_ret) as [[|] | e]];
      simpl; rewrite ?app_nil_r; repeat split; reflexivity.
  - destruct (server E (length (requests w)) path) as [| | json_ret];
      [| | destruct (rate_limited json_ret) as [[|] | e]].
    1, 2, 4, 5: exists 0%nat; split; [lia |]; simpl; rewrite ?app_nil_r;
      repeat split; reflexivity.
    destruct (IH (slept (requested w path) (20 / inject_Z (Z.of_nat (S tries)))%Q))
      as [k [Hk [Hreq [Hsl [Hp [Hf Hd]]]]]].
    exists (S k). split; [lia |].
    rewrite Hreq, Hsl. cbn [requests sleeps requested slept].
    rewrite <- !app_assoc. repeat split; assumption.
Qed.

(** X1: whatever the server answers, one call to [_api_query] issues between
    one and eleven requests, all for the given path, sleeps once before each
    request after the first with the waits 20/10, 20/9, ... in that order,
    and leaves the price caches and the data directory untouched. *)
Theorem api_query_traffic_bounded (E : Env) (path : query) (w : world) :
  exists k, (k <= 10)%nat /\
    requests (snd (_api_query E path w)) = requests w ++ replicate (S k) path /\
    sleeps (snd (_api_query E path w)) = sleeps w ++ take k (backoffs 10) /\
    same_stores w (snd (_api_query E path w)).
Proof. exact (api_query_loop_traffic E path 10 w). Qed.

Lemma api_query_loop_skip (E : Env) (path : query) :
  forall k tries w,
    (k <= tries)%nat ->
    (forall i, (i < k)%nat -> rate_limited_at E path (length (requests w) + i)) ->
    api_query_loop E tries path w =
      api_query_loop E (tries - k) path (after_retries w path k tries).
Proof.
  induction k as [| k IH]; intros tries w Hk Hlim.
  - rewrite Nat.sub_0_r. unfold after_retries. simpl. rewrite !app_nil_r.
    destruct w; reflexivity.
  - destruct tries as [| tries]; [lia |].
    destruct (Hlim 0%nat ltac:(lia)) as [d [Hsrv Hmsg]].
    rewrite Nat.add_0_r in Hsrv.
    rewrite api_query_loop_step, Hsrv. cbn [rate_limited]. rewrite Hmsg.
    rewrite bool_decide_eq_true_2 by reflexivity.
    rewrite IH; [| lia |].
    + f_equal. unfold after_retries, slept, requested. simpl.
      rewrite <- !app_assoc. reflexivity.
    + intros i Hi. cbn [requests slept requested]. rewrite length_app. simpl.
      replace (length (requests w) + 1 + i)%nat
        with (length (requests w) + S i)%nat by lia.
      apply Hlim. lia.
Qed.

(** X2: when the first [k] responses (k at most 10) are rate limited and the
    next request fails to connect or comes back with a body that is not
    JSON, [_api_query] raises [RemoteError] at once: [k] sleeps, [k+1]
    requests, no further retry. *)
Theorem api_query_transport_failure (E : Env) (path : query) (w : world) (k : nat) :
  (k <= 10)%nat ->
  (forall i, (i < k)%nat -> rate_limited_at E path (length (requests w) + i)) ->
  (server E (length (requests w) + k) path = ConnectionError ->
   _api_query E path w =
     (Raise (RemoteError ConnectionFailed), requested (after_retries w path k 10) path)) /\
  (server E (length (requests w) + k) path = BadBody ->
   _api_query E path w =
     (Raise (RemoteError InvalidJSON), requested (after_retries w path k 10) path)).
Proof.
  intros Hk Hlim. unfold _api_query, CRYPTOCOMPARE_QUERY_RETRY_TIMES.
  rewrite (api_query_loop_skip E path k 10 w Hk Hlim).
  rewrite api_query_loop_step. cbn [requests after_retries].
  rewrite length_app, length_replicate.
  split; intros Hsrv; rewrite Hsrv; reflexivity.
Qed.

Lemma limited_then_rate_limited (k : nat) (resp : http_response) (path : query) :
  forall i, (i < k)%nat ->
    rate_limited_at (limited_then k resp) path (length (requests empty_world) + i).
Proof.
  intros i Hi. exists [("Response"%string, JStr "Error");
                       ("Message"%string, JStr RATE_LIMIT_MSG)].
  split; [| reflexivity]. simpl.
  destruct (Nat.ltb_spec i k); [reflexivity | lia].
Qed.

Lemma api_query_transport_failure_witness :
  _api_query (limited_then 3 ConnectionError) CoinList empty_world =
    (Raise (RemoteError ConnectionFailed),
     requested (after_retries empty_world CoinList 3 10) CoinList) /\
  sleeps (requested (after_retries empty_world CoinList 3 10) CoinList)
    = [20 # 10; 20 # 9; 20 # 8]%Q.
Proof.
  split; [| reflexivity].
  apply (api_query_transport_failure (limited_then 3 ConnectionError) CoinList
           empty_world 3 ltac:(lia)
           (limited_then_rate_limited 3 ConnectionError CoinList)).
  reflexivity.
Defined.

(** X3: when the first [k] responses (k at most 10) are rate limited and the
    next one is a payload without the rate-limit message, [_api_query]
    answers from that payload after [k] sleeps and [k+1] requests. *)
Theorem api_query_answer_after_retries (E : Env) (path : query) (w : world)
    (k : nat) (json_ret : json) :
  (k <= 10)%nat ->
  (forall i, (i < k)%nat -> rate_limited_at E path (length (requests w) + i)) ->
  server E (length (requests w) + k) path = Body json_ret ->
  rate_limited json_ret = Ok false ->
  _api_query E path w =
    (payload_result path json_ret, requested (after_retries w path k 10) path).
Proof.
  intros Hk Hlim Hsrv Hfree. unfold _api_query, CRYPTOCOMPARE_QUERY_RETRY_TIMES.
  rewrite (api_query_loop_skip E path k 10 w Hk Hlim).
  rewrite api_query_loop_step. cbn [requests after_retries].
  rewrite length_app, length_replicate. rewrite Hsrv, Hfree.
  destruct (10 - k)%nat; reflexivity.
Qed.

Lemma api_query_answer_after_retries_witness :
  _api_query (limited_then 2 (Body (JDict [("Data"%string, JInt 7)]))) CoinList
    empty_world =
    (Ok (JInt 7), requested (after_retries empty_world CoinList 2 10) CoinList).
Proof.
  apply (api_query_answer_after_retries
           (limited_then 2 (Body (JDict [("Data"%string, JInt 7)]))) CoinList
           empty_world 2 (JDict [("Data"%string, JInt 7)]) ltac:(lia)
           (limited_then_rate_limited 2 _ CoinList) eq_refl eq_refl).
Defined.

(** ** [_check_hourly_data_sanity]: what passes, what is reported *)

(** X4: for a series whose entries all carry an integer [time], the hourly
    check passes exactly when every pair of entries at indices 2k and 2k+1
    is 3600 seconds apart; the pairs at indices 2k+1 and 2k+2 have no
    influence. *)
Theorem sanity_check_checks_even_pairs (series : list json)
    (from_asset to_asset : Asset) :
  (forall entry, In entry series -> exists t, time_of entry = Ok t) ->
  _check_hourly_data_sanity series from_asset to_asset = Ok tt <->
  (forall k n1 n2 t1 t2,
     series !! (2 * k)%nat = Some n1 -> series !! (2 * k + 1)%nat = Some n2 ->
     time_of n1 = Ok t1 -> time_of n2 = Ok t2 -> t2 - t1 = 3600).
Proof. apply sanity_check_passes_iff. Qed.

Lemma sanity_check_checks_even_pairs_witness :
  (forall entry, In entry gapped_series -> exists t, time_of entry = Ok t) /\
  _check_hourly_data_sanity gapped_series "BTC" "USD" = Ok tt.
Proof.
  assert (Htimes : forall entry, In entry gapped_series -> exists t, time_of entry = Ok t).
  { intros entry [<- | [<- | [<- | [<- | []]]]]; eexists; reflexivity. }
  split; [exact Htimes |].
  apply (proj2 (sanity_check_checks_even_pairs gapped_series "BTC" "USD" Htimes)).
  intros [| [| k]] n1 n2 t1 t2 H1 H2 Ht1 Ht2.
  - inversion H1; inversion H2; subst. inversion Ht1; inversion Ht2. reflexivity.
  - inversion H1; inversion H2; subst. inversion Ht1; inversion Ht2. reflexivity.
  - replace (2 * S (S k))%nat with (S (S (S (S (2 * k))))) in H1 by lia.
    discriminate H1.
Defined.

Lemma time_of_not_remote (entry : json) (why : remote_failure) :
  time_of entry <> Raise (RemoteError why).
Proof.
  unfold time_of, getitem, as_int.
  destruct entry as [| | | | | | d]; try discriminate.
  destruct (dict_get d "time") as [[| | | | | |] |]; discriminate.
Qed.

Lemma check_pairs_error (from_asset to_asset : Asset) (why : remote_failure) :
  forall (data : list json) (m : nat),
    check_pairs (Z.of_nat (2 * m)) (pairwise data) from_asset to_asset
      = Raise (RemoteError why) ->
    exists k n1 n2 t1 t2,
      why = HourlyGap (Z.of_nat (2 * (m + k))) (Z.of_nat (2 * (m + k)) + 1)
              from_asset to_asset (t2 - t1) /\
      data !! (2 * k)%nat = Some n1 /\ data !! (2 * k + 1)%nat = Some n2 /\
      time_of n1 = Ok t1 /\ time_of n2 = Ok t2 /\ t2 - t1 <> 3600.
Proof.
  intros series.
  induction series as [| a | a b rest IH] using list_pair_ind; intros m H.
  - discriminate H.
  - discriminate H.
  - cbn [pairwise check_pairs] in H.
    destruct (time_of b) as [tb | eb] eqn:Hb;
      [| exfalso; simpl in H; inversion H; subst eb;
         exact (time_of_not_remote b why Hb)].
    destruct (time_of a) as [ta | ea] eqn:Ha;
      [| exfalso; simpl in H; inversion H; subst ea;
         exact (time_of_not_remote a why Ha)].
    cbn [res_bind] in H.
    destruct (Z.eqb_spec (tb - ta) 3600) as [Heq | Hne]; cbn [negb] in H.
    + replace (Z.of_nat (2 * m) + 2) with (Z.of_nat (2 * S m)) in H by lia.
      destruct (IH (S m) H) as [k [n1 [n2 [t1 [t2 [Hw [H1 [H2 [Ht1 [Ht2 Hd]]]]]]]]]].
      exists (S k), n1, n2, t1, t2.
      replace (m + S k)%nat with (S m + k)%nat by lia.
      replace (2 * S k)%nat with (S (S (2 * k))) by lia.
      replace (S (S (2 * k)) + 1)%nat with (S (S (2 * k + 1))) by lia.
      repeat split; assumption.
    + assert (Hw : why = HourlyGap (Z.of_nat (2 * m)) (Z.of_nat (2 * m) + 1)
                           from_asset to_asset (tb - ta)) by congruence.
      clear H. exists 0%nat, a, b, ta, tb.
      rewrite Nat.add_0_r. repeat split; try assumption; reflexivity.
Qed.

(** X5: whenever the hourly check raises a [RemoteError], the error names
    two adjacent indices 2k and 2k+1 of the series, the asset pair, and the
    actual difference of the two entries' times, which is not 3600. *)
Theorem sanity_check_error_names_pair (data : list json)
    (from_asset to_asset : Asset) (why : remote_failure) :
  _check_hourly_data_sanity data from_asset to_asset = Raise (RemoteError why) ->
  exists k n1 n2 t1 t2,
    why = HourlyGap (Z.of_nat (2 * k)) (Z.of_nat (2 * k) + 1)
            from_asset to_asset (t2 - t1) /\
    data !! (2 * k)%nat = Some n1 /\ data !! (2 * k + 1)%nat = Some n2 /\
    time_of n1 = Ok t1 /\ time_of n2 = Ok t2 /\ t2 - t1 <> 3600.
Proof.
  unfold _check_hourly_data_sanity. intros H.
  exact (check_pairs_error from_asset to_asset why data 0 H).
Qed.

Lemma sanity_check_error_names_pair_witness :
  _check_hourly_data_sanity even_gap_series "BTC" "USD"
    = Raise (RemoteError (HourlyGap 2 3 "BTC" "USD" 2799)) /\
  exists k n1 n2 t1 t2,
    HourlyGap 2 3 "BTC" "USD" 2799
      = HourlyGap (Z.of_nat (2 * k)) (Z.of_nat (2 * k) + 1) "BTC" "USD" (t2 - t1) /\
    even_gap_series !! (2 * k)%nat = Some n1 /\
    even_gap_series !! (2 * k + 1)%nat = Some n2 /\
    time_of n1 = Ok t1 /\ time_of n2 = Ok t2 /\ t2 - t1 <> 3600.
Proof.
  assert (H : _check_hourly_data_sanity even_gap_series "BTC" "USD"
              = Raise (RemoteError (HourlyGap 2 3 "BTC" "USD" 2799)))
    by (vm_compute; reflexivity).
  split; [exact H |].
  exact (sanity_check_error_names_pair even_gap_series "BTC" "USD" _ H).
Defined.

(** ** [_dict_history_to_entries] *)

Lemma dict_history_to_entries_inv (l : list json)
    (entries : list PriceHistoryEntry) :
  _dict_history_to_entries l = Ok entries ->
  length entries = length l /\
  forall i d, l !! i = Some d ->
    exists e v_low v_high,
      entries !! i = Some e /\
      time_of d = Ok (time e) /\
      getitem d "low" = Ok v_low /\ FVal v_low = Ok (low e) /\
      getitem d "high" = Ok v_high /\ FVal v_high = Ok (high e).
Proof.
  revert entries. induction l as [| d0 l IH]; intros entries H.
  - inversion H. split; [reflexivity |]. intros i d Hi. discriminate Hi.
  - cbn [_dict_history_to_entries] in H. res_inv.
    match goal with
    | Hr : _dict_history_to_entries l = Ok ?r |- _ =>
        destruct (IH r Hr) as [Hlen Hall]
    end.
    split; [simpl; now rewrite Hlen |].
    intros [| i] d Hi; simpl in Hi.
    + inversion Hi; subst d. eexists; eexists; eexists.
      split; [reflexivity |]. simpl. eauto 10.
    + exact (Hall i d Hi).
Qed.

(** X6: when the conversion of a list of history dicts succeeds, the result
    has one entry per dict, in order, holding that dict's [time], and its
    [low] and [high] read as decimals. *)
Theorem dict_history_to_entries_pointwise (l : list json)
    (entries : list PriceHistoryEntry) :
  _dict_history_to_entries l = Ok entries ->
  length entries = length l /\
  forall i d, l !! i = Some d ->
    exists e v_low v_high,
      entries !! i = Some e /\
      time_of d = Ok (time e) /\
      getitem d "low" = Ok v_low /\ FVal v_low = Ok (low e) /\
      getitem d "high" = Ok v_high /\ FVal v_high = Ok (high e).
Proof. exact (dict_history_to_entries_inv l entries). Qed.

Lemma dict_history_to_entries_pointwise_witness :
  _dict_history_to_entries [hour_entry 0 1 3; hour_entry 3600 2 4]
    = Ok [mkEntry 0 1 3; mkEntry 3600 2 4] /\
  length [mkEntry 0 1 3; mkEntry 3600 2 4]
    = length [hour_entry 0 1 3; hour_entry 3600 2 4].
Proof.
  split; [reflexivity |].
  exact (proj1 (dict_history_to_entries_pointwise
                  [hour_entry 0 1 3; hour_entry 3600 2 4]
                  [mkEntry 0 1 3; mkEntry 3600 2 4] eq_refl)).
Defined.

(** X7: the conversion fails as soon as one dict has no [time], [low] or
    [high]: nothing is converted. *)
Theorem dict_history_to_entries_needs_keys (l : list json) (i : nat)
    (d : list (string * json)) (key : string) :
  l !! i = Some (JDict d) ->
  In key ["time"; "low"; "high"]%string ->
  dict_get d key = None ->
  is_ok (_dict_history_to_entries l) = false.
Proof.
  intros Hi Hkey Hnone.
  destruct (_dict_history_to_entries l) as [entries |] eqn:H; [| reflexivity].
  exfalso.
  destruct (proj2 (dict_history_to_entries_inv l entries H) i (JDict d) Hi)
    as [e [vl [vh [_ [Ht [Hl [_ [Hh _]]]]]]]].
  unfold time_of in Ht. simpl in Ht, Hl, Hh.
  destruct Hkey as [<- | [<- | [<- | []]]]; rewrite Hnone in *; discriminate.
Qed.

Lemma dict_history_to_entries_needs_keys_witness :
  [entry_without_high] !! 0%nat = Some entry_without_high /\
  is_ok (_dict_history_to_entries [entry_without_high]) = false.
Proof.
  split; [reflexivity |].
  apply (dict_history_to_entries_needs_keys [entry_without_high] 0 _ "high" eq_refl).
  - right. right. left. reflexivity.
  - reflexivity.
Defined.

(** ** [_got_cached_price] *)

(** The three ways the cache check ends when the pair has a registered file
    and no series in memory. *)
Lemma got_cached_price_unloaded (cache_key : PairCacheKey) (ts : Timestamp)
    (w : world) (path : string) :
  price_history_file w !! cache_key = Some path ->
  price_history w !! cache_key = None ->
  _got_cached_price cache_key ts w =
    match files w !! path with
    | Some (FileJson doc) =>
        match _dict_history_to_data doc with
        | Ok h =>
            (Ok ((start_time h <=? ts) && (end_time h >? ts)),
             mkWorld (requests w) (sleeps w) (<[cache_key := h]> (price_history w))
                     (price_history_file w) (files w))
        | Raise e => (Raise e, w)
        end
    | _ => (Ok false, w)
    end.
Proof.
  intros Hfile Hmem. unfold _got_cached_price, bind, get_world.
  rewrite Hfile, Hmem.
  destruct (files w !! path) as [[doc |] |]; try reflexivity.
  unfold lift. destruct (_dict_history_to_data doc) as [h | e]; [| reflexivity].
  unfold set_price_history. cbn [price_history]. rewrite lookup_insert_eq.
  reflexivity.
Qed.

Lemma got_cached_price_loaded (cache_key : PairCacheKey) (ts : Timestamp)
    (w : world) (path : string) (h : PriceHistoryData) :
  price_history_file w !! cache_key = Some path ->
  price_history w !! cache_key = Some h ->
  _got_cached_price cache_key ts w =
    (Ok ((start_time h <=? ts) && (end_time h >? ts)), w).
Proof.
  intros Hfile Hmem. unfold _got_cached_price, bind, get_world.
  rewrite Hfile, Hmem. rewrite Hmem. reflexivity.
Qed.

Lemma got_cached_price_unregistered (cache_key : PairCacheKey) (ts : Timestamp)
    (w : world) :
  price_history_file w !! cache_key = None ->
  _got_cached_price cache_key ts w = (Ok false, w).
Proof.
  intros Hfile. unfold _got_cached_price, bind, get_world. now rewrite Hfile.
Qed.

Lemma got_cached_price_frame (cache_key : PairCacheKey) (ts : Timestamp)
    (w : world) :
  let w' := snd (_got_cached_price cache_key ts w) in
  requests w' = requests w /\ sleeps w' = sleeps w /\
  price_history_file w' = price_history_file w /\ files w' = files w /\
  (price_history w' = price_history w \/
   price_history w !! cache_key = None /\
   exists h, price_history w' = <[cache_key := h]> (price_history w)).
Proof.
  destruct (price_history_file w !! cache_key) as [path |] eqn:Hfile.
  - destruct (price_history w !! cache_key) as [h |] eqn:Hmem.
    + rewrite (got_cached_price_loaded cache_key ts w path h Hfile Hmem).
      simpl. auto 10.
    + rewrite (got_cached_price_unloaded cache_key ts w path Hfile Hmem).
      destruct (files w !! path) as [[doc |] |]; simpl; auto 10.
      destruct (_dict_history_to_data doc) as [h | e]; simpl; eauto 10.
  - rewrite (got_cached_price_unregistered cache_key ts w Hfile). simpl. auto 10.
Qed.

(** X8: the cache check never issues a request, never sleeps and never
    writes to the data directory or to the file registry; the only change
    it can make is to load the series of the pair it was asked about, and
    only when that pair had none in memory. *)
Theorem got_cached_price_only_loads (cache_key : PairCacheKey) (ts : Timestamp)
    (w : world) :
  let w' := snd (_got_cached_price cache_key ts w) in
  requests w' = requests w /\ sleeps w' = sleeps w /\
  price_history_file w' = price_history_file w /\ files w' = files w /\
  (price_history w' = price_history w \/
   price_history w !! cache_key = None /\
   exists h, price_history w' = <[cache_key := h]> (price_history w)).
Proof. apply got_cached_price_frame. Qed.

Lemma got_cached_price_true_inv (cache_key : PairCacheKey) (ts : Timestamp)
    (w w' : world) :
  _got_cached_price cache_key ts w = (Ok true, w') ->
  is_Some (price_history_file w' !! cache_key) /\
  exists h, price_history w' !! cache_key = Some h /\
            start_time h <= ts < end_time h.
Proof.
  intros H.
  assert (Hrange : forall h, (start_time h <=? ts) && (end_time h >? ts) = true ->
                             start_time h <= ts < end_time h).
  { intros h Hb. apply andb_prop in Hb. destruct Hb as [H1 H2].
    apply Z.leb_le in H1. apply Z.gtb_lt in H2. lia. }
  destruct (price_history_file w !! cache_key) as [path |] eqn:Hfile.
  - destruct (price_history w !! cache_key) as [h |] eqn:Hmem.
    + rewrite (got_cached_price_loaded cache_key ts w path h Hfile Hmem) in H.
      inversion H; subst w'. split; [rewrite Hfile; eauto |].
      exists h. split; [exact Hmem | apply Hrange; assumption].
    + rewrite (got_cached_price_unloaded cache_key ts w path Hfile Hmem) in H.
      destruct (files w !! path) as [[doc |] |]; try discriminate H.
      destruct (_dict_history_to_data doc) as [h | e]; [| discriminate H].
      inversion H; subst w'. cbn [price_history price_history_file].
      split; [rewrite Hfile; eauto |].
      exists h. split; [apply lookup_insert_eq | apply Hrange; assumption].
  - rewrite (got_cached_price_unregistered cache_key ts w Hfile) in H. discriminate H.
Qed.

(** X9: the cache check answers true only for a pair with a registered
    file whose series, now in memory, has start_time <= timestamp <
    end_time. *)
Theorem got_cached_price_true_in_range (cache_key : PairCacheKey) (ts : Timestamp)
    (w w' : world) :
  _got_cached_price cache_key ts w = (Ok true, w') ->
  is_Some (price_history_file w' !! cache_key) /\
  exists h, price_history w' !! cache_key = Some h /\
            start_time h <= ts < end_time h.
Proof. apply got_cached_price_true_inv. Qed.

Lemma got_cached_price_true_in_range_witness :
  _got_cached_price (cache_key_of "BTC" "USD") 50
    (world_with_series (mkData [mkEntry 0 1 3] 0 100))
    = (Ok true, world_with_series (mkData [mkEntry 0 1 3] 0 100)) /\
  exists h,
    price_history (world_with_series (mkData [mkEntry 0 1 3] 0 100))
      !! cache_key_of "BTC" "USD" = Some h /\
    start_time h <= 50 < end_time h.
Proof.
  assert (H : _got_cached_price (cache_key_of "BTC" "USD") 50
                (world_with_series (mkData [mkEntry 0 1 3] 0 100))
              = (Ok true, world_with_series (mkData [mkEntry 0 1 3] 0 100)))
    by (vm_compute; reflexivity).
  split; [exact H |].
  exact (proj2 (got_cached_price_true_in_range _ _ _ _ H)).
Defined.

(** X10: a registered cache file that is missing from the data directory or
    does not hold JSON is a miss, not an error, and leaves the world as it
    was; a pair without a registered file is a miss as well. *)
Theorem got_cached_price_unreadable_is_miss (cache_key : PairCacheKey)
    (ts : Timestamp) (w : world) :
  (price_history_file w !! cache_key = None ->
   _got_cached_price cache_key ts w = (Ok false, w)) /\
  (forall path,
     price_history_file w !! cache_key = Some path ->
     price_history w !! cache_key = None ->
     files w !! path = None \/ files w !! path = Some FileGarbage ->
     _got_cached_price cache_key ts w = (Ok false, w)).
Proof.
  split.
  - apply got_cached_price_unregistered.
  - intros path Hfile Hmem Hbad.
    rewrite (got_cached_price_unloaded cache_key ts w path Hfile Hmem).
    destruct Hbad as [-> | ->]; reflexivity.
Qed.

Lemma got_cached_price_unreadable_is_miss_witness :
  _got_cached_price (cache_key_of "BTC" "USD") 50 (world_with_file FileGarbage)
    = (Ok false, world_with_file FileGarbage) /\
  _got_cached_price (cache_key_of "BTC" "USD") 50 empty_world = (Ok false, empty_world).
Proof.
  split.
  - apply (proj2 (got_cached_price_unreadable_is_miss (cache_key_of "BTC" "USD") 50
                    (world_with_file FileGarbage))
             "data/price_history_BTC_USD.json"%string);
      [reflexivity | reflexivity | right; reflexivity].
  - apply (proj1 (got_cached_price_unreadable_is_miss (cache_key_of "BTC" "USD") 50
                    empty_world)). reflexivity.
Defined.

(** X11: a registered cache file that holds a JSON document without one of
    [data], [start_time], [end_time] is not treated as a miss: the
    [KeyError] escapes the cache check and nothing is loaded. *)
Theorem got_cached_price_incomplete_document (cache_key : PairCacheKey)
    (ts : Timestamp) (w : world) (path : string) (d : list (string * json))
    (key : string) :
  price_history_file w !! cache_key = Some path ->
  price_history w !! cache_key = None ->
  files w !! path = Some (FileJson (JDict d)) ->
  In key ["data"; "start_time"; "end_time"]%string ->
  dict_get d key = None ->
  exists e, _got_cached_price cache_key ts w = (Raise e, w) /\
            (key = "data"%string -> e = KeyError "data").
Proof.
  intros Hfile Hmem Hdoc Hkey Hnone.
  rewrite (got_cached_price_unloaded cache_key ts w path Hfile Hmem), Hdoc.
  destruct (_dict_history_to_data (JDict d)) as [h | e] eqn:Hconv.
  - exfalso. unfold _dict_history_to_data in Hconv. res_inv.
    simpl in *.
    destruct Hkey as [<- | [<- | [<- | []]]]; rewrite Hnone in *; discriminate.
  - exists e. split; [reflexivity |]. intros ->.
    unfold _dict_history_to_data in Hconv. simpl in Hconv. rewrite Hnone in Hconv.
    simpl in Hconv. congruence.
Qed.

Lemma got_cached_price_incomplete_document_witness :
  _got_cached_price (cache_key_of "BTC" "USD") 50
    (world_with_file (FileJson (JDict [("start_time"%string, JInt 0)])))
  = (Raise (KeyError "data"),
     world_with_file (FileJson (JDict [("start_time"%string, JInt 0)]))).
Proof.
  destruct (got_cached_price_incomplete_document (cache_key_of "BTC" "USD") 50
              (world_with_file (FileJson (JDict [("start_time"%string, JInt 0)])))
              "data/price_history_BTC_USD.json"%string
              [("start_time"%string, JInt 0)] "data"%string
              eq_refl eq_refl eq_refl (or_introl eq_refl) eq_refl)
    as [e [Hrun He]].
  rewrite Hrun. rewrite (He eq_refl). reflexivity.
Defined.

(** ** Frames: who touches the caches *)

Lemma keeps_ret {A : Type} (a : A) : keeps_stores (ret a).
Proof. intros w. apply same_stores_refl. Qed.

Lemma keeps_raise {A : Type} (e : error) : keeps_stores (@raise A e).
Proof. intros w. apply same_stores_refl. Qed.

Lemma keeps_lift {A : Type} (r : res A) : keeps_stores (lift r).
Proof. intros w. apply same_stores_refl. Qed.

Lemma keeps_bind {A B : Type} (m : M A) (k : A -> M B) :
  keeps_stores m -> (forall a, keeps_stores (k a)) -> keeps_stores (bind m k).
Proof.
  intros Hm Hk w. unfold bind. specialize (Hm w).
  destruct (m w) as [[a | e] w1]; simpl in Hm.
  - exact (same_stores_trans _ _ _ Hm (Hk a w1)).
  - exact Hm.
Qed.

Lemma keeps_api_query (E : Env) (path : query) : keeps_stores (_api_query E path).
Proof.
  intros w. destruct (api_query_loop_traffic E path 10 w) as [k [_ [_ [_ H]]]].
  exact H.
Qed.

Lemma keeps_call_handling (E : Env) (m : method) (from_asset to_asset : Asset) :
  keeps_stores (call_handling E m from_asset to_asset).
Proof.
  destruct m; cbn [call_handling];
    unfold histohour_remote, price_remote, pricehistorical_remote.
  - apply keeps_bind; [apply keeps_lift | intros syms; apply keeps_api_query].
  - apply keeps_bind; [apply keeps_lift | intros syms; apply keeps_api_query].
  - apply keeps_bind; [apply keeps_lift | intros syms].
    apply keeps_bind; [apply keeps_api_query | intros result; apply keeps_lift].
Qed.

Lemma keeps_special_case_handling (E : Env) (m : method)
    (from_asset to_asset : Asset) :
  keeps_stores (_special_case_handling E m from_asset to_asset).
Proof.
  unfold _special_case_handling.
  destruct (CRYPTOCOMPARE_SPECIAL_CASES_MAPPING !! from_asset) as [inter |];
    [| apply keeps_raise].
  apply keeps_bind; [apply keeps_call_handling | intros r1].
  apply keeps_bind; [apply keeps_call_handling | intros r2].
  destruct m; apply keeps_lift.
Qed.

Lemma keeps_method_of (E : Env) (m : method) (from_asset to_asset : Asset)
    (handling_special_case : bool) :
  keeps_stores (method_of E m from_asset to_asset handling_special_case).
Proof.
  destruct m as [limit to_ts | | day]; cbn [method_of];
    unfold query_endpoint_histohour, query_endpoint_price,
      query_endpoint_pricehistorical;
    destruct (special_asset from_asset to_asset && negb handling_special_case);
    try apply keeps_special_case_handling.
  - apply (keeps_call_handling E (histohour_method limit to_ts)).
  - apply (keeps_call_handling E price_method).
  - apply (keeps_call_handling E (pricehistorical_method day)).
Qed.

(** X12: none of the three endpoints, with or without special-case
    handling and whatever the server answers, changes the in-memory series,
    the file registry or the data directory. *)
Theorem endpoints_keep_stores (E : Env) (m : method) (from_asset to_asset : Asset)
    (handling_special_case : bool) (w : world) :
  same_stores w (snd (method_of E m from_asset to_asset handling_special_case w)).
Proof. apply keeps_method_of. Qed.

(** ** [get_historical_data] *)

Lemma keeps_backfill_loop (E : Env) (from_asset to_asset : Asset) (now_ts : Timestamp) :
  forall fuel end_date calculated_history,
    keeps_stores (backfill_loop E fuel from_asset to_asset now_ts end_date
                    calculated_history).
Proof.
  induction fuel as [| fuel IH]; intros end_date calculated_history.
  - apply keeps_raise.
  - cbn [backfill_loop].
    apply keeps_bind;
      [apply (keeps_method_of E (histohour_method 2000 _) from_asset to_asset false)
      | intros resp].
    apply keeps_bind; [apply keeps_lift | intros next].
    destruct (snd next >=? now_ts); [apply keeps_ret | apply IH].
Qed.

Lemma res_bind_raise_inv {A B : Type} (m : res A) (k : A -> res B) (e : error) :
  res_bind m k = Raise e -> m = Raise e \/ exists a, m = Ok a /\ k a = Raise e.
Proof.
  destruct m as [a | e']; simpl; intros H; [right; eauto | left; congruence].
Qed.

Ltac res_raise_inv H :=
  repeat (apply res_bind_raise_inv in H;
          destruct H as [H | [? [? H]]]).

Lemma getitem_error (obj : json) (key : string) (e : error) :
  getitem obj key = Raise e -> lookup_error e.
Proof.
  unfold getitem. destruct obj as [| | | | | | d]; try (intros H; inversion H; exact I).
  destruct (dict_get d key); intros H; inversion H; exact I.
Qed.

Lemma as_int_error (j : json) (e : error) : as_int j = Raise e -> lookup_error e.
Proof. destruct j; intros H; inversion H; exact I. Qed.

Lemma as_list_error (j : json) (e : error) : as_list j = Raise e -> lookup_error e.
Proof. destruct j; intros H; inversion H; exact I. Qed.

Lemma FVal_error (j : json) (e : error) : FVal j = Raise e -> lookup_error e.
Proof. destruct j; intros H; inversion H; exact I. Qed.

Lemma time_of_error (entry : json) (e : error) : time_of entry = Raise e -> lookup_error e.
Proof.
  unfold time_of. intros H. apply res_bind_raise_inv in H.
  destruct H as [H | [v [_ H]]]; eauto using getitem_error, as_int_error.
Qed.

Lemma field_decimal_error (entry : json) (key : string) (e : error) :
  (let? v := getitem entry key in FVal v) = Raise e -> lookup_error e.
Proof.
  intros H. apply res_bind_raise_inv in H.
  destruct H as [H | [v [_ H]]]; eauto using getitem_error, FVal_error.
Qed.

Lemma field_int_error (entry : json) (key : string) (e : error) :
  (let? v := getitem entry key in as_int v) = Raise e -> lookup_error e.
Proof.
  intros H. apply res_bind_raise_inv in H.
  destruct H as [H | [v [_ H]]]; eauto using getitem_error, as_int_error.
Qed.

Lemma dict_history_to_entries_error (l : list json) (e : error) :
  _dict_history_to_entries l = Raise e -> lookup_error e.
Proof.
  induction l as [| entry l IH]; [discriminate |].
  cbn [_dict_history_to_entries]. intros H.
  apply res_bind_raise_inv in H. destruct H as [H | [t [_ H]]];
    [exact (time_of_error _ _ H) |].
  apply res_bind_raise_inv in H. destruct H as [H | [lo [_ H]]];
    [exact (field_decimal_error _ _ _ H) |].
  apply res_bind_raise_inv in H. destruct H as [H | [hi [_ H]]];
    [exact (field_decimal_error _ _ _ H) |].
  apply res_bind_raise_inv in H. destruct H as [H | [rest [_ H]]];
    [exact (IH H) | discriminate H].
Qed.

Lemma dict_history_to_data_error (d : json) (e : error) :
  _dict_history_to_data d = Raise e -> lookup_error e.
Proof.
  unfold _dict_history_to_data. intros H.
  apply res_bind_raise_inv in H. destruct H as [H | [raw [_ H]]];
    [exact (getitem_error _ _ _ H) |].
  apply res_bind_raise_inv in H. destruct H as [H | [l [_ H]]];
    [exact (as_list_error _ _ H) |].
  apply res_bind_raise_inv in H. destruct H as [H | [entries [_ H]]];
    [exact (dict_history_to_entries_error _ _ H) |].
  apply res_bind_raise_inv in H. destruct H as [H | [st [_ H]]];
    [exact (field_int_error _ _ _ H) |].
  apply res_bind_raise_inv in H. destruct H as [H | [en [_ H]]];
    [exact (field_int_error _ _ _ H) | discriminate H].
Qed.

(** The course of [get_historical_data] after a cache miss. *)
Lemma get_historical_data_miss (E : Env) (fuel : nat) (from_asset to_asset : Asset)
    (ts historical_data_start : Timestamp) (w w0 : world) :
  let cache_key := cache_key_of from_asset to_asset in
  _got_cached_price cache_key ts w = (Ok false, w0) ->
  get_historical_data E fuel from_asset to_asset ts historical_data_start w =
    match backfill_loop E fuel from_asset to_asset (ts_now E)
            (first_cursor ts historical_data_start) [] w0 with
    | (Raise e, w1) => (Raise e, w1)
    | (Ok assembled, w1) =>
        match _check_hourly_data_sanity (fst assembled) from_asset to_asset with
        | Raise e => (Raise e, w1)
        | Ok _ =>
            let w2 := persisted w1 cache_key (cache_filename E cache_key)
                        (history_document (fst assembled) historical_data_start
                           (ts_now E)) in
            match _dict_history_to_data
                    (JDict [("data"%string, JList (fst assembled));
                            ("start_time"%string, JInt historical_data_start);
                            ("end_time"%string, JInt (snd assembled))]) with
            | Raise e => (Raise e, w2)
            | Ok h => (Ok (data h), stored w2 cache_key h)
            end
        end
    end.
Proof.
  intros cache_key Hmiss. unfold get_historical_data. fold cache_key.
  rewrite (bind_ok _ _ _ _ _ Hmiss). cbv iota. fold (first_cursor ts historical_data_start).
  unfold bind at 1.
  destruct (backfill_loop E fuel from_asset to_asset (ts_now E)
              (first_cursor ts historical_data_start) [] w0)
    as [[assembled | e] w1]; [| reflexivity].
  unfold bind at 1. unfold lift at 1.
  destruct (_check_hourly_data_sanity (fst assembled) from_asset to_asset)
    as [u | e]; [| reflexivity].
  unfold bind at 1. unfold write_history_data_in_file at 1.
  unfold bind at 1. unfold set_price_history_file at 1.
  cbn [requests sleeps price_history price_history_file files].
  unfold bind at 1. unfold lift at 1.
  destruct (_dict_history_to_data _) as [h | e]; [| reflexivity].
  unfold bind at 1. unfold set_price_history at 1.
  cbn [requests sleeps price_history price_history_file files].
  unfold cached_data, bind, get_world. cbn [price_history].
  rewrite lookup_insert_eq. reflexivity.
Qed.

Lemma cache_hit (E : Env) (fuel : nat) (from_asset to_asset : Asset)
    (ts historical_data_start : Timestamp) (w : world) (path : string)
    (h : PriceHistoryData) :
  price_history_file w !! cache_key_of from_asset to_asset = Some path ->
  price_history w !! cache_key_of from_asset to_asset = Some h ->
  start_time h <= ts < end_time h ->
  get_historical_data E fuel from_asset to_asset ts historical_data_start w
    = (Ok (data h), w).
Proof.
  intros Hfile Hmem [Hlo Hhi]. unfold get_historical_data.
  rewrite (bind_ok _ _ _ _ _ (got_cached_price_loaded _ ts w path h Hfile Hmem)).
  destruct (Z.leb_spec (start_time h) ts); [| lia].
  destruct (Z.gtb_spec (end_time h) ts); [| lia].
  cbn [andb]. unfold cached_data, bind, get_world. rewrite Hmem. reflexivity.
Qed.

(** X13: when the pair has a registered file and a series in memory whose
    window contains the timestamp, [get_historical_data] returns that
    series as it is: no request, no sleep, no file read or written, and
    this for any fuel. *)
Theorem cached_series_served_locally (E : Env) (fuel : nat)
    (from_asset to_asset : Asset) (ts historical_data_start : Timestamp)
    (w : world) (path : string) (h : PriceHistoryData) :
  price_history_file w !! cache_key_of from_asset to_asset = Some path ->
  price_history w !! cache_key_of from_asset to_asset = Some h ->
  start_time h <= ts < end_time h ->
  get_historical_data E fuel from_asset to_asset ts historical_data_start w
    = (Ok (data h), w).
Proof. apply cache_hit. Qed.

Lemma cached_series_served_locally_witness :
  get_historical_data (env_of (fun _ _ => ConnectionError) 100) 0 "BTC" "USD" 50 0
    (world_with_series (mkData [mkEntry 0 1 3] 0 100))
  = (Ok [mkEntry 0 1 3], world_with_series (mkData [mkEntry 0 1 3] 0 100)).
Proof.
  apply (cached_series_served_locally (env_of (fun _ _ => ConnectionError) 100) 0
           "BTC" "USD" 50 0 (world_with_series (mkData [mkEntry 0 1 3] 0 100))
           "data/price_history_BTC_USD.json"%string (mkData [mkEntry 0 1 3] 0 100)
           eq_refl eq_refl).
  simpl. lia.
Defined.

(** X14: after any successful [get_historical_data], the series it returned
    is in memory under the pair's key, and every later call for that pair
    with a timestamp inside the stored window returns the same entries
    without changing the world, whatever the server would answer. *)
Theorem fetched_series_is_reused (E : Env) (fuel : nat)
    (from_asset to_asset : Asset) (ts historical_data_start : Timestamp)
    (w w' : world) (entries : list PriceHistoryEntry) :
  get_historical_data E fuel from_asset to_asset ts historical_data_start w
    = (Ok entries, w') ->
  exists h,
    price_history w' !! cache_key_of from_asset to_asset = Some h /\
    data h = entries /\
    forall E2 fuel2 ts2 start2,
      start_time h <= ts2 < end_time h ->
      get_historical_data E2 fuel2 from_asset to_asset ts2 start2 w'
        = (Ok entries, w').
Proof.
  intros H.
  destruct (_got_cached_price (cache_key_of from_asset to_asset) ts w)
    as [[[|] | e] w0] eqn:Hc.
  - destruct (got_cached_price_true_inv _ _ _ _ Hc) as [[path Hfile] [h [Hmem Hin]]].
    unfold get_historical_data in H. rewrite (bind_ok _ _ _ _ _ Hc) in H.
    cbv iota in H. unfold cached_data, bind, get_world in H. rewrite Hmem in H.
    inversion H; subst entries w'. exists h. repeat split; try assumption.
    intros E2 fuel2 ts2 start2 Hin2.
    exact (cache_hit E2 fuel2 from_asset to_asset ts2 start2 w0 path h Hfile Hmem Hin2).
  - rewrite (get_historical_data_miss E fuel from_asset to_asset ts
               historical_data_start w w0 Hc) in H.
    destruct (backfill_loop _ _ _ _ _ _ _ _) as [[assembled | e] w1];
      [| discriminate H].
    destruct (_check_hourly_data_sanity _ _ _) as [u | e]; [| discriminate H].
    cbv zeta in H.
    destruct (_dict_history_to_data _) as [h | e]; [| discriminate H].
    inversion H; subst entries w'. exists h.
    split; [apply lookup_insert_eq |]. split; [reflexivity |].
    intros E2 fuel2 ts2 start2 Hin2.
    apply (cache_hit E2 fuel2 from_asset to_asset ts2 start2 _
             (cache_filename E (cache_key_of from_asset to_asset)) h);
      [apply lookup_insert_eq | apply lookup_insert_eq | exact Hin2].
  - unfold get_historical_data in H. rewrite (bind_raise _ _ _ _ _ Hc) in H.
    discriminate H.
Qed.

Lemma fetched_series_is_reused_witness :
  let run := get_historical_data single_entry_env 1 "BTC" "USD" 0 0 empty_world in
  fst run = Ok [mkEntry 0 1 3] /\
  get_historical_data (env_of (fun _ _ => ConnectionError) 100) 0 "BTC" "USD" 7000 0
    (snd run) = (Ok [mkEntry 0 1 3], snd run).
Proof.
  intros run.
  assert (Hrun : run = (Ok [mkEntry 0 1 3], snd run)) by (vm_compute; reflexivity).
  split; [now rewrite Hrun |].
  destruct (fetched_series_is_reused single_entry_env 1 "BTC" "USD" 0 0 empty_world
              (snd run) [mkEntry 0 1 3] Hrun) as [h [Hmem [_ Hreuse]]].
  apply Hreuse.
  assert (Hh : price_history (snd run) !! cache_key_of "BTC" "USD"
               = Some (mkData [mkEntry 0 1 3] 0 7200000)) by (vm_compute; reflexivity).
  rewrite Hh in Hmem. inversion Hmem; subst h. simpl. lia.
Defined.

(** X15: when [get_historical_data] fails with a [RemoteError] (a transport
    failure, a boundary mismatch in a page, an hourly gap), nothing of the
    attempt is kept: the data directory and the file registry are as
    before the call, and the series in memory are those the cache check
    left. *)
Theorem failed_fetch_stores_nothing (E : Env) (fuel : nat)
    (from_asset to_asset : Asset) (ts historical_data_start : Timestamp)
    (w : world) (why : remote_failure) :
  let run := get_historical_data E fuel from_asset to_asset ts historical_data_start w in
  fst run = Raise (RemoteError why) ->
  files (snd run) = files w /\
  price_history_file (snd run) = price_history_file w /\
  price_history (snd run)
    = price_history (snd (_got_cached_price (cache_key_of from_asset to_asset) ts w)).
Proof.
  intros run H.
  pose proof (got_cached_price_frame (cache_key_of from_asset to_asset) ts w) as Hframe.
  cbv zeta in Hframe. destruct Hframe as [_ [_ [Hreg [Hfiles _]]]].
  destruct (_got_cached_price (cache_key_of from_asset to_asset) ts w)
    as [[[|] | e] w0] eqn:Hc; cbn [snd] in *.
  - exfalso. unfold run, get_historical_data in H.
    rewrite (bind_ok _ _ _ _ _ Hc) in H. cbv iota in H.
    unfold cached_data, bind, get_world in H.
    destruct (price_history w0 !! cache_key_of from_asset to_asset);
      simpl in H; discriminate H.
  - unfold run in *.
    rewrite (get_historical_data_miss E fuel from_asset to_asset ts
               historical_data_start w w0 Hc) in *.
    pose proof (keeps_backfill_loop E from_asset to_asset (ts_now E) fuel
                  (first_cursor ts historical_data_start) [] w0) as Hkeep.
    destruct (backfill_loop _ _ _ _ _ _ _ _) as [[assembled | e] w1];
      cbn [snd] in Hkeep; destruct Hkeep as [Hp [Hr Hf]].
    + destruct (_check_hourly_data_sanity _ _ _) as [u | e].
      * exfalso. cbv zeta in H.
        destruct (_dict_history_to_data _) as [h | e] eqn:Hconv;
          [discriminate H |].
        simpl in H. inversion H; subst e.
        exact (dict_history_to_data_error _ _ Hconv).
      * cbn [snd]. repeat split; congruence.
    + cbn [snd]. repeat split; congruence.
  - unfold run, get_historical_data. rewrite (bind_raise _ _ _ _ _ Hc). cbn [snd].
    repeat split; congruence.
Qed.

Lemma failed_fetch_stores_nothing_witness :
  let run := get_historical_data
               (env_of (fun _ _ => Body (histohour_payload 0 7200000 even_gap_series)) 100)
               1 "BTC" "USD" 0 0 empty_world in
  fst run = Raise (RemoteError (HourlyGap 2 3 "BTC" "USD" 2799)) /\
  files (snd run) = files empty_world /\
  price_history_file (snd run) = price_history_file empty_world.
Proof.
  intros run.
  assert (Hrun : fst run = Raise (RemoteError (HourlyGap 2 3 "BTC" "USD" 2799)))
    by (vm_compute; reflexivity).
  split; [exact Hrun |].
  destruct (failed_fetch_stores_nothing _ 1 "BTC" "USD" 0 0 empty_world _ Hrun)
    as [Hf [Hr _]].
  split; assumption.
Defined.

(** X16: the entries returned by a fresh backfill are 3600 seconds apart at
    every pair of indices 2k and 2k+1. *)
Theorem fresh_series_even_pairs_hourly (E : Env) (fuel : nat)
    (from_asset to_asset : Asset) (ts historical_data_start : Timestamp)
    (w w' : world) (entries : list PriceHistoryEntry) :
  fst (_got_cached_price (cache_key_of from_asset to_asset) ts w) = Ok false ->
  get_historical_data E fuel from_asset to_asset ts historical_data_start w
    = (Ok entries, w') ->
  forall k e1 e2,
    entries !! (2 * k)%nat = Some e1 -> entries !! (2 * k + 1)%nat = Some e2 ->
    time e2 - time e1 = 3600.
Proof.
  intros Hmiss H.
  destruct (_got_cached_price (cache_key_of from_asset to_asset) ts w)
    as [cached w0] eqn:Hc. simpl in Hmiss. subst cached.
  rewrite (get_historical_data_miss E fuel from_asset to_asset ts
             historical_data_start w w0 Hc) in H.
  destruct (backfill_loop _ _ _ _ _ _ _ _) as [[[series end_date] | e] w1];
    [| discriminate H].
  cbn [fst snd] in H.
  destruct (_check_hourly_data_sanity series from_asset to_asset) as [[] | e] eqn:Hsane;
    [| discriminate H].
  cbv zeta in H.
  destruct (_dict_history_to_data _) as [h | e] eqn:Hconv; [| discriminate H].
  inversion H; subst entries w'; clear H.
  unfold _dict_history_to_data in Hconv. simpl in Hconv.
  destruct (_dict_history_to_entries series) as [converted |] eqn:Hent;
    [| discriminate Hconv].
  simpl in Hconv. inversion Hconv; subst h; clear Hconv. cbn [data].
  destruct (dict_history_to_entries_inv series converted Hent) as [Hlen Hall].
  assert (Htimes : forall entry, In entry series -> exists t, time_of entry = Ok t).
  { intros entry Hin. apply list_elem_of_In in Hin.
    apply list_elem_of_lookup in Hin. destruct Hin as [i Hi].
    destruct (Hall i entry Hi) as [e [_ [_ [_ [Ht _]]]]]. eauto. }
  pose proof (proj1 (sanity_check_passes_iff series from_asset to_asset Htimes) Hsane)
    as Heven.
  intros k e1 e2 H1 H2.
  destruct (lookup_lt_is_Some_2 series (2 * k)) as [n1 Hn1];
    [rewrite <- Hlen; exact (lookup_lt_Some _ _ _ H1) |].
  destruct (lookup_lt_is_Some_2 series (2 * k + 1)) as [n2 Hn2];
    [rewrite <- Hlen; exact (lookup_lt_Some _ _ _ H2) |].
  destruct (Hall _ _ Hn1) as [e1' [_ [_ [He1 [Ht1 _]]]]].
  destruct (Hall _ _ Hn2) as [e2' [_ [_ [He2 [Ht2 _]]]]].
  rewrite H1 in He1. rewrite H2 in He2.
  inversion He1; inversion He2; subst e1' e2'.
  exact (Heven k n1 n2 (time e1) (time e2) Hn1 Hn2 Ht1 Ht2).
Qed.

Lemma fresh_series_even_pairs_hourly_witness :
  let run := get_historical_data gapped_env 1 "BTC" "USD" 0 0 empty_world in
  fst run = Ok [mkEntry 0 1 2; mkEntry 3600 1 2; mkEntry 9999 1 2; mkEntry 13599 1 2] /\
  forall k e1 e2,
    [mkEntry 0 1 2; mkEntry 3600 1 2; mkEntry 9999 1 2; mkEntry 13599 1 2]
      !! (2 * k)%nat = Some e1 ->
    [mkEntry 0 1 2; mkEntry 3600 1 2; mkEntry 9999 1 2; mkEntry 13599 1 2]
      !! (2 * k + 1)%nat = Some e2 ->
    time e2 - time e1 = 3600.
Proof.
  intros run.
  assert (Hrun : run = (Ok [mkEntry 0 1 2; mkEntry 3600 1 2; mkEntry 9999 1 2;
                            mkEntry 13599 1 2], snd run))
    by (vm_compute; reflexivity).
  split; [now rewrite Hrun |].
  exact (fresh_series_even_pairs_hourly gapped_env 1 "BTC" "USD" 0 0 empty_world
           (snd run) _ eq_refl Hrun).
Defined.

(** ** Termination of the backfill *)

Lemma nf_ok {A : Type} (a : A) : no_fuel_error (Ok a).
Proof. discriminate. Qed.

Lemma nf_lookup {A : Type} (r : res A) :
  (forall e, r = Raise e -> lookup_error e) -> no_fuel_error r.
Proof. intros H Heq. exact (H _ Heq). Qed.

Lemma nf_bind {A B : Type} (m : res A) (k : A -> res B) :
  no_fuel_error m -> (forall a, no_fuel_error (k a)) -> no_fuel_error (res_bind m k).
Proof.
  intros Hm Hk. destruct m as [a | e]; simpl; [apply Hk |].
  intros H. apply Hm. congruence.
Qed.

Lemma nf_getitem (obj : json) (key : string) : no_fuel_error (getitem obj key).
Proof. apply nf_lookup. apply getitem_error. Qed.

Lemma nf_as_int (j : json) : no_fuel_error (as_int j).
Proof. apply nf_lookup. apply as_int_error. Qed.

Lemma nf_as_list (j : json) : no_fuel_error (as_list j).
Proof. apply nf_lookup. apply as_list_error. Qed.

Lemma nf_FVal (j : json) : no_fuel_error (FVal j).
Proof. apply nf_lookup. apply FVal_error. Qed.

Lemma nf_list_index {A : Type} (l : list A) (i : Z) : no_fuel_error (list_index l i).
Proof.
  unfold list_index. destruct (_ || _); [discriminate |].
  destruct (l !! _); discriminate.
Qed.

Lemma nf_setitem (obj : json) (key : string) (v : json) :
  no_fuel_error (setitem obj key v).
Proof. destruct obj; discriminate. Qed.

Lemma nf_get_default (obj : json) (key : string) (v : json) :
  no_fuel_error (get_default obj key v).
Proof. destruct obj; discriminate. Qed.

Ltac nf :=
  repeat first
    [ apply nf_ok
    | apply nf_getitem | apply nf_as_int | apply nf_as_list | apply nf_FVal
    | apply nf_list_index | apply nf_setitem | apply nf_get_default
    | apply nf_bind; [| intros ?]
    | match goal with
      | |- no_fuel_error (if ?c then _ else _) => destruct c
      | |- no_fuel_error (Raise _) => discriminate
      end ].

Lemma nf_backfill_step (now_ts pr_end_date end_date : Timestamp)
    (calculated_history : list json) (resp : json) :
  no_fuel_error (backfill_step now_ts pr_end_date end_date calculated_history resp).
Proof. unfold backfill_step, data_of, time_of. nf. Qed.

Lemma nf_combine_entries (result2 : list json) :
  forall result1 idx, no_fuel_error (combine_entries idx result1 result2).
Proof.
  induction result1 as [| entry rest IH]; intros idx; cbn [combine_entries].
  - apply nf_ok.
  - apply nf_bind; [apply nf_list_index | intros entry2].
    apply nf_bind; [unfold combine_entry, _multiply_str_nums; nf | intros combined].
    apply nf_bind; [apply IH | intros tail; apply nf_ok].
Qed.

Lemma nf_combine_histohour (result1 result2 : json) :
  no_fuel_error (combine_histohour result1 result2).
Proof.
  unfold combine_histohour.
  do 5 (apply nf_bind; [nf | intros ?]).
  apply nf_bind; [apply nf_combine_entries | intros combined; apply nf_ok].
Qed.

Lemma nf_payload_result (path : query) (json_ret : json) :
  no_fuel_error (payload_result path json_ret).
Proof.
  unfold payload_result. apply nf_bind.
  - unfold not_success. destruct json_ret as [| | | | | | d]; try discriminate.
    destruct (dict_get d "Response") as [v |]; [destruct v |]; discriminate.
  - intros failed. destruct failed; [discriminate |].
    destruct (contains json_ret "Data"); [apply nf_getitem | apply nf_ok].
Qed.

Lemma nf_rate_limited (json_ret : json) (e : error) :
  rate_limited json_ret = Raise e -> e <> OutOfFuel.
Proof.
  destruct json_ret as [| | | | | | d]; simpl; try (intros H; inversion H; discriminate).
  destruct (dict_get d "Message") as [v |]; [destruct v |]; discriminate.
Qed.

Lemma never_api_query_loop (E : Env) (path : query) :
  forall tries, never_out_of_fuel (api_query_loop E tries path).
Proof.
  induction tries as [| tries IH]; intros w; rewrite api_query_loop_step;
    destruct (server E (length (requests w)) path) as [| | json_ret];
    try discriminate;
    destruct (rate_limited json_ret) as [[|] | e] eqn:Hrl; cbn [fst];
    try apply nf_payload_result;
    try (intros H; inversion H; subst e; exact (nf_rate_limited _ _ Hrl eq_refl)).
  apply IH.
Qed.

Lemma never_bind {A B : Type} (m : M A) (k : A -> M B) :
  never_out_of_fuel m -> (forall a, never_out_of_fuel (k a)) ->
  never_out_of_fuel (bind m k).
Proof.
  intros Hm Hk w. unfold bind. specialize (Hm w).
  destruct (m w) as [[a | e] w1]; [apply Hk |].
  cbn [fst] in *. intros H. apply Hm. congruence.
Qed.

Lemma never_lift {A : Type} (r : res A) : no_fuel_error r -> never_out_of_fuel (lift r).
Proof. intros H w. exact H. Qed.

Lemma nf_cc_symbols (E : Env) (from_asset to_asset : Asset) :
  (forall a, to_cryptocompare E a <> Raise OutOfFuel) ->
  no_fuel_error (cc_symbols E from_asset to_asset).
Proof.
  intros Hsym. unfold cc_symbols.
  pose proof (Hsym from_asset) as Hf. pose proof (Hsym to_asset) as Ht.
  destruct (to_cryptocompare E from_asset) as [f | ef].
  - destruct (to_cryptocompare E to_asset) as [t | et]; [apply nf_ok |].
    destruct et; try discriminate. congruence.
  - destruct ef; try discriminate. congruence.
Qed.

Lemma never_histohour_remote (E : Env) (from_asset to_asset : Asset)
    (limit : Z) (to_ts : Timestamp) :
  (forall a, to_cryptocompare E a <> Raise OutOfFuel) ->
  never_out_of_fuel (histohour_remote E from_asset to_asset limit to_ts).
Proof.
  intros Hsym. unfold histohour_remote.
  apply never_bind; [apply never_lift, nf_cc_symbols, Hsym | intros syms].
  apply never_api_query_loop.
Qed.

Lemma never_query_endpoint_histohour (E : Env) (from_asset to_asset : Asset)
    (limit : Z) (to_ts : Timestamp) (handling_special_case : bool) :
  (forall a, to_cryptocompare E a <> Raise OutOfFuel) ->
  never_out_of_fuel
    (query_endpoint_histohour E from_asset to_asset limit to_ts handling_special_case).
Proof.
  intros Hsym. unfold query_endpoint_histohour.
  destruct (special_asset from_asset to_asset && negb handling_special_case);
    [| apply never_histohour_remote, Hsym].
  unfold _special_case_handling.
  destruct (CRYPTOCOMPARE_SPECIAL_CASES_MAPPING !! from_asset) as [inter |];
    [| intros w; discriminate].
  cbn [call_handling].
  apply never_bind; [apply never_histohour_remote, Hsym | intros r1].
  apply never_bind; [apply never_histohour_remote, Hsym | intros r2].
  apply never_lift, nf_combine_histohour.
Qed.

Lemma dict_get_set_other (d : list (string * json)) (key key' : string) (v : json) :
  key <> key' -> dict_get (dict_set d key v) key' = dict_get d key'.
Proof.
  intros Hne. induction d as [| [k x] d IH]; simpl.
  - rewrite bool_decide_eq_false_2 by exact Hne. reflexivity.
  - destruct (bool_decide (k = key)) eqn:Hk; simpl.
    + apply bool_decide_eq_true in Hk. subst k.
      rewrite bool_decide_eq_false_2 by exact Hne. reflexivity.
    + destruct (bool_decide (k = key')); [reflexivity | exact IH].
Qed.

Lemma getitem_setitem_other (obj obj' : json) (key key' : string) (v : json) :
  setitem obj key v = Ok obj' -> key <> key' ->
  getitem obj' key' = getitem obj key'.
Proof.
  destruct obj as [| | | | | | d]; try discriminate. simpl.
  intros H Hne. inversion H; subst obj'. simpl.
  now rewrite (dict_get_set_other d key key' v Hne).
Qed.

(** After one round the cursor is the end that was asked for, or the end the
    answer reported. *)
Lemma backfill_step_cursor (now_ts pr_end_date end_date : Timestamp)
    (calculated_history : list json) (resp : json) (next : list json * Timestamp) :
  backfill_step now_ts pr_end_date end_date calculated_history resp = Ok next ->
  snd next = end_date \/
  (end_date < now_ts /\
   (let? v := getitem resp "TimeTo" in as_int v) = Ok (snd next)).
Proof.
  unfold backfill_step. intros H.
  apply res_bind_inv in H. destruct H as [time_from [_ H]].
  apply res_bind_inv in H. destruct H as [resp1 [Hresp1 H]].
  assert (Hsame : getitem resp1 "TimeTo" = getitem resp "TimeTo").
  { destruct (negb (pr_end_date =? time_from)); [| now inversion Hresp1].
    destruct (pr_end_date - time_from >=? 3600); [| now inversion Hresp1].
    apply res_bind_inv in Hresp1. destruct Hresp1 as [d [_ Hresp1]].
    apply res_bind_inv in Hresp1. destruct Hresp1 as [slot [_ Hresp1]].
    apply res_bind_inv in Hresp1. destruct Hresp1 as [t [_ Hresp1]].
    destruct (negb (t =? pr_end_date)); [discriminate Hresp1 |].
    apply (getitem_setitem_other _ _ _ _ _ Hresp1). discriminate. }
  apply res_bind_inv in H. destruct H as [end' [Hend H]].
  apply res_bind_inv in H. destruct H as [resp2 [_ H]].
  apply res_bind_inv in H. destruct H as [d [_ H]].
  inversion H; subst next. cbn [snd].
  destruct (Z.ltb_spec end_date now_ts) as [Hlt | Hge]; [| left; now inversion Hend].
  apply res_bind_inv in Hend. destruct Hend as [time_to [Htt Hend]].
  rewrite Hsame in Htt.
  destruct (negb (time_to =? end_date)); [| left; now inversion Hend].
  destruct (time_to - end_date >=? 3600); [discriminate Hend |].
  inversion Hend; subst end'. right. split; assumption.
Qed.

Lemma backfill_loop_fuel_suffices (E : Env) (from_asset to_asset : Asset)
    (now_ts : Timestamp) :
  (forall a, to_cryptocompare E a <> Raise OutOfFuel) ->
  bounded_drift E from_asset to_asset ->
  forall fuel cursor calculated_history w,
    (0 < fuel)%nat ->
    now_ts - cursor <= Z.of_nat fuel * round_progress ->
    no_fuel_error
      (fst (backfill_loop E fuel from_asset to_asset now_ts cursor
              calculated_history w)).
Proof.
  intros Hsym Hdrift.
  induction fuel as [| fuel IH]; intros cursor calculated_history w Hpos Hroom; [lia |].
  cbn [backfill_loop]. unfold bind at 1.
  pose proof (never_query_endpoint_histohour E from_asset to_asset 2000
                (cursor + cryptocompare_hourquerylimit * 3600) false Hsym w) as Hq.
  destruct (query_endpoint_histohour E from_asset to_asset 2000
              (cursor + cryptocompare_hourquerylimit * 3600) false w)
    as [[resp | e] w1] eqn:Hresp;
    [| cbn [fst] in *; intros H; apply Hq; congruence].
  unfold bind at 1. unfold lift at 1.
  pose proof (nf_backfill_step now_ts cursor
                (cursor + cryptocompare_hourquerylimit * 3600)
                calculated_history resp) as Hs.
  destruct (backfill_step now_ts cursor
              (cursor + cryptocompare_hourquerylimit * 3600)
              calculated_history resp) as [next | e] eqn:Hstep;
    [| cbn [fst] in *; intros H; apply Hs; congruence].
  destruct (Z.geb_spec (snd next) now_ts) as [Hdone | Hmore]; [discriminate |].
  unfold round_progress, cryptocompare_hourquerylimit in *.
  assert (Hadv : cursor + 7200000 - 3600 < snd next).
  { destruct (backfill_step_cursor _ _ _ _ _ _ Hstep) as [-> | [_ Htt]]; [lia |].
    pose proof (Hdrift _ _ _ _ _ Hresp Htt). lia. }
  apply IH; lia.
Qed.

(** X17: the backfill loop ends.  When the asset translation does not
    diverge and every hourly answer reports an end less than an hour before
    the end asked for, each round moves the cursor by more than 7196400
    seconds, so a positive fuel of at least (now - cursor) / 7196400 rounds
    is never exhausted: the loop returns the assembled history or raises one
    of its own errors. *)
Theorem backfill_terminates (E : Env) (from_asset to_asset : Asset)
    (now_ts cursor : Timestamp) (fuel : nat) (calculated_history : list json)
    (w : world) :
  (forall a, to_cryptocompare E a <> Raise OutOfFuel) ->
  bounded_drift E from_asset to_asset ->
  (0 < fuel)%nat ->
  now_ts - cursor <= Z.of_nat fuel * round_progress ->
  fst (backfill_loop E fuel from_asset to_asset now_ts cursor calculated_history w)
    <> Raise OutOfFuel.
Proof.
  intros Hsym Hdrift Hpos Hroom.
  exact (backfill_loop_fuel_suffices E from_asset to_asset now_ts Hsym Hdrift
           fuel cursor calculated_history w Hpos Hroom).
Qed.

Lemma echo_env_histohour (now end_date : Timestamp) (w : world) :
  query_endpoint_histohour (echo_env now) "BTC" "USD" 2000 end_date false w =
    (Ok (JDict [("Aggregated"%string, JBool false);
                ("TimeFrom"%string, JInt (end_date - 7200000));
                ("TimeTo"%string, JInt end_date);
                ("Data"%string, JList [hour_entry 0 5 7; hour_entry 3600 5 7])]),
     requested w (Histohour "BTC" "USD" 2000 end_date)).
Proof.
  unfold query_endpoint_histohour.
  replace (special_asset "BTC" "USD") with false by (vm_compute; reflexivity).
  cbn [andb]. unfold histohour_remote, bind, lift. cbn [cc_symbols echo_env env_of
    to_cryptocompare fst snd].
  unfold _api_query. rewrite api_query_loop_step. reflexivity.
Qed.

Lemma echo_env_bounded_drift (now : Timestamp) :
  bounded_drift (echo_env now) "BTC" "USD".
Proof.
  intros end_date w resp w' time_to Hq Htt.
  rewrite echo_env_histohour in Hq. inversion Hq; subst resp w'.
  simpl in Htt. inversion Htt. lia.
Qed.

Lemma backfill_terminates_witness :
  bounded_drift (echo_env 20000000) "BTC" "USD" /\
  fst (backfill_loop (echo_env 20000000) 3 "BTC" "USD" 20000000 0 [] empty_world)
    <> Raise OutOfFuel.
Proof.
  split; [apply echo_env_bounded_drift |].
  apply (backfill_terminates (echo_env 20000000) "BTC" "USD" 20000000 0 3 []
           empty_world).
  - intros a. discriminate.
  - apply echo_env_bounded_drift.
  - lia.
  - vm_compute. discriminate.
Defined.

Lemma stuck_env_histohour (end_date : Timestamp) (w : world) :
  query_endpoint_histohour stuck_env "BTC" "USD" 2000 end_date false w =
    (Ok (JDict [("Aggregated"%string, JBool false);
                ("TimeFrom"%string, JInt (end_date - 7200000));
                ("TimeTo"%string, JInt (end_date - 7200000));
                ("Data"%string, JList [hour_entry 0 1 3])]),
     requested w (Histohour "BTC" "USD" 2000 end_date)).
Proof.
  unfold query_endpoint_histohour.
  replace (special_asset "BTC" "USD") with false by (vm_compute; reflexivity).
  cbn [andb]. unfold histohour_remote, bind, lift. cbn [cc_symbols stuck_env env_of
    to_cryptocompare fst snd].
  unfold _api_query. rewrite api_query_loop_step. reflexivity.
Qed.

Lemma stuck_env_round (calculated_history : list json) :
  calculated_history = [] \/ calculated_history = [hour_entry 0 1 3] ->
  backfill_step 10000000 0 7200000 calculated_history
    (JDict [("Aggregated"%string, JBool false);
            ("TimeFrom"%string, JInt (7200000 - 7200000));
            ("TimeTo"%string, JInt (7200000 - 7200000));
            ("Data"%string, JList [hour_entry 0 1 3])])
  = Ok ([hour_entry 0 1 3], 0).
Proof. intros [-> | ->]; vm_compute; reflexivity. Qed.

Lemma stuck_env_never_ends :
  forall fuel calculated_history w,
    calculated_history = [] \/ calculated_history = [hour_entry 0 1 3] ->
    fst (backfill_loop stuck_env fuel "BTC" "USD" 10000000 0 calculated_history w)
      = Raise OutOfFuel.
Proof.
  induction fuel as [| fuel IH]; intros calculated_history w Hcalc; [reflexivity |].
  cbn [backfill_loop]. unfold bind at 1.
  change (0 + cryptocompare_hourquerylimit * 3600) with 7200000.
  rewrite stuck_env_histohour. unfold bind at 1. unfold lift at 1.
  rewrite (stuck_env_round calculated_history Hcalc). cbn [fst snd].
  change (0 >=? 10000000) with false. cbv iota.
  apply IH. right. reflexivity.
Qed.

(** X18: the loop has no bound of its own on the number of rounds.  With a
    server that answers every window with an end equal to the window's
    start (a backward drift, which the end-date test accepts), the cursor
    never advances: [get_historical_data] is still paging after any number
    of rounds. *)
Theorem backfill_can_page_forever (fuel : nat) :
  fst (get_historical_data stuck_env fuel "BTC" "USD" 0 0 empty_world)
    = Raise OutOfFuel.
Proof.
  rewrite (get_historical_data_miss stuck_env fuel "BTC" "USD" 0 0
             empty_world empty_world eq_refl).
  pose proof (stuck_env_never_ends fuel [] empty_world (or_introl eq_refl)) as H.
  change (first_cursor 0 0) with 0. change (ts_now stuck_env) with 10000000.
  destruct (backfill_loop stuck_env fuel "BTC" "USD" 10000000 0 [] empty_world)
    as [[assembled | e] w1]; cbn [fst] in H; [discriminate H |].
  cbn [fst]. congruence.
Qed.

(** ** The lookup in the hourly series *)

Lemma list_index_Z_inv {A : Type} (l : list A) (i : Z) (x : A) :
  0 <= i -> list_index l i = Ok x -> l !! Z.to_nat i = Some x.
Proof.
  intros Hi H. rewrite <- (Z2Nat.id i Hi) in H. now apply list_index_lookup.
Qed.

(** X19: outside the series the lookup does three different things.  A
    timestamp before the first entry gives price zero; a timestamp whose
    candidate index equals the length of the series gives price zero as
    well; a timestamp whose candidate index is larger than the length
    raises [IndexError]. *)
Theorem lookup_outside_series (series : list PriceHistoryEntry) (ts : Timestamp)
    (first : PriceHistoryEntry) :
  series !! 0%nat = Some first ->
  (ts < time first -> hourly_price series ts = Ok 0%Q) /\
  (time first <= ts ->
   candidate_index ts (time first) = Z.of_nat (length series) ->
   hourly_price series ts = Ok 0%Q) /\
  (time first <= ts ->
   Z.of_nat (length series) < candidate_index ts (time first) ->
   hourly_price series ts = Raise IndexError).
Proof.
  intros H0. split; [| split].
  - intros Hts. unfold hourly_price, nearest_index.
    rewrite (list_index_first series first H0). simpl res_bind.
    destruct (Z.geb_spec ts (time first)); [lia | reflexivity].
  - intros Hts Hidx. unfold hourly_price.
    rewrite (nearest_index_at_length series ts first H0 Hts Hidx). reflexivity.
  - intros Hts Hidx. unfold hourly_price.
    rewrite (nearest_index_overshoot series ts first H0 Hts Hidx). reflexivity.
Qed.

Lemma lookup_outside_series_witness :
  hourly_price [mkEntry 3600 1 3; mkEntry 7200 1 3] 3599 = Ok 0%Q /\
  hourly_price [mkEntry 3600 1 3; mkEntry 7200 1 3] 10800 = Ok 0%Q /\
  hourly_price [mkEntry 3600 1 3; mkEntry 7200 1 3] 14400 = Raise IndexError.
Proof.
  destruct (lookup_outside_series [mkEntry 3600 1 3; mkEntry 7200 1 3] 3599
              (mkEntry 3600 1 3) eq_refl) as [Hbefore _].
  destruct (lookup_outside_series [mkEntry 3600 1 3; mkEntry 7200 1 3] 10800
              (mkEntry 3600 1 3) eq_refl) as [_ [Hat _]].
  destruct (lookup_outside_series [mkEntry 3600 1 3; mkEntry 7200 1 3] 14400
              (mkEntry 3600 1 3) eq_refl) as [_ [_ Hbeyond]].
  split; [| split].
  - apply Hbefore. simpl. lia.
  - apply Hat; [simpl; lia | reflexivity].
  - apply Hbeyond; [simpl; lia | vm_compute; reflexivity].
Defined.

(** X20: whenever the lookup selects an index, the index is inside the
    series, it is the candidate index or its successor, its entry is at
    least as close to the timestamp as the candidate's, and the price is
    the midpoint of that entry's high and low. *)
Theorem selected_index_in_series (series : list PriceHistoryEntry) (ts : Timestamp)
    (index : Z) :
  nearest_index series ts = Ok (Some index) ->
  exists first candidate entry,
    series !! 0%nat = Some first /\ time first <= ts /\
    0 <= index < Z.of_nat (length series) /\
    (index = candidate_index ts (time first) \/
     index = candidate_index ts (time first) + 1) /\
    series !! Z.to_nat (candidate_index ts (time first)) = Some candidate /\
    series !! Z.to_nat index = Some entry /\
    Z.abs (time entry - ts) <= Z.abs (time candidate - ts) /\
    hourly_price series ts = Ok ((high entry + low entry) / 2)%Q.
Proof.
  intros H. pose proof H as Hsel. unfold nearest_index in H.
  apply res_bind_inv in H. destruct H as [first [Hfirst H]].
  apply (list_index_lookup series 0) in Hfirst.
  destruct (Z.geb_spec ts (time first)) as [Hts | Hts]; [| discriminate H].
  pose proof (candidate_index_nonneg ts (time first) Hts) as Hnn.
  set (c := candidate_index ts (time first)) in *.
  destruct (Z.gtb_spec c (Z.of_nat (length series) - 1)) as [Hout | Hin].
  - destruct (Z.gtb_spec c (Z.of_nat (length series))) as [Hfar | Hnear];
      [| discriminate H].
    rewrite list_index_beyond in H by lia. discriminate H.
  - apply res_bind_inv in H. destruct H as [candidate [Hcand H]].
    pose proof (list_index_Z_inv series c candidate Hnn Hcand) as Hc.
    assert (Hprice : forall i e, 0 <= i -> series !! Z.to_nat i = Some e ->
              nearest_index series ts = Ok (Some i) ->
              hourly_price series ts = Ok ((high e + low e) / 2)%Q).
    { intros i e Hi He Hn. unfold hourly_price. rewrite Hn. simpl res_bind.
      rewrite (list_index_Z series i e Hi He). reflexivity. }
    destruct (Z.leb_spec (c + 1) (Z.of_nat (length series) - 1)) as [Hsucc | Hlast].
    + apply res_bind_inv in H. destruct H as [entry_p1 [Hp1 H]].
      pose proof (list_index_Z_inv series (c + 1) entry_p1 ltac:(lia) Hp1) as Hc1.
      destruct (Z.ltb_spec (Z.abs (time entry_p1 - ts)) (Z.abs (time candidate - ts)))
        as [Hcloser | Hnot]; inversion H; subst index.
      * exists first, candidate, entry_p1.
        split; [assumption |]. split; [assumption |]. split; [lia |].
        split; [right; reflexivity |]. split; [assumption |].
        split; [assumption |]. split; [lia |].
        apply (Hprice (c + 1) entry_p1); [lia | assumption | assumption].
      * exists first, candidate, candidate.
        split; [assumption |]. split; [assumption |]. split; [lia |].
        split; [left; reflexivity |]. split; [assumption |].
        split; [assumption |]. split; [lia |].
        apply (Hprice c candidate); assumption.
    + inversion H; subst index.
      exists first, candidate, candidate.
      split; [assumption |]. split; [assumption |]. split; [lia |].
      split; [left; reflexivity |]. split; [assumption |].
      split; [assumption |]. split; [lia |].
      apply (Hprice c candidate); assumption.
Qed.

Lemma selected_index_in_series_witness :
  nearest_index [mkEntry 0 1 3; mkEntry 3600 2 4] 3000 = Ok (Some 1) /\
  hourly_price [mkEntry 0 1 3; mkEntry 3600 2 4] 3000 = Ok ((4 + 2) / 2)%Q.
Proof.
  assert (H : nearest_index [mkEntry 0 1 3; mkEntry 3600 2 4] 3000 = Ok (Some 1))
    by reflexivity.
  split; [exact H |].
  destruct (selected_index_in_series _ _ _ H)
    as [first [candidate [entry [_ [_ [_ [_ [_ [He [_ Hprice]]]]]]]]]].
  simpl in He. inversion He; subst entry. exact Hprice.
Defined.

(** ** The override table and the final price *)

(** X21: the override lookup never fails, for any pair and timestamp: it
    yields zero, the COMP price 202.93, or its inverse. *)
Theorem override_lookup_total (from_asset to_asset : Asset) (ts : Timestamp) :
  _check_and_get_special_histohour_price from_asset to_asset ts = Ok 0%Q \/
  _check_and_get_special_histohour_price from_asset to_asset ts = Ok (20293 # 100) \/
  _check_and_get_special_histohour_price from_asset to_asset ts
    = Ok (1 / (20293 # 100))%Q.
Proof.
  unfold _check_and_get_special_histohour_price.
  destruct (in_histohour_cases from_asset && asset_eqb to_asset A_USD) eqn:Ha.
  - apply andb_prop in Ha. destruct Ha as [Hin Hto].
    apply in_histohour_cases_true in Hin. destruct Hin as [asset_data Hin].
    destruct (histohour_cases_only_comp _ _ Hin) as [-> ->].
    rewrite Hto. cbn [orb].
    replace (histohour_case A_COMP) with (Ok (mkHistoHour 1592632800 (20293 # 100)))
      by (vm_compute; reflexivity).
    cbn [res_bind timestamp usd_price].
    destruct (ts <=? 1592632800); auto.
  - cbn [orb].
    destruct (asset_eqb from_asset A_USD && in_histohour_cases to_asset) eqn:Hb;
      [| auto].
    apply andb_prop in Hb. destruct Hb as [Hfrom Hin].
    apply in_histohour_cases_true in Hin. destruct Hin as [asset_data Hin].
    destruct (histohour_cases_only_comp _ _ Hin) as [-> ->].
    replace (asset_eqb A_COMP A_USD) with false by (vm_compute; reflexivity).
    replace (histohour_case A_COMP) with (Ok (mkHistoHour 1592632800 (20293 # 100)))
      by (vm_compute; reflexivity).
    cbn [res_bind timestamp usd_price].
    destruct (ts <=? 1592632800); auto.
Qed.

Lemma price_or_no_price_nonzero (from_asset to_asset : Asset) (ts : Timestamp)
    (price p : Price) (w w' : world) :
  price_or_no_price from_asset to_asset ts price w = (Ok p, w') ->
  ~ (p == 0)%Q.
Proof.
  unfold price_or_no_price. destruct (Qeq_bool price 0) eqn:Hz; [discriminate |].
  intros H. inversion H; subst p. intros Heq.
  apply Qeq_bool_iff in Heq. congruence.
Qed.

(** X22: a price returned by [query_historical_price] is never zero,
    whatever the server, the historian and the caches hold. *)
Theorem returned_price_is_not_zero (E : Env) (fuel : nat)
    (from_asset to_asset : Asset) (ts historical_data_start : Timestamp)
    (w w' : world) (p : Price) :
  query_historical_price E fuel from_asset to_asset ts historical_data_start w
    = (Ok p, w') ->
  ~ (p == 0)%Q.
Proof.
  unfold query_historical_price. intros H.
  apply bind_inv in H. destruct H as [price [w0 [_ H]]].
  destruct (Qeq_bool price 0) eqn:Hz; cbn [negb] in H.
  - unfold resolve_from_series in H.
    apply bind_inv in H. destruct H as [p1 [w1 [_ H]]].
    apply bind_inv in H. destruct H as [p2 [w2 [_ H]]].
    exact (price_or_no_price_nonzero _ _ _ _ _ _ _ H).
  - inversion H; subst p. intros Heq. apply Qeq_bool_iff in Heq. congruence.
Qed.

Lemma returned_price_is_not_zero_witness :
  query_historical_price single_entry_env 1 "BTC" "USD" 0 0 empty_world
    = (Ok ((3 + 1) / 2)%Q,
       snd (query_historical_price single_entry_env 1 "BTC" "USD" 0 0 empty_world)) /\
  ~ ((3 + 1) / 2 == 0)%Q.
Proof.
  assert (H : query_historical_price single_entry_env 1 "BTC" "USD" 0 0 empty_world
              = (Ok ((3 + 1) / 2)%Q,
                 snd (query_historical_price single_entry_env 1 "BTC" "USD" 0 0
                        empty_world)))
    by (vm_compute; reflexivity).
  split; [exact H |].
  exact (returned_price_is_not_zero _ _ _ _ _ _ _ _ _ H).
Defined.

(** ** Failures of the adjuster, the endpoints and the synthesizer *)

(** X23: the adjuster passes on the failure of either USD leg as it is (the
    second leg is not asked when the first fails), and a second leg worth
    zero USD makes it raise a division error instead of returning a
    price. *)
Theorem adjuster_leg_failures (E : Env) (price : Price)
    (from_asset to_asset : Asset) (ts : Timestamp) (w : world) :
  (forall e w1,
     historian E from_asset A_USD ts w = (Raise e, w1) ->
     _adjust_to_cryptocompare_price_incosistencies E price from_asset to_asset ts w
       = (Raise e, w1)) /\
  (forall from_usd w1 e w2,
     historian E from_asset A_USD ts w = (Ok from_usd, w1) ->
     historian E to_asset A_USD ts w1 = (Raise e, w2) ->
     _adjust_to_cryptocompare_price_incosistencies E price from_asset to_asset ts w
       = (Raise e, w2)) /\
  (forall from_usd w1 to_usd w2,
     historian E from_asset A_USD ts w = (Ok from_usd, w1) ->
     historian E to_asset A_USD ts w1 = (Ok to_usd, w2) ->
     (to_usd == 0)%Q ->
     _adjust_to_cryptocompare_price_incosistencies E price from_asset to_asset ts w
       = (Raise DivisionByZero, w2)).
Proof.
  unfold _adjust_to_cryptocompare_price_incosistencies. split; [| split].
  - intros e w1 H1. now rewrite (bind_raise _ _ _ _ _ H1).
  - intros from_usd w1 e w2 H1 H2.
    rewrite (bind_ok _ _ _ _ _ H1). now rewrite (bind_raise _ _ _ _ _ H2).
  - intros from_usd w1 to_usd w2 H1 H2 Hz.
    rewrite (bind_ok _ _ _ _ _ H1). rewrite (bind_ok _ _ _ _ _ H2).
    unfold bind, lift, decimal_div. apply Qeq_bool_iff in Hz. now rewrite Hz.
Qed.

Lemma adjuster_leg_failures_witness :
  _adjust_to_cryptocompare_price_incosistencies worthless_env 100%Q "EUR" "GBP" 0
    empty_world = (Raise DivisionByZero, empty_world) /\
  _adjust_to_cryptocompare_price_incosistencies single_entry_env 100%Q "EUR" "GBP" 0
    empty_world = (Raise (NoPriceForGivenTimestamp "EUR" "USD" 0), empty_world).
Proof.
  split.
  - apply (proj2 (proj2 (adjuster_leg_failures worthless_env 100%Q "EUR" "GBP" 0
                           empty_world))
             0%Q empty_world 0%Q empty_world eq_refl eq_refl).
    reflexivity.
  - apply (proj1 (adjuster_leg_failures single_entry_env 100%Q "EUR" "GBP" 0
                    empty_world)).
    reflexivity.
Defined.

(** X24: for a pair that does not go through the synthesizer, an asset
    without a cryptocompare symbol makes each endpoint raise
    [PriceQueryUnsupportedAsset] with the asset's name before any request
    is made. *)
Theorem unsupported_asset_makes_no_request (E : Env) (m : method)
    (from_asset to_asset : Asset) (handling_special_case : bool) (w : world)
    (name : string) :
  special_asset from_asset to_asset && negb handling_special_case = false ->
  to_cryptocompare E from_asset = Raise (UnsupportedAsset name) \/
  (is_ok (to_cryptocompare E from_asset) = true /\
   to_cryptocompare E to_asset = Raise (UnsupportedAsset name)) ->
  method_of E m from_asset to_asset handling_special_case w
    = (Raise (PriceQueryUnsupportedAsset name), w).
Proof.
  intros Hplain Hbad.
  assert (Hsym : cc_symbols E from_asset to_asset
                 = Raise (PriceQueryUnsupportedAsset name)).
  { unfold cc_symbols. destruct Hbad as [-> | [Hok ->]]; [reflexivity |].
    destruct (to_cryptocompare E from_asset); [reflexivity | discriminate Hok]. }
  destruct m as [limit to_ts | | day]; cbn [method_of];
    unfold query_endpoint_histohour, query_endpoint_price,
      query_endpoint_pricehistorical;
    rewrite Hplain;
    unfold histohour_remote, price_remote, pricehistorical_remote, bind, lift;
    rewrite Hsym; reflexivity.
Qed.

Lemma unsupported_asset_makes_no_request_witness :
  query_endpoint_price unsupported_env "BTC" "USD" false empty_world
    = (Raise (PriceQueryUnsupportedAsset "BTC"), empty_world).
Proof.
  apply (unsupported_asset_makes_no_request unsupported_env price_method
           "BTC" "USD" false empty_world "BTC").
  - vm_compute. reflexivity.
  - left. reflexivity.
Defined.

(** X25: the hourly synthesis reads the second leg at every index of the
    first: when both legs are answered and the second series is shorter
    than the first, the synthesis fails. *)
Theorem synthesis_needs_second_leg_as_long (E : Env)
    (from_asset intermediate_asset to_asset : Asset) (limit : Z) (to_ts : Timestamp)
    (w w1 w2 : world) (r1 r2 : json) (d1 d2 : list json) :
  CRYPTOCOMPARE_SPECIAL_CASES_MAPPING !! from_asset = Some intermediate_asset ->
  histohour_remote E from_asset intermediate_asset limit to_ts w = (Ok r1, w1) ->
  histohour_remote E intermediate_asset to_asset limit to_ts w1 = (Ok r2, w2) ->
  data_of r1 = Ok d1 -> data_of r2 = Ok d2 ->
  (length d2 < length d1)%nat ->
  is_ok (fst (_special_case_handling E (histohour_method limit to_ts)
                from_asset to_asset w)) = false.
Proof.
  intros Hmap Hleg1 Hleg2 Hd1 Hd2 Hshort.
  rewrite (special_case_handling_legs E (histohour_method limit to_ts)
             _ _ _ _ _ _ _ _ Hmap Hleg1 Hleg2). cbn [fst].
  destruct (combine_histohour r1 r2) as [result |] eqn:Hc; [| reflexivity].
  exfalso. unfold combine_histohour in Hc. unfold data_of in Hd1, Hd2.
  apply res_bind_inv in Hc. destruct Hc as [agg [_ Hc]].
  apply res_bind_inv in Hc. destruct Hc as [tf [_ Hc]].
  apply res_bind_inv in Hc. destruct Hc as [tt [_ Hc]].
  rewrite Hd1, Hd2 in Hc. cbn [res_bind] in Hc.
  apply res_bind_inv in Hc. destruct Hc as [out [Hout _]].
  destruct (combine_entries_spec d1 d2 0 out Hout) as [_ Hall].
  destruct (lookup_lt_is_Some_2 d1 (length d2) Hshort) as [entry Hentry].
  destruct (Hall (length d2) entry Hentry) as [entry2 [o [Hsnd _]]].
  simpl in Hsnd. apply lookup_lt_Some in Hsnd. lia.
Qed.

Lemma synthesis_needs_second_leg_as_long_witness :
  fst (_special_case_handling short_second_leg_env (histohour_method 2000 7200000)
         "cDAI" "USD" empty_world) = Raise IndexError /\
  is_ok (fst (_special_case_handling short_second_leg_env
                (histohour_method 2000 7200000) "cDAI" "USD" empty_world)) = false.
Proof.
  split; [vm_compute; reflexivity |].
  eapply (synthesis_needs_second_leg_as_long short_second_leg_env "cDAI" A_DAI "USD"
            2000 7200000 empty_world);
    [vm_compute; reflexivity | reflexivity | reflexivity | reflexivity
    | reflexivity | simpl; lia].
Defined.

(** ** [all_coins] *)

Lemma coins_get_set (d : list (string * coin)) (key key' : string) (v : coin) :
  coins_get (coins_set d key v) key' =
    if bool_decide (key = key') then Some v else coins_get d key'.
Proof.
  induction d as [| [k x] d IH]; simpl.
  - reflexivity.
  - destruct (bool_decide (k = key)) eqn:Hk; simpl.
    + apply bool_decide_eq_true in Hk. subst k.
      destruct (bool_decide (key = key')); reflexivity.
    + destruct (bool_decide (k = key')) eqn:Hk'.
      * apply bool_decide_eq_true in Hk'. subst k.
        apply bool_decide_eq_false in Hk.
        rewrite bool_decide_eq_false_2 by congruence. reflexivity.
      * exact IH.
Qed.

Lemma coins_get_app (l1 l2 : list (string * coin)) (key : string) :
  coins_get (l1 ++ l2) key =
    match coins_get l1 key with Some v => Some v | None => coins_get l2 key end.
Proof.
  induction l1 as [| [k x] l1 IH]; simpl; [reflexivity |].
  destruct (bool_decide (k = key)); [reflexivity | exact IH].
Qed.

(** After a run of assignments the last assignment to a key wins, and a key
    that was not assigned keeps its value. *)
Lemma coins_get_assigned (assignments : list (string * coin)) :
  forall (init : list (string * coin)) (key : string),
    coins_get (fold_left (fun acc kv => coins_set acc (fst kv) (snd kv))
                 assignments init) key =
      match coins_get (rev assignments) key with
      | Some v => Some v
      | None => coins_get init key
      end.
Proof.
  induction assignments as [| [k v] l IH]; intros init key; simpl; [reflexivity |].
  rewrite IH, coins_get_app, coins_get_set. simpl.
  destruct (coins_get (rev l) key); [reflexivity |].
  destruct (bool_decide (k = key)); reflexivity.
Qed.

Lemma coins_get_listed (d : list (string * json)) (key : string) :
  coins_get (map (fun kv => (fst kv, Listed (snd kv))) d) key
    = Listed <$> dict_get d key.
Proof.
  induction d as [| [k x] d IH]; simpl; [reflexivity |].
  destruct (bool_decide (k = key)); [reflexivity | exact IH].
Qed.

Lemma coins_get_absent (l : list (string * coin)) (key : string) :
  ~ In key (map fst l) -> coins_get l key = None.
Proof.
  induction l as [| [k x] l IH]; simpl; [reflexivity |].
  intros Hnot. rewrite bool_decide_eq_false_2 by tauto. apply IH. tauto.
Qed.

Lemma manual_symbols_assigned (key : string) (v : coin) :
  In (key, v) manual_symbols -> coins_get (rev manual_symbols) key = Some v.
Proof.
  unfold manual_symbols. intros Hin. simpl in Hin.
  repeat (destruct Hin as [Heq | Hin];
          [inversion Heq; subst; vm_compute; reflexivity |]).
  destruct Hin.
Qed.

Lemma Ok_inj {A : Type} (a b : A) : Ok a = Ok b -> a = b.
Proof. intros H. now inversion H. Qed.

Lemma add_manual_symbols_inv (data : json) (coins : list (string * coin)) :
  add_manual_symbols data = Ok coins ->
  exists d, data = JDict d /\
    (forall key v, In (key, v) manual_symbols -> coins_get coins key = Some v) /\
    (forall key, ~ In key (map fst manual_symbols) ->
       coins_get coins key = Listed <$> dict_get d key).
Proof.
  destruct data as [| | | | | | d]; try discriminate.
  unfold add_manual_symbols. intros H.
  apply Ok_inj in H. subst coins. exists d. split; [reflexivity |]. split.
  - intros key v Hin. rewrite coins_get_assigned.
    now rewrite (manual_symbols_assigned key v Hin).
  - intros key Hnot. rewrite coins_get_assigned.
    rewrite coins_get_absent; [apply coins_get_listed |].
    rewrite map_rev. rewrite <- in_rev. exact Hnot.
Qed.

Lemma read_coinlist_cache_some (E : Env) (fs : gmap string file) (doc : json) :
  read_coinlist_cache E fs = Ok (Some doc) ->
  fs !! coinlist_cache_path E = Some (FileJson doc).
Proof.
  unfold read_coinlist_cache.
  destruct (fs !! coinlist_cache_path E) as [[data |] |]; try discriminate.
  intros H. apply res_bind_inv in H. destruct H as [t [_ H]].
  destruct ((t <? ts_now E) && (ts_now E - t >? coinlist_max_age)).
  - apply res_bind_inv in H. destruct H as [v [_ H]]. discriminate H.
  - apply Ok_inj in H. congruence.
Qed.

(** X26: in every dictionary [all_coins] returns, each of the 28 symbols
    the method adds by hand is present with its placeholder (also when the
    coin list had an entry for it), and every other symbol has exactly the
    entry of the coin list the call used: the [data] of the cache file, or
    the answer of the server. *)
Theorem all_coins_manual_symbols (E : Env) (w w' : world)
    (coins : list (string * coin)) :
  all_coins E w = (Ok coins, w') ->
  exists d,
    ((exists doc, files w !! coinlist_cache_path E = Some (FileJson doc) /\
                  getitem doc "data" = Ok (JDict d)) \/
     (exists w1, _api_query E CoinList w = (Ok (JDict d), w1))) /\
    (forall key v, In (key, v) manual_symbols -> coins_get coins key = Some v) /\
    (forall key, ~ In key (map fst manual_symbols) ->
       coins_get coins key = Listed <$> dict_get d key).
Proof.
  unfold all_coins. intros H.
  unfold bind at 1, get_world in H.
  apply bind_inv in H. destruct H as [cached [w2 [Hread H]]].
  apply lift_inv in Hread. destruct Hread as [Hread ->].
  apply bind_inv in H. destruct H as [data [w3 [Hdata H]]].
  apply lift_inv in H. destruct H as [H _].
  destruct (add_manual_symbols_inv data coins H) as [d [-> Hd]].
  exists d. split; [| exact Hd].
  destruct cached as [doc |].
  - left. exists doc. apply lift_inv in Hdata. destruct Hdata as [Hdata _].
    split; [exact (read_coinlist_cache_some E (files w) doc Hread) | exact Hdata].
  - right. apply bind_inv in Hdata. destruct Hdata as [answer [w1 [Hquery Hdata]]].
    unfold bind, write_coinlist, ret in Hdata. exists w1.
    assert (answer = JDict d) by congruence. subst answer. exact Hquery.
Qed.

Lemma all_coins_manual_symbols_witness :
  exists coins,
    all_coins (coinlist_env 1000) empty_world
      = (Ok coins, snd (all_coins (coinlist_env 1000) empty_world)) /\
    coins_get coins "BTC" = Some (Listed (JInt 1)) /\
    coins_get coins "USDT" = Some Placeholder /\
    coins_get coins "LUNA" = Some PlaceholderClass.
Proof.
  assert (Hrun : exists coins,
            all_coins (coinlist_env 1000) empty_world
              = (Ok coins, snd (all_coins (coinlist_env 1000) empty_world)) /\
            coins_get coins "BTC" = Some (Listed (JInt 1)))
    by (vm_compute; eexists; split; reflexivity).
  destruct Hrun as [coins [Hrun Hbtc]]. exists coins.
  destruct (all_coins_manual_symbols _ _ _ _ Hrun) as [d [_ [Hmanual _]]].
  split; [exact Hrun |]. split; [exact Hbtc |]. split; apply Hmanual.
  - right. left. reflexivity.
  - do 14 right. left. reflexivity.
Defined.

Lemma read_coinlist_cache_document (E : Env) (fs : gmap string file)
    (doc : json) (t : Timestamp) :
  fs !! coinlist_cache_path E = Some (FileJson doc) ->
  (let? v := getitem doc "time" in as_int v) = Ok t ->
  read_coinlist_cache E fs =
    if (t <? ts_now E) && (ts_now E - t >? coinlist_max_age)
    then (let? _ := getitem doc "data" in Ok None)
    else Ok (Some doc).
Proof.
  intros Hfile Ht. unfold read_coinlist_cache. rewrite Hfile, Ht. reflexivity.
Qed.

(** X27: with a coin list cache file that carries a [time], [all_coins]
    answers from the file alone (no request, nothing written) unless the
    file is more than 2629800 seconds older than now; in that case it asks
    the server, and if the old file has no [data] the [KeyError] is raised
    before the server is asked. *)
Theorem coinlist_cache_expiry (E : Env) (w : world) (doc : json) (t : Timestamp) :
  files w !! coinlist_cache_path E = Some (FileJson doc) ->
  (let? v := getitem doc "time" in as_int v) = Ok t ->
  (ts_now E - t <= coinlist_max_age \/ ts_now E <= t ->
   all_coins E w =
     ((let? data := getitem doc "data" in add_manual_symbols data), w)) /\
  (t < ts_now E /\ coinlist_max_age < ts_now E - t ->
   (is_ok (getitem doc "data") = true ->
    exists k, requests (snd (all_coins E w))
                = requests w ++ replicate (S k) CoinList) /\
   (forall e, getitem doc "data" = Raise e -> all_coins E w = (Raise e, w))).
Proof.
  intros Hfile Ht.
  pose proof (read_coinlist_cache_document E (files w) doc t Hfile Ht) as Hread.
  split.
  - intros Hfresh.
    assert (Hcond : (t <? ts_now E) && (ts_now E - t >? coinlist_max_age) = false).
    { destruct (Z.ltb_spec t (ts_now E)); [| reflexivity].
      destruct (Z.gtb_spec (ts_now E - t) coinlist_max_age); [lia | reflexivity]. }
    rewrite Hcond in Hread.
    unfold all_coins, bind, get_world, lift. rewrite Hread.
    destruct (getitem doc "data"); reflexivity.
  - intros [Hold Hage].
    assert (Hcond : (t <? ts_now E) && (ts_now E - t >? coinlist_max_age) = true).
    { destruct (Z.ltb_spec t (ts_now E)); [| lia].
      destruct (Z.gtb_spec (ts_now E - t) coinlist_max_age); [reflexivity | lia]. }
    rewrite Hcond in Hread. split.
    + intros Hdata. destruct (getitem doc "data") as [v |]; [| discriminate Hdata].
      simpl in Hread.
      destruct (api_query_loop_traffic E CoinList 10 w) as [k [_ [Hreq _]]].
      exists k. unfold all_coins, bind at 1, get_world. unfold bind at 1, lift at 1.
      rewrite Hread. unfold bind at 1. unfold bind at 1.
      change (api_query_loop E 10 CoinList w) with (_api_query E CoinList w) in Hreq.
      destruct (_api_query E CoinList w) as [[data | e] w1]; cbn [snd] in Hreq.
      * unfold bind at 1, write_coinlist at 1. unfold ret, lift.
        destruct (add_manual_symbols data); exact Hreq.
      * exact Hreq.
    + intros e He. rewrite He in Hread. simpl in Hread.
      unfold all_coins, bind, get_world, lift. rewrite Hread. reflexivity.
Qed.

Lemma coinlist_cache_expiry_witness :
  all_coins (coinlist_env 2629900) (world_with_coinlist 100)
    = (Ok (fold_left (fun acc kv => coins_set acc (fst kv) (snd kv)) manual_symbols
             [("BTC"%string, Listed (JInt 1))]),
       world_with_coinlist 100) /\
  exists k,
    requests (snd (all_coins (coinlist_env 2629901) (world_with_coinlist 100)))
      = [] ++ replicate (S k) CoinList.
Proof.
  destruct (coinlist_cache_expiry (coinlist_env 2629900) (world_with_coinlist 100)
              (JDict [("time"%string, JInt 100);
                      ("data"%string, JDict [("BTC"%string, JInt 1)])]) 100
              eq_refl eq_refl) as [Hfresh _].
  destruct (coinlist_cache_expiry (coinlist_env 2629901) (world_with_coinlist 100)
              (JDict [("time"%string, JInt 100);
                      ("data"%string, JDict [("BTC"%string, JInt 1)])]) 100
              eq_refl eq_refl) as [_ Hstale].
  split.
  - rewrite Hfresh; [reflexivity |]. left. vm_compute. discriminate.
  - apply Hstale; [split; reflexivity | reflexivity].
Defined.

(** X28: when [all_coins] had to ask the server and succeeded, the coin
    list it wrote is found again: any later call within 2629800 seconds,
    whatever the server would answer then, returns the same dictionary and
    changes nothing. *)
Theorem fetched_coinlist_is_reused (E : Env) (w w' : world)
    (coins : list (string * coin)) :
  read_coinlist_cache E (files w) = Ok None ->
  all_coins E w = (Ok coins, w') ->
  forall srv now2,
    now2 - ts_now E <= coinlist_max_age ->
    all_coins (mkEnv srv (to_cryptocompare E) (is_fiat E) (historian E) now2
                 (data_directory E)) w'
      = (Ok coins, w').
Proof.
  intros Hread H srv now2 Hsoon.
  unfold all_coins in H. unfold bind at 1, get_world in H.
  unfold bind at 1, lift at 1 in H. rewrite Hread in H.
  apply bind_inv in H. destruct H as [data [w3 [Hdata H]]].
  apply lift_inv in H. destruct H as [Hadd ->].
  apply bind_inv in Hdata. destruct Hdata as [answer [w1 [Hquery Hdata]]].
  unfold bind, write_coinlist, ret in Hdata. inversion Hdata; subst data w3; clear Hdata.
  set (E2 := mkEnv srv (to_cryptocompare E) (is_fiat E) (historian E) now2
               (data_directory E)).
  assert (Hread2 : read_coinlist_cache E2
                     (<[coinlist_cache_path E :=
                          FileJson (JDict [("time"%string, JInt (ts_now E));
                                           ("data"%string, answer)])]> (files w1))
                   = Ok (Some (JDict [("time"%string, JInt (ts_now E));
                                      ("data"%string, answer)]))).
  { rewrite (read_coinlist_cache_document E2 _
               (JDict [("time"%string, JInt (ts_now E)); ("data"%string, answer)])
               (ts_now E)).
    - cbn [ts_now E2].
      destruct (Z.ltb_spec (ts_now E) now2); [| reflexivity].
      destruct (Z.gtb_spec (now2 - ts_now E) coinlist_max_age); [lia | reflexivity].
    - change (coinlist_cache_path E2) with (coinlist_cache_path E).
      apply lookup_insert_eq.
    - reflexivity. }
  unfold all_coins, bind, get_world, lift. cbn [files]. rewrite Hread2.
  cbn [getitem dict_get]. simpl. rewrite Hadd. reflexivity.
Qed.

Lemma fetched_coinlist_is_reused_witness :
  exists coins,
    all_coins (coinlist_env 1000) empty_world
      = (Ok coins, snd (all_coins (coinlist_env 1000) empty_world)) /\
    all_coins (mkEnv (fun _ _ => ConnectionError) Ok (fun _ => false) no_historian
                 2000 "data")
      (snd (all_coins (coinlist_env 1000) empty_world))
      = (Ok coins, snd (all_coins (coinlist_env 1000) empty_world)).
Proof.
  assert (Hrun : exists coins,
            all_coins (coinlist_env 1000) empty_world
              = (Ok coins, snd (all_coins (coinlist_env 1000) empty_world)))
    by (vm_compute; eexists; reflexivity).
  destruct Hrun as [coins Hrun]. exists coins. split; [exact Hrun |].
  apply (fetched_coinlist_is_reused (coinlist_env 1000) empty_world _ coins
           eq_refl Hrun (fun _ _ => ConnectionError) 2000).
  vm_compute. discriminate.
Defined.
